(** * Attendance poller: poll, dedup, persist, forward

    A shallow embedding of the attendance service (index.js and its
    remote-sync variant): the per-terminal fetch, the cycle that merges
    the terminals' results and accepts unseen records, the day-file
    store, the forwarder and the two file endpoints.

    JavaScript values are modelled by their primitive forms.  Numbers
    are the integers (device identifiers, roles and epoch milliseconds
    are integers); [JNaN] is the one non-integer number the code can
    produce.  An object is a Rocq record of the properties the code
    reads, an absent property being [JUndefined].  A [Date] object in a
    raw device log is modelled by its time value: the code only passes
    it to [new Date], which reads a date and its time value alike.
    The answers of the SDK and the items of a day file hold primitives;
    the one place where the code comes to hold an object it did not
    build is the [name] of a record, looked up in a plain object whose
    prototype chain the lookup follows.

    A thrown value is any value: the code reads its [message], which an
    object without that property and a primitive answer with undefined,
    and which null and undefined answer with a TypeError.
    The awaits of one cycle are the only points where another cycle
    or a request can run, so the synchronous stretches between them
    are the atomic steps of the model. *)

From stdpp Require Import gmap strings list fin_maps pretty.

Local Open Scope string_scope.
Local Open Scope list_scope.

(** ** JavaScript values *)

Inductive jsval : Type :=
  | JUndefined
  | JNull
  | JBool (b : bool)
  | JNum (n : Z)
  | JNaN
  | JStr (s : string).

#[global] Instance jsval_eq_dec : EqDecision jsval.
Proof. solve_decision. Defined.

(** ToBoolean: what [a && b], [a || b] and [if (a)] test. *)
Definition truthy (v : jsval) : bool :=
  match v with
  | JUndefined | JNull | JNaN => false
  | JBool b => b
  | JNum n => negb (n =? 0)%Z
  | JStr s => negb (String.eqb s "")
  end.

(** [a || b] *)
Definition js_or (a b : jsval) : jsval := if truthy a then a else b.

(** ToString, as a template literal and a property key apply it.
    [JNum n] stands for a number of magnitude below 10^21, as the
    identifiers, roles and epoch milliseconds of the devices are:
    JavaScript prints these in decimal, and larger ones in exponent
    form, which is not modelled. *)
Definition to_string (v : jsval) : string :=
  match v with
  | JUndefined => "undefined"
  | JNull => "null"
  | JBool true => "true"
  | JBool false => "false"
  | JNum n => pretty n
  | JNaN => "NaN"
  | JStr s => s
  end.

(** [a === b]: NaN is not equal to itself. *)
Definition strict_eq (a b : jsval) : bool :=
  match a, b with
  | JNaN, _ | _, JNaN => false
  | _, _ => bool_decide (a = b)
  end.

(** SameValueZero, the key equality of [Map]: NaN equals NaN. *)
Definition same_value_zero (a b : jsval) : bool := bool_decide (a = b).

(** JSON.parse (JSON.stringify v) on a property value: NaN is written
    as null, every other primitive comes back unchanged. *)
Definition json_value (v : jsval) : jsval :=
  match v with JNaN => JNull | _ => v end.

(** What the [name] of a record can hold: a primitive, a member of
    Object.prototype that a lookup in a plain object reached through
    the prototype chain ([Inherited key] is [Object.prototype[key]]: a
    function, and for [__proto__] Object.prototype itself), or the
    empty object that Object.prototype comes back as from JSON. *)
Inductive value : Type :=
  | Prim (v : jsval)
  | Inherited (key : string)
  | EmptyObject.

Coercion Prim : jsval >-> value.

#[global] Instance value_eq_dec : EqDecision value.
Proof. solve_decision. Defined.

(** ToBoolean again: objects and functions are truthy. *)
Definition value_truthy (v : value) : bool :=
  match v with
  | Prim p => truthy p
  | Inherited _ | EmptyObject => true
  end.

(** [a || b] *)
Definition value_or (a b : value) : value := if value_truthy a then a else b.

(** JSON.parse (JSON.stringify v) on a property value that may be an
    object: a property holding a function is left out and reads as
    undefined; Object.prototype has no enumerable property of its own
    and is written as [{}]. *)
Definition json_of_value (v : value) : value :=
  match v with
  | Prim p => Prim (json_value p)
  | Inherited key => if String.eqb key "__proto__" then EmptyObject else Prim JUndefined
  | EmptyObject => EmptyObject
  end.

(** The [Date] built-in, as far as the code uses it:
    [Date_getTime v] is [new Date(v).getTime()], [None] standing for NaN
    (an invalid date); [Date_toISOString t] is [toISOString()] of the
    date whose time value is [t].  On an invalid date [toISOString]
    throws a RangeError. *)
Class DateImpl : Type := {
  Date_getTime : jsval -> option Z;
  Date_toISOString : Z -> string
}.

(** ** Strings *)

(** [s.includes(p)] *)
Fixpoint includes (p s : string) : bool :=
  String.prefix p s ||
  match s with
  | EmptyString => false
  | String _ s' => includes p s'
  end.

(** [s.endsWith(p)] *)
Definition endsWith (p s : string) : bool :=
  (String.length p <=? String.length s)%nat &&
  String.eqb (String.substring (String.length s - String.length p) (String.length p) s) p.

(** ** Data model *)

(** An attendance log: the raw device log and the enriched record are
    the same object shape, the raw one lacking [name], [type] and
    [deviceIP].  [passthrough] holds the other own properties of the raw
    log, which the spread copies and nothing reads. *)
Record record : Type := Record_ {
  deviceUserId : jsval;
  recordTime : jsval;
  deviceIP : jsval;
  name : value;
  type : jsval;
  userSn : jsval;
  passthrough : list (string * jsval)
}.

#[global] Instance record_eq_dec : EqDecision record.
Proof. solve_decision. Defined.

(** A row of the terminal's user table; [userName] is the property [name]. *)
Record user : Type := User {
  userId : jsval;
  userName : jsval;
  role : jsval
}.

#[global] Instance user_eq_dec : EqDecision user.
Proof. solve_decision. Defined.

Inductive status_t : Type := online | offline | initializing.

(** [info]: the terminal's metadata (opaque), [{}], or the synthetic
    summary of the combined view. *)
Inductive info_t : Type :=
  | InfoEmpty
  | InfoDevice (i : string)
  | InfoCombined (userCounts logCount : nat).

(** The per-terminal result, and the combined view; [snapshotIP] is the
    property [deviceIP]. *)
Record snapshot : Type := Snapshot {
  info : info_t;
  allUsers : list user;
  adminUsers : list user;
  attendanceLogs : list record;
  snapshotIP : string;
  status : status_t;
  error : jsval
}.

(** ** Failure and the device SDK *)

(** A thrown value, by what reading its [message] gives.  [Thrown m] is
    an object, or a primitive other than null and undefined, on which
    [message] reads [m]: the message of an [Error], undefined for a value
    without that property (the SDK rejects with objects of its own that
    carry the cause under another name).  Null and undefined have no
    properties. *)
Inductive js_error : Type :=
  | Thrown (m : jsval)
  | ThrownNull
  | ThrownUndefined.

(** The TypeError of reading a property of null or undefined. *)
Record type_error : Type := TypeError { message : string }.

(** [err.message] *)
Definition read_message (err : js_error) : type_error + jsval :=
  match err with
  | Thrown m => inr m
  | ThrownNull =>
      inl (TypeError "Cannot read properties of null (reading 'message')")
  | ThrownUndefined =>
      inl (TypeError "Cannot read properties of undefined (reading 'message')")
  end.

Inductive completion (A : Type) : Type :=
  | Normal (a : A)
  | Throw (e : js_error).
Arguments Normal {A} a.
Arguments Throw {A} e.

(** The outcome of a promise under [Promise.allSettled].  The promises
    the code settles are those of fetchDeviceData, whose [catch] block
    can throw nothing but the TypeError of [err.message]. *)
Inductive settled (A : Type) : Type :=
  | Fulfilled (value : A)
  | Rejected (reason : type_error).
Arguments Fulfilled {A} value.
Arguments Rejected {A} reason.

(** One session with a terminal: what each SDK call answers.  [None]
    for [getUsers] and [getAttendances] is an answer without [data]
    (or a nullish answer), which [users?.data || []] turns into [[]];
    [None] for [getInfo] is a falsy answer. *)
Record device : Type := Device {
  createSocket : completion unit;
  getInfo : completion (option string);
  getUsers : completion (option (list user));
  getAttendances : completion (option (list record));
  disconnect : completion unit
}.

Inductive sdk_call : Type :=
  | CreateSocket | GetInfo | GetUsers | GetAttendances | Disconnect.

#[global] Instance sdk_call_eq_dec : EqDecision sdk_call.
Proof. solve_decision. Defined.

(** The body of a [try] block that talks to the SDK: the calls made so
    far, and how the block completes. *)
Definition comp (A : Type) : Type := list sdk_call * completion A.

#[global] Instance comp_ret : MRet comp := fun A a => ([], Normal a).

#[global] Instance comp_bind : MBind comp := fun A B k m =>
  match m with
  | (tr, Normal a) => let '(tr', r) := k a in (tr ++ tr', r)
  | (tr, Throw e) => (tr, Throw e)
  end.

(** [await zkInstance.c()] *)
Definition call {A} (c : sdk_call) (answer : completion A) : comp A := ([c], answer).

(** A computation of the block that makes no SDK call. *)
Definition lift {A} (r : completion A) : comp A := ([], r).

(** [xs.map(f)] where [f] may throw: the first throw ends the map. *)
Fixpoint map_throwing {A B} (f : A -> completion B) (xs : list A) : completion (list B) :=
  match xs with
  | [] => Normal []
  | x :: xs' =>
      match f x with
      | Throw e => Throw e
      | Normal y =>
          match map_throwing f xs' with
          | Throw e => Throw e
          | Normal ys => Normal (y :: ys)
          end
      end
  end.

(** ** Plain objects used as maps *)

(** The names Object.prototype defines. *)
Definition Object_prototype_keys : list string :=
  ["constructor"; "__defineGetter__"; "__defineSetter__"; "hasOwnProperty";
   "__lookupGetter__"; "__lookupSetter__"; "isPrototypeOf"; "propertyIsEnumerable";
   "toString"; "valueOf"; "__proto__"; "toLocaleString"].

(** An object built by [{}] and filled by assignments of primitives:
    its own properties, and whether its prototype is still
    Object.prototype or has been removed. *)
Record plain_object : Type := PlainObject {
  own : gmap string jsval;
  has_prototype : bool
}.

(** ** fetchDeviceData *)

Section Fetch.
Context `{DateImpl}.

(** [userMap[id] = v].  Property keys are strings, and a later user
    overwrites an earlier one.  While the object has its prototype, the
    key [__proto__] is the accessor of Object.prototype: assigning null
    removes the prototype, assigning any other primitive does nothing. *)
Definition userMap_set (m : plain_object) (id v : jsval) : plain_object :=
  let key := to_string id in
  if has_prototype m && String.eqb key "__proto__"
  then match v with
       | JNull => {| own := own m; has_prototype := false |}
       | _ => m
       end
  else {| own := <[key := v]> (own m); has_prototype := has_prototype m |}.

(** [const userMap = {};
     allUsers.forEach(user => { userMap[user.userId] = user.name })] *)
Definition build_userMap (users : list user) : plain_object :=
  fold_left (fun m u => userMap_set m (userId u) (userName u)) users
            {| own := ∅; has_prototype := true |}.

(** [userMap[id]]: an own property, else the member of Object.prototype
    of that name, else undefined. *)
Definition userMap_get (m : plain_object) (id : jsval) : value :=
  let key := to_string id in
  match own m !! key with
  | Some v => Prim v
  | None =>
      if has_prototype m && bool_decide (key ∈ Object_prototype_keys)
      then Inherited key
      else Prim JUndefined
  end.

(** The callback of [attendanceLogs.map]. *)
Definition enhance (ip : string) (userMap : plain_object) (log : record)
  : completion record :=
  match Date_getTime (recordTime log) with
  | None => Throw (Thrown (JStr "Invalid time value"))
  | Some t =>
      Normal {| deviceUserId := deviceUserId log;
                recordTime := JStr (Date_toISOString t);
                deviceIP := JStr ip;
                name := value_or (userMap_get userMap (deviceUserId log)) (JStr "Unknown");
                type := JStr (if String.eqb ip "192.168.18.253" then "IN" else "OUT");
                userSn := userSn log;
                passthrough := passthrough log |}
  end.

(** The [try] block. *)
Definition fetch_try (ip : string) (zk : device) : comp snapshot :=
  _ ← call CreateSocket (createSocket zk);
  info ← call GetInfo (getInfo zk);
  users ← call GetUsers (getUsers zk);
  logs ← call GetAttendances (getAttendances zk);
  let allUsers := default [] users in
  let adminUsers := filter (fun u => strict_eq (role u) (JNum 14) = true) allUsers in
  let attendanceLogs := default [] logs in
  let userMap := build_userMap allUsers in
  enhancedLogs ← lift (map_throwing (enhance ip userMap) attendanceLogs);
  _ ← call Disconnect (disconnect zk);
  mret {| info := from_option InfoDevice InfoEmpty info;
         allUsers := allUsers;
         adminUsers := adminUsers;
         attendanceLogs := enhancedLogs;
         snapshotIP := ip;
         status := online;
         error := JUndefined |}.

(** What the [catch] block returns, [msg] being [err.message]. *)
Definition offline_snapshot (ip : string) (msg : jsval) : snapshot :=
  {| info := InfoEmpty;
     allUsers := [];
     adminUsers := [];
     attendanceLogs := [];
     snapshotIP := ip;
     status := offline;
     error := msg |}.

(** The [catch] block: it reads [err.message], to log it and to build
    the result; when the read throws, the promise is rejected. *)
Definition fetch_catch (ip : string) (err : js_error) : settled snapshot :=
  match read_message err with
  | inr msg => Fulfilled (offline_snapshot ip msg)
  | inl reason => Rejected reason
  end.

(** The whole function: the SDK calls it made, and how its promise
    settles. *)
Definition fetchDeviceData (ip : string) (zk : device) : list sdk_call * settled snapshot :=
  match fetch_try ip zk with
  | (tr, Normal v) => (tr, Fulfilled v)
  | (tr, Throw err) => (tr, fetch_catch ip err)
  end.

(** The first step of the fetch that fails, and the error it raises. *)
Inductive first_failure (ip : string) (zk : device) : js_error -> Prop :=
  | fail_connect e :
      createSocket zk = Throw e ->
      first_failure ip zk e
  | fail_info e :
      createSocket zk = Normal () ->
      getInfo zk = Throw e ->
      first_failure ip zk e
  | fail_users e i :
      createSocket zk = Normal () ->
      getInfo zk = Normal i ->
      getUsers zk = Throw e ->
      first_failure ip zk e
  | fail_logs e i us :
      createSocket zk = Normal () ->
      getInfo zk = Normal i ->
      getUsers zk = Normal us ->
      getAttendances zk = Throw e ->
      first_failure ip zk e
  | fail_enrich e i us ls :
      createSocket zk = Normal () ->
      getInfo zk = Normal i ->
      getUsers zk = Normal us ->
      getAttendances zk = Normal ls ->
      map_throwing (enhance ip (build_userMap (default [] us))) (default [] ls) = Throw e ->
      first_failure ip zk e
  | fail_disconnect e i us ls enhanced :
      createSocket zk = Normal () ->
      getInfo zk = Normal i ->
      getUsers zk = Normal us ->
      getAttendances zk = Normal ls ->
      map_throwing (enhance ip (build_userMap (default [] us))) (default [] ls) = Normal enhanced ->
      disconnect zk = Throw e ->
      first_failure ip zk e.

End Fetch.

(** ** The store and the process-wide state *)

(** What reading and parsing a file of the data directory gives:
    [Unreadable why] when [readFileSync] or [JSON.parse] throws an error
    whose message is [why], [NotArray] for a JSON value that is not an
    array, [ArrayOf items] for an array.  An item is null, an object, or
    any other JSON value (number, string, boolean, array), on which
    every property reads as undefined. *)
Inductive json_item : Type :=
  | ItemNull
  | ItemOther
  | ItemObject (r : record).

Inductive file_content : Type :=
  | Unreadable (why : string)
  | NotArray
  | ArrayOf (items : list json_item).

(** The globals of the module, and the files of the data directory. *)
Record world : Type := World {
  allAttendanceRecords : list record;
  uniqueSignatures : gset string;
  latestDeviceData : gmap string snapshot;
  files : gmap string file_content
}.

(** A record in the collector's schema. *)
Record csharp_record : Type := CSharpRecord {
  UserSN : jsval;
  DeviceUserID : jsval;
  UserName : value;
  RecordTime : option Z;
  DeviceIP : jsval;
  Type_ : jsval
}.

(** What a run does to the outside, in order.  [FsWrite] carries
    whether the write went through. *)
Inductive effect : Type :=
  | FsExists (path : string)
  | FsRead (path : string)
  | FsUnlink (path : string)
  | FsWrite (path : string) (content : file_content) (ok : bool)
  | HttpPost (payload : list csharp_record).

(** *** Paths

    [path.join] of the POSIX flavour of Node: the arguments are joined
    by [/] and the result is normalised: empty segments and [.] are
    dropped, [..] takes the segment before it away. *)

(** The segments of a path, the parts between its separators. *)
Fixpoint split_path (s : string) : list string :=
  match s with
  | EmptyString => [""]
  | String c s' =>
      if Ascii.eqb c (Ascii.ascii_of_nat 47) then "" :: split_path s'
      else match split_path s' with
           | seg :: rest => String c seg :: rest
           | [] => [String c ""]
           end
  end.

(** One step of the normalisation, on the segments kept so far, the
    last one first. *)
Definition push_segment (allowAboveRoot : bool) (kept : list string) (seg : string)
  : list string :=
  if String.eqb seg "" || String.eqb seg "." then kept
  else if String.eqb seg ".." then
    match kept with
    | last :: before =>
        if String.eqb last ".."
        then (if allowAboveRoot then ".." :: kept else kept)
        else before
    | [] => if allowAboveRoot then [".."] else []
    end
  else seg :: kept.

(** [path.normalize(p)] *)
Definition path_normalize (p : string) : string :=
  if String.eqb p "" then "."
  else
    let isAbsolute := String.prefix "/" p in
    let trailingSeparator := endsWith "/" p in
    let kept := rev (fold_left (push_segment (negb isAbsolute)) (split_path p) []) in
    let body := String.concat "/" kept in
    if String.eqb body ""
    then (if isAbsolute then "/" else if trailingSeparator then "./" else ".")
    else (if isAbsolute then "/" else "") +:+ body +:+
         (if trailingSeparator then "/" else "").

(** [path.join(dir, f)]: an empty argument is skipped. *)
Definition path_join (dir f : string) : string :=
  if String.eqb dir "" then (if String.eqb f "" then "." else path_normalize f)
  else if String.eqb f "" then path_normalize dir
  else path_normalize (dir +:+ "/" +:+ f).

(** The data directory, [path.join(__dirname, 'data')]: paths are
    written from the directory of the module. *)
Definition dataDir : string := "data".

(** The file of the day [today], [today] being the date part of
    [new Date().toISOString()]. *)
Definition day_file (today : string) : string :=
  path_join dataDir ("attendance_" +:+ today +:+ ".json").

(** JSON.parse (JSON.stringify r) *)
Definition json_record (r : record) : record :=
  {| deviceUserId := json_value (deviceUserId r);
     recordTime := json_value (recordTime r);
     deviceIP := json_value (deviceIP r);
     name := json_of_value (name r);
     type := json_value (type r);
     userSn := json_value (userSn r);
     passthrough := map (fun kv => (kv.1, json_value kv.2)) (passthrough r) |}.

Definition initializing_snapshot (ip : string) : snapshot :=
  {| info := InfoEmpty; allUsers := []; adminUsers := []; attendanceLogs := [];
     snapshotIP := ip; status := initializing; error := JUndefined |}.

(** The module's state when it is loaded, over the files [fs]. *)
Definition initial_world (fs : gmap string file_content) : world :=
  {| allAttendanceRecords := [];
     uniqueSignatures := ∅;
     latestDeviceData :=
       <["192.168.18.252" := initializing_snapshot "192.168.18.252"]>
         (<["192.168.18.253" := initializing_snapshot "192.168.18.253"]> ∅);
     files := fs |}.

(** The records accepted so far, the signatures known, and the number
    accepted by the running cycle. *)
Record accepted : Type := Accepted {
  acc_records : list record;
  acc_signatures : gset string;
  acc_count : nat
}.

Section Store.
Context `{DateImpl}.

Definition createRecordSignature (r : record) : string :=
  to_string (deviceIP r) +:+ "_" +:+ to_string (deviceUserId r) +:+ "_" +:+
  match Date_getTime (recordTime r) with
  | Some t => pretty t
  | None => "NaN"
  end.

(** The body of both dedup loops:
    [if (!uniqueSignatures.has(sig)) { add; push; count++ }]. *)
Definition accept_record (a : accepted) (r : record) : accepted :=
  let sig := createRecordSignature r in
  if bool_decide (sig ∈ acc_signatures a) then a
  else {| acc_records := acc_records a ++ [r];
          acc_signatures := {[sig]} ∪ acc_signatures a;
          acc_count := S (acc_count a) |}.

(** [logs.forEach(record => ...)] *)
Definition accept_all (logs : list record) (a : accepted) : accepted :=
  fold_left accept_record logs a.

(** [data.forEach(item => ...)] of the load: reading a property of
    null throws, an item lacking a truthy [deviceUserId] or
    [recordTime] is skipped. *)
Fixpoint load_items (items : list json_item) (a : accepted) : completion accepted :=
  match items with
  | [] => Normal a
  | ItemNull :: _ =>
      Throw (Thrown (JStr "Cannot read properties of null (reading 'deviceUserId')"))
  | ItemOther :: rest => load_items rest a
  | ItemObject r :: rest =>
      if truthy (deviceUserId r) && truthy (recordTime r)
      then load_items rest (accept_record a r)
      else load_items rest a
  end.

Definition loadExistingRecords (today : string) (w : world) : world :=
  let cleared := {| allAttendanceRecords := [];
                    uniqueSignatures := ∅;
                    latestDeviceData := latestDeviceData w;
                    files := files w |} in
  match files w !! day_file today with
  | None => cleared
  | Some (Unreadable _) => cleared
  | Some NotArray => cleared
  | Some (ArrayOf items) =>
      match load_items items (Accepted [] ∅ 0) with
      | Throw _ => cleared
      | Normal a =>
          {| allAttendanceRecords := acc_records a;
             uniqueSignatures := acc_signatures a;
             latestDeviceData := latestDeviceData w;
             files := files w |}
      end
  end.

(** [saveRecords]: the whole list overwrites the day file; a failed
    write is logged and changes nothing. *)
Definition saveRecords (today : string) (disk_ok : bool) (w : world) : world * list effect :=
  let content := ArrayOf (map (fun r => ItemObject (json_record r)) (allAttendanceRecords w)) in
  if disk_ok
  then ({| allAttendanceRecords := allAttendanceRecords w;
           uniqueSignatures := uniqueSignatures w;
           latestDeviceData := latestDeviceData w;
           files := <[day_file today := content]> (files w) |},
        [FsWrite (day_file today) content true])
  else (w, [FsWrite (day_file today) content false]).

End Store.

(** ** The cycle *)

Definition devices : list string := ["192.168.18.253"; "192.168.18.252"].

(** [new Map(entries)] keeps the entries in the order their keys were
    first set; setting a key again replaces its value in place. *)
Fixpoint Map_set {V} (k : jsval) (v : V) (m : list (jsval * V)) : list (jsval * V) :=
  match m with
  | [] => [(k, v)]
  | (k', v') :: m' =>
      if same_value_zero k' k then (k', v) :: m'
      else (k', v') :: Map_set k v m'
  end.

Definition new_Map {V} (entries : list (jsval * V)) : list (jsval * V) :=
  fold_left (fun m kv => Map_set kv.1 kv.2 m) entries [].

(** [[...new Map(users.map(user => [user.userId, user])).values()]] *)
Definition unique_users (users : list user) : list user :=
  map snd (new_Map (map (fun u => (userId u, u)) users)).

(** What the outside answers during one cycle: the date, each
    terminal's session, whether the disk takes a write, and how the
    collector answers a POST. *)
Inductive http_outcome : Type :=
  | HttpOk (data : string)
  | HttpFail (msg : string).

Record cycle_env : Type := CycleEnv {
  today : string;
  terminal : string -> device;
  disk_ok : bool;
  http : http_outcome
}.

Record cycle_result : Type := CycleResult {
  deviceData : gmap string snapshot;
  combinedData : snapshot;
  newRecordsCount : nat;
  totalRecords : nat;
  apiSent : option bool
}.

(** The locals that [results.forEach] updates. *)
Record batch : Type := Batch {
  currentBatchData : gmap string snapshot;
  combinedLogs : list record;
  combinedAllUsers : list user;
  combinedAdminUsers : list user;
  index : accepted
}.

Record api_result : Type := ApiResult {
  success : bool;
  api_message : option string;
  api_data : option string;
  api_error : option string;
  recordsSent : option nat
}.

Section Cycle.
Context `{DateImpl}.

(** The callback of [results.forEach], [ip] being [devices[index]]. *)
Definition collect_result (b : batch) (ip : string) (result : settled snapshot) : batch :=
  match result with
  | Fulfilled deviceData =>
      {| currentBatchData := <[ip := deviceData]> (currentBatchData b);
         combinedLogs := combinedLogs b ++ attendanceLogs deviceData;
         combinedAllUsers := combinedAllUsers b ++ allUsers deviceData;
         combinedAdminUsers := combinedAdminUsers b ++ adminUsers deviceData;
         index := accept_all (attendanceLogs deviceData) (index b) |}
  | Rejected reason =>
      {| currentBatchData :=
           <[ip := offline_snapshot ip (JStr (message reason))]> (currentBatchData b);
         combinedLogs := combinedLogs b;
         combinedAllUsers := combinedAllUsers b;
         combinedAdminUsers := combinedAdminUsers b;
         index := index b |}
  end.

(** [results.forEach((result, index) => ...)] over the results paired
    with [devices[index]]. *)
Definition collect_all (l : list (string * settled snapshot)) (b : batch) : batch :=
  fold_left (fun b ir => collect_result b ir.1 ir.2) l b.

(** [Promise.allSettled(devices.map(ip => fetchDeviceData(ip)))] *)
Definition fetch_all (terminal : string -> device) : list (settled snapshot) :=
  map (fun ip => (fetchDeviceData ip (terminal ip)).2) devices.

Definition combined_snapshot (b : batch) : snapshot :=
  {| info := InfoCombined (length (combinedAllUsers b)) (length (combinedLogs b));
     allUsers := unique_users (combinedAllUsers b);
     adminUsers := unique_users (combinedAdminUsers b);
     attendanceLogs := combinedLogs b;
     snapshotIP := "Multiple Devices";
     status := online;
     error := JUndefined |}.

(** The part the two variants of the cycle share: fetch, collect,
    build the combined view, replace [latestDeviceData].  The
    placeholders [{}] that [currentBatchData] starts with are all
    overwritten, so the map starts empty here. *)
Definition poll_and_accept (env : cycle_env) (w : world) : world * batch :=
  let results := fetch_all (terminal env) in
  let start := {| currentBatchData := ∅;
                  combinedLogs := [];
                  combinedAllUsers := [];
                  combinedAdminUsers := [];
                  index := Accepted (allAttendanceRecords w) (uniqueSignatures w) 0 |} in
  let b := collect_all (zip devices results) start in
  let batchData := <["combined" := combined_snapshot b]> (currentBatchData b) in
  ({| allAttendanceRecords := acc_records (index b);
      uniqueSignatures := acc_signatures (index b);
      latestDeviceData := batchData;
      files := files w |},
   b).

(** index.js.  Nothing inside its [try] throws, so the result is
    always the full record. *)
Definition fetchAndSaveNewRecords (env : cycle_env) (w : world)
  : world * cycle_result * list effect :=
  let '(w1, b) := poll_and_accept env w in
  let n := acc_count (index b) in
  let '(w2, effects) :=
    if (0 <? n)%nat then saveRecords (today env) (disk_ok env) w1 else (w1, []) in
  (w2,
   {| deviceData := latestDeviceData w2;
      combinedData := combined_snapshot b;
      newRecordsCount := n;
      totalRecords := length (allAttendanceRecords w2);
      apiSent := None |},
   effects).

(** *** The forwarder (remote-sync variant) *)

Definition convertToCSharpFormat (logs : list record) : list csharp_record :=
  map (fun log =>
         {| UserSN := js_or (userSn log) (JNum 0);
            DeviceUserID :=
              js_or (match deviceUserId log with
                     | JUndefined | JNull => JUndefined
                     | v => JStr (to_string v)
                     end) (JStr "");
            UserName := value_or (name log) (JStr "Unknown");
            RecordTime := Date_getTime (recordTime log);
            DeviceIP := js_or (deviceIP log) (JStr "");
            Type_ := js_or (type log) (JStr "UNKNOWN") |}) logs.

Definition sendToCSharpAPI (answer : http_outcome) (records : list record)
  : api_result * list effect :=
  match records with
  | [] => ({| success := false; api_message := Some "No records to send";
              api_data := None; api_error := None; recordsSent := None |}, [])
  | _ =>
      let convertedRecords := convertToCSharpFormat records in
      match answer with
      | HttpOk data =>
          ({| success := true; api_message := None; api_data := Some data;
              api_error := None; recordsSent := Some (length records) |},
           [HttpPost convertedRecords])
      | HttpFail msg =>
          ({| success := false; api_message := None; api_data := None;
              api_error := Some msg; recordsSent := Some 0%nat |},
           [HttpPost convertedRecords])
      end
  end.

(** [xs.slice(-n)] for [n > 0] *)
Definition slice_last {A} (n : nat) (xs : list A) : list A :=
  drop (length xs - n) xs.

Definition fetchAndSendToAPI (env : cycle_env) (w : world)
  : world * cycle_result * list effect :=
  let '(w1, b) := poll_and_accept env w in
  let n := acc_count (index b) in
  let '(w2, effects) :=
    if (0 <? n)%nat then
      let '(w2, saved) := saveRecords (today env) (disk_ok env) w1 in
      let newRecords := slice_last n (allAttendanceRecords w2) in
      let '(apiResult, sent) := sendToCSharpAPI (http env) newRecords in
      (w2, saved ++ sent)
    else (w1, []) in
  (w2,
   {| deviceData := latestDeviceData w2;
      combinedData := combined_snapshot b;
      newRecordsCount := n;
      totalRecords := length (allAttendanceRecords w2);
      apiSent := Some (0 <? n)%nat |},
   effects).

End Cycle.

Arguments collect_all : simpl never.
Arguments accept_all : simpl never.

(** ** The earlier merge: fetchAllDeviceData *)

(** [xs.findIndex(p)]: -1 when no element passes. *)
Fixpoint findIndex {A} (p : A -> bool) (xs : list A) : Z :=
  match xs with
  | [] => -1
  | x :: xs' =>
      if p x then 0
      else let i := findIndex p xs' in
           if (i =? -1)%Z then -1 else (i + 1)%Z
  end.

Fixpoint filter_from {A} (f : A -> Z -> bool) (i : Z) (xs : list A) : list A :=
  match xs with
  | [] => []
  | x :: xs' =>
      if f x i then x :: filter_from f (i + 1)%Z xs'
      else filter_from f (i + 1)%Z xs'
  end.

(** [xs.filter((x, index, self) => f(x, index, self))] *)
Definition filter_indexed {A} (f : A -> Z -> list A -> bool) (xs : list A) : list A :=
  filter_from (fun x i => f x i xs) 0 xs.

(** [users.filter((user, index, self) =>
       index === self.findIndex(u => u.userId === user.userId))] *)
Definition first_users (users : list user) : list user :=
  filter_indexed
    (fun user index self =>
       (index =? findIndex (fun u => strict_eq (userId u) (userId user)) self)%Z)
    users.

Record combined_view : Type := CombinedView {
  view_allUsers : list user;
  view_adminUsers : list user;
  view_attendanceLogs : list record;
  view_info : info_t
}.

(** The callback of [results.forEach] in fetchAllDeviceData, on the
    combined data. *)
Definition merge_result (c : combined_view) (result : settled snapshot) : combined_view :=
  match result with
  | Fulfilled value =>
      {| view_allUsers := view_allUsers c ++ allUsers value;
         view_adminUsers := view_adminUsers c ++ adminUsers value;
         view_attendanceLogs := view_attendanceLogs c ++ attendanceLogs value;
         view_info := match view_info c with
                      | InfoEmpty => info value
                      | i => i
                      end |}
  | Rejected _ => c
  end.

(** The combined data fetchAllDeviceData returns for the settled
    results of its terminals. *)
Definition fetchAllDeviceData (results : list (settled snapshot)) : combined_view :=
  let c := fold_left merge_result results (CombinedView [] [] [] InfoEmpty) in
  {| view_allUsers := first_users (view_allUsers c);
     view_adminUsers := first_users (view_adminUsers c);
     view_attendanceLogs := view_attendanceLogs c;
     view_info := view_info c |}.

(** ** The file endpoints *)

Inductive response_body : Type :=
  | BodyError (msg : string)
  | BodyMessage (msg : string)
  | BodyJson (c : file_content).

Record response : Type := Response {
  code : nat;
  body : response_body
}.

(** The guard of both endpoints. *)
Definition rejected_filename (filename : string) : bool :=
  includes ".." filename || negb (endsWith ".json" filename).

(** GET /api/files/:filename *)
Definition get_file (filename : string) (fs : gmap string file_content)
  : response * list effect :=
  if rejected_filename filename
  then (Response 400 (BodyError "Invalid filename"), [])
  else
    let filePath := path_join dataDir filename in
    match fs !! filePath with
    | None => (Response 404 (BodyError "File not found"), [FsExists filePath])
    | Some (Unreadable why) =>
        (Response 500 (BodyError why), [FsExists filePath; FsRead filePath])
    | Some c => (Response 200 (BodyJson c), [FsExists filePath; FsRead filePath])
    end.

(** DELETE /api/files/:filename; [unlink_ok] tells whether [unlinkSync]
    goes through. *)
Definition delete_file (unlink_ok : bool) (filename : string) (fs : gmap string file_content)
  : response * gmap string file_content * list effect :=
  if rejected_filename filename
  then (Response 400 (BodyError "Invalid filename"), fs, [])
  else
    let filePath := path_join dataDir filename in
    match fs !! filePath with
    | None => (Response 404 (BodyError "File not found"), fs, [FsExists filePath])
    | Some _ =>
        if unlink_ok
        then (Response 200 (BodyMessage "File deleted successfully"),
              delete filePath fs, [FsExists filePath; FsUnlink filePath])
        else (Response 500 (BodyError "unlink failed"), fs,
              [FsExists filePath; FsUnlink filePath])
    end.

Definition is_digit (c : Ascii.ascii) : bool :=
  (48 <=? Ascii.nat_of_ascii c)%nat && (Ascii.nat_of_ascii c <=? 57)%nat.

(** A day stamp, [YYYY-MM-DD]. *)
Definition is_day_stamp (s : string) : bool :=
  (String.length s =? 10)%nat &&
  forallb is_digit
    (String.list_ascii_of_string
       (String.substring 0 4 s +:+ String.substring 5 2 s +:+ String.substring 8 2 s)) &&
  String.eqb (String.substring 4 1 s) "-" &&
  String.eqb (String.substring 7 1 s) "-".

(** A bare day-stamped filename: the name [saveRecords] gives the file
    of a day, [attendance_YYYY-MM-DD.json], with no directory part. *)
Definition day_stamped_filename (filename : string) : bool :=
  (String.length filename =? 26)%nat &&
  String.eqb (String.substring 0 11 filename) "attendance_" &&
  is_day_stamp (String.substring 11 10 filename) &&
  String.eqb (String.substring 21 5 filename) ".json".

(** ** The ISO 8601 fragment of [Date] *)

Module IsoDate.

Definition days_from_civil (y m d : Z) : Z :=
  let y' := if (m <=? 2)%Z then (y - 1)%Z else y in
  let era := (y' / 400)%Z in
  let yoe := (y' - era * 400)%Z in
  let doy := ((153 * (if (2 <? m)%Z then m - 3 else m + 9) + 2) / 5 + d - 1)%Z in
  let doe := (yoe * 365 + yoe / 4 - yoe / 100 + doy)%Z in
  (era * 146097 + doe - 719468)%Z.

Definition civil_from_days (days : Z) : Z * Z * Z :=
  let z := (days + 719468)%Z in
  let era := (z / 146097)%Z in
  let doe := (z - era * 146097)%Z in
  let yoe := ((doe - doe / 1460 + doe / 36524 - doe / 146096) / 365)%Z in
  let doy := (doe - (365 * yoe + yoe / 4 - yoe / 100))%Z in
  let mp := ((5 * doy + 2) / 153)%Z in
  let d := (doy - (153 * mp + 2) / 5 + 1)%Z in
  let m := if (mp <? 10)%Z then (mp + 3)%Z else (mp - 9)%Z in
  let y := (yoe + era * 400)%Z in
  (if (m <=? 2)%Z then (y + 1)%Z else y, m, d).

Fixpoint digits_value (acc : Z) (cs : list Ascii.ascii) : option Z :=
  match cs with
  | [] => Some acc
  | c :: cs' =>
      if is_digit c
      then digits_value (acc * 10 + Z.of_nat (Ascii.nat_of_ascii c) - 48)%Z cs'
      else None
  end.

Definition number_at (start len : nat) (s : string) : option Z :=
  let part := String.substring start len s in
  if (String.length part =? len)%nat
  then digits_value 0 (String.list_ascii_of_string part)
  else None.

Definition within (lo x hi : Z) : bool := (lo <=? x)%Z && (x <=? hi)%Z.

(** The largest time value of a [Date]. *)
Definition max_time : Z := 8640000000000000.

(** [Date.parse] on the date-time format with the offset [Z]:
    [YYYY-MM-DDTHH:mm:ssZ] and [YYYY-MM-DDTHH:mm:ss.sssZ], the year
    being four digits or a sign and six digits; [None] is NaN.  Hour 24
    is midnight at the end of the day; the day of the month is checked
    against 1..31 only, a day past the end of the month counting into
    the next one.  Other spellings of a date are outside this fragment
    and read as NaN here. *)
Definition parse (s : string) : option Z :=
  let expanded := String.prefix "+" s || String.prefix "-" s in
  let yw := if expanded then 7%nat else 4%nat in
  let n := (String.length s - yw)%nat in
  if negb ((n =? 16)%nat || (n =? 20)%nat) then None
  else if negb (String.eqb (String.substring yw 1 s) "-" &&
                String.eqb (String.substring (yw + 3) 1 s) "-" &&
                String.eqb (String.substring (yw + 6) 1 s) "T" &&
                String.eqb (String.substring (yw + 9) 1 s) ":" &&
                String.eqb (String.substring (yw + 12) 1 s) ":" &&
                String.eqb (String.substring (yw + n - 1) 1 s) "Z" &&
                ((n =? 16)%nat || String.eqb (String.substring (yw + 15) 1 s) "."))
  then None
  else
    y ← (if expanded
         then a ← number_at 1 6 s;
              if String.prefix "-" s
              then (if (a =? 0)%Z then None else Some (- a)%Z)
              else Some a
         else number_at 0 4 s);
    m ← number_at (yw + 1) 2 s;
    d ← number_at (yw + 4) 2 s;
    hh ← number_at (yw + 7) 2 s;
    mm ← number_at (yw + 10) 2 s;
    ss ← number_at (yw + 13) 2 s;
    ms ← (if (n =? 20)%nat then number_at (yw + 16) 3 s else Some 0%Z);
    let t := (days_from_civil y m d * 86400000 +
              hh * 3600000 + mm * 60000 + ss * 1000 + ms)%Z in
    if within 1 m 12 && within 1 d 31 && within 0 mm 59 && within 0 ss 59 &&
       (within 0 hh 23 || ((hh =? 24)%Z && (mm =? 0)%Z && (ss =? 0)%Z && (ms =? 0)%Z)) &&
       within (- max_time) t max_time
    then Some t
    else None.

(** [new Date(v).getTime()] *)
Definition getTime (v : jsval) : option Z :=
  match v with
  | JUndefined | JNaN => None
  | JNull => Some 0%Z
  | JBool b => Some (if b then 1 else 0)%Z
  | JNum n => if within (- max_time) n max_time then Some n else None
  | JStr s => parse s
  end.

(** [n] in decimal, padded with zeros to [width] digits. *)
Definition pad (width : nat) (n : Z) : string :=
  let s := pretty n in
  String.concat "" (replicate (width - String.length s) "0") +:+ s.

Definition toISOString (t : Z) : string :=
  let days := (t / 86400000)%Z in
  let rest := (t mod 86400000)%Z in
  let '(y, m, d) := civil_from_days days in
  (if within 0 y 9999 then pad 4 y
   else (if (y <? 0)%Z then "-" else "+") +:+ pad 6 (Z.abs y)) +:+
  "-" +:+ pad 2 m +:+ "-" +:+ pad 2 d +:+
  "T" +:+ pad 2 (rest / 3600000) +:+
  ":" +:+ pad 2 (rest mod 3600000 / 60000) +:+
  ":" +:+ pad 2 (rest mod 60000 / 1000) +:+
  "." +:+ pad 3 (rest mod 1000) +:+ "Z".

Definition impl : DateImpl :=
  {| Date_getTime := getTime; Date_toISOString := toISOString |}.

End IsoDate.

(** ** Runs of the service *)

(** One atomic step of the process: a load, a cycle of either variant,
    or a change of the data directory from outside (an edit, or a
    delete through the endpoint).  Between two awaits the code of a
    cycle runs without interleaving, and every update of the record
    list and of the signature set happens inside one such stretch. *)
Inductive step `{DateImpl} : world -> world -> Prop :=
  | step_load today w :
      step w (loadExistingRecords today w)
  | step_cycle env w :
      step w (fetchAndSaveNewRecords env w).1.1
  | step_sync env w :
      step w (fetchAndSendToAPI env w).1.1
  | step_outside fs w :
      step w {| allAttendanceRecords := allAttendanceRecords w;
                uniqueSignatures := uniqueSignatures w;
                latestDeviceData := latestDeviceData w;
                files := fs |}.

Definition reachable `{DateImpl} (w : world) : Prop :=
  exists fs, rtc step (initial_world fs) w.

(** The same surroundings with another answer of the collector. *)
Definition with_http (env : cycle_env) (answer : http_outcome) : cycle_env :=
  {| today := today env; terminal := terminal env;
     disk_ok := disk_ok env; http := answer |}.

(** The users of the fulfilled results, in order. *)
Definition merged_users (results : list (settled snapshot)) : list user :=
  flat_map (fun r => match r with
                     | Fulfilled v => allUsers v
                     | Rejected _ => []
                     end) results.

(** The entries of a user list that carry the identifier [id]. *)
Definition entries_for (id : jsval) (users : list user) : list user :=
  filter (fun u => userId u = id) users.

(** The logs of the fulfilled results, in order. *)
Definition merged_logs (results : list (settled snapshot)) : list record :=
  flat_map (fun r => match r with
                     | Fulfilled v => attendanceLogs v
                     | Rejected _ => []
                     end) results.

(** The entries of a [Map] under the key [id]. *)
Definition under {V} (id : jsval) (m : list (jsval * V)) : list (jsval * V) :=
  filter (fun kv => kv.1 = id) m.

(** The entries [[user.userId, user]] the combined view builds its
    [Map] from. *)
Definition keyed (users : list user) : list (jsval * user) :=
  map (fun u => (userId u, u)) users.

(** Every entry of the map holds a user under the user's own
    identifier. *)
Definition self_keyed (m : list (jsval * user)) : Prop :=
  forall k u, (k, u) ∈ m -> k = userId u.

(** The records' signatures are pairwise distinct, and all known. *)
Definition consistent `{DateImpl} (records : list record) (sigs : gset string) : Prop :=
  NoDup (createRecordSignature <$> records) /\
  forall r, r ∈ records -> createRecordSignature r ∈ sigs.

(** ** Scenarios *)

Module Scenario.

#[local] Existing Instance IsoDate.impl.

Definition alice : user := User (JNum 7) (JStr "Alice") (JNum 0).

Definition raw_log : record :=
  {| deviceUserId := JNum 7;
     recordTime := JStr "2024-01-01T08:00:00Z";
     deviceIP := JUndefined;
     name := JUndefined;
     type := JUndefined;
     userSn := JUndefined;
     passthrough := [] |}.

(** A terminal that answers every call, with Alice and her log. *)
Definition answering : device :=
  {| createSocket := Normal ();
     getInfo := Normal None;
     getUsers := Normal (Some [alice]);
     getAttendances := Normal (Some [raw_log]);
     disconnect := Normal () |}.

(** A terminal that cannot be reached. *)
Definition unreachable : device :=
  {| createSocket := Throw (Thrown (JStr "TIMEOUT_ON_CONNECT"));
     getInfo := Throw (Thrown (JStr "not connected"));
     getUsers := Throw (Thrown (JStr "not connected"));
     getAttendances := Throw (Thrown (JStr "not connected"));
     disconnect := Throw (Thrown (JStr "not connected")) |}.

(** A terminal that connects and then fails to read its user table. *)
Definition failing_users : device :=
  {| createSocket := Normal ();
     getInfo := Normal None;
     getUsers := Throw (Thrown (JStr "TIMEOUT_ON_RECEIVING_REQUEST_DATA"));
     getAttendances := Normal (Some [raw_log]);
     disconnect := Normal () |}.

(** The network in which only the terminal [ip] answers. *)
Definition only (ip : string) : string -> device :=
  fun a => if String.eqb a ip then answering else unreachable.

Definition env_of (terminals : string -> device) : cycle_env :=
  {| today := "2024-01-01"; terminal := terminals; disk_ok := true;
     http := HttpFail "Request failed with status code 500" |}.

(** The enriched record the scenario of the specification expects. *)
Definition expected_record : record :=
  {| deviceUserId := JNum 7;
     recordTime := JStr "2024-01-01T08:00:00Z";
     deviceIP := JStr "10.0.0.1";
     name := JStr "Alice";
     type := JStr "IN";
     userSn := JUndefined;
     passthrough := [] |}.

(** The record the code builds when the answering terminal is
    192.168.18.253. *)
Definition enriched_record : record :=
  {| deviceUserId := JNum 7;
     recordTime := JStr "2024-01-01T08:00:00.000Z";
     deviceIP := JStr "192.168.18.253";
     name := JStr "Alice";
     type := JStr "IN";
     userSn := JUndefined;
     passthrough := [] |}.

(** What fetchDeviceData builds from Alice's log when the answering
    terminal is 10.0.0.1. *)
Definition record_of_10_0_0_1 : record :=
  {| deviceUserId := JNum 7;
     recordTime := JStr "2024-01-01T08:00:00.000Z";
     deviceIP := JStr "10.0.0.1";
     name := JStr "Alice";
     type := JStr "OUT";
     userSn := JUndefined;
     passthrough := [] |}.

(** Two terminals that know the same identifier under two names. *)
Definition user_x : user := User (JNum 1) (JStr "X") (JNum 0).
Definition user_y : user := User (JNum 1) (JStr "Y") (JNum 0).

Definition knowing (u : user) : device :=
  {| createSocket := Normal ();
     getInfo := Normal None;
     getUsers := Normal (Some [u]);
     getAttendances := Normal (Some []);
     disconnect := Normal () |}.

Definition two_names : string -> device :=
  fun a => if String.eqb a "192.168.18.253" then knowing user_x else knowing user_y.

(** The online result of a terminal whose user table holds [u] alone. *)
Definition online_with (ip : string) (u : user) : snapshot :=
  {| info := InfoEmpty; allUsers := [u]; adminUsers := []; attendanceLogs := [];
     snapshotIP := ip; status := online; error := JUndefined |}.

(** The value of a fulfilled promise. *)
Definition value_of (r : settled snapshot) : snapshot :=
  match r with
  | Fulfilled v => v
  | Rejected e => offline_snapshot "" (JStr (message e))
  end.

(** The state after a load and one cycle in which 192.168.18.253
    answers. *)
Definition after_first_cycle : world :=
  (fetchAndSaveNewRecords (env_of (only "192.168.18.253"))
     (loadExistingRecords "2024-01-01" (initial_world ∅))).1.1.

End Scenario.

(** ** The health endpoints *)

(** GET /api/health of index.js: the counts it reports.
    [latestDeviceData['combined']?.allUsers?.length || 0] is 0 when
    there is no combined entry yet. *)
Record health : Type := Health {
  health_totalRecords : nat;
  health_totalUsers : nat;
  health_adminUsers : nat
}.

Definition api_health (w : world) : health :=
  {| health_totalRecords := length (allAttendanceRecords w);
     health_totalUsers :=
       from_option (fun c => length (allUsers c)) 0 (latestDeviceData w !! "combined");
     health_adminUsers :=
       from_option (fun c => length (adminUsers c)) 0 (latestDeviceData w !! "combined") |}.

Definition status_name (s : status_t) : string :=
  match s with
  | online => "online"
  | offline => "offline"
  | initializing => "initializing"
  end.

(** GET /api/health of the remote-sync variant: the scheduler's
    [lastRun], the two device statuses and [dataStats]. *)
Record sync_health : Type := SyncHealth {
  lastRun : string;
  device1 : string;
  device2 : string;
  dataStats_totalRecords : nat;
  dataStats_uniqueSignatures : nat
}.

Definition api_sync_health (w : world) : sync_health :=
  {| lastRun :=
       match latestDeviceData w !! "192.168.18.253" with
       | Some s => match status s with
                   | initializing => "Never"
                   | _ => "Recently"
                   end
       | None => "Recently"
       end;
     device1 :=
       from_option (fun s => status_name (status s)) "unknown"
                   (latestDeviceData w !! "192.168.18.253");
     device2 :=
       from_option (fun s => status_name (status s)) "unknown"
                   (latestDeviceData w !! "192.168.18.252");
     dataStats_totalRecords := length (allAttendanceRecords w);
     dataStats_uniqueSignatures := size (uniqueSignatures w) |}.

(** ** The dashboard variant (first module of index.js) *)

Module Dashboard.

(** The callback of [attendanceLogs.map]: the record time is copied as
    the device gave it. *)
Definition enhance (ip : string) (userMap : plain_object) (log : record) : record :=
  {| deviceUserId := deviceUserId log;
     recordTime := recordTime log;
     deviceIP := JStr ip;
     name := value_or (userMap_get userMap (deviceUserId log)) (JStr "Unknown");
     type := JStr (if String.eqb ip "192.168.18.253" then "IN" else "OUT");
     userSn := userSn log;
     passthrough := passthrough log |}.

Definition fetch_try (ip : string) (zk : device) : comp snapshot :=
  _ ← call CreateSocket (createSocket zk);
  info ← call GetInfo (getInfo zk);
  users ← call GetUsers (getUsers zk);
  logs ← call GetAttendances (getAttendances zk);
  let allUsers := default [] users in
  let adminUsers := filter (fun u => strict_eq (role u) (JNum 14) = true) allUsers in
  let attendanceLogs := default [] logs in
  let userMap := build_userMap allUsers in
  let enhancedLogs := map (enhance ip userMap) attendanceLogs in
  _ ← call Disconnect (disconnect zk);
  mret {| info := from_option InfoDevice InfoEmpty info;
          allUsers := allUsers;
          adminUsers := adminUsers;
          attendanceLogs := enhancedLogs;
          snapshotIP := ip;
          status := online;
          error := JUndefined |}.

Definition fetchDeviceData (ip : string) (zk : device) : list sdk_call * settled snapshot :=
  match fetch_try ip zk with
  | (tr, Normal v) => (tr, Fulfilled v)
  | (tr, Throw err) => (tr, fetch_catch ip err)
  end.

(** [deviceData] of fetchAllDeviceData: the result of each terminal,
    or the offline entry built from a rejection. *)
Definition device_entry (ip : string) (result : settled snapshot) : snapshot :=
  match result with
  | Fulfilled value => value
  | Rejected reason => offline_snapshot ip (JStr (message reason))
  end.

(** fetchAllDeviceData over the terminals: [deviceData] and
    [combinedData]. *)
Definition poll (terminal : string -> device) : gmap string snapshot * combined_view :=
  let results := map (fun ip => (fetchDeviceData ip (terminal ip)).2) devices in
  (fold_left (fun m ir => <[ir.1 := device_entry ir.1 ir.2]> m) (zip devices results) ∅,
   fetchAllDeviceData results).

End Dashboard.

(** ** Notions the properties use *)

(** The items of a day file that the load can take: objects with a
    truthy [deviceUserId] and [recordTime]. *)
Definition loadable (items : list json_item) : list record :=
  flat_map (fun item =>
              match item with
              | ItemObject r =>
                  if truthy (deviceUserId r) && truthy (recordTime r) then [r] else []
              | _ => []
              end) items.

(** The signatures of a list of records, as a set. *)
Definition signatures_of `{DateImpl} (records : list record) : gset string :=
  list_to_set (createRecordSignature <$> records).

(** How an enriched log relates to the raw log it was built from. *)
Definition enriched_from `{DateImpl} (ip : string) (users : list user)
    (raw enriched : record) : Prop :=
  deviceUserId enriched = deviceUserId raw /\
  deviceIP enriched = JStr ip /\
  type enriched = JStr (if String.eqb ip "192.168.18.253" then "IN" else "OUT") /\
  name enriched =
    value_or (userMap_get (build_userMap users) (deviceUserId raw)) (JStr "Unknown") /\
  userSn enriched = userSn raw /\
  passthrough enriched = passthrough raw /\
  exists t, Date_getTime (recordTime raw) = Some t /\
            recordTime enriched = JStr (Date_toISOString t).

(** The result the cycle works with for a settled fetch of [ip]: the
    value of a fulfilled promise, the offline entry the cycle builds
    from a rejected one. *)
Definition settled_entry (ip : string) (r : settled snapshot) : snapshot :=
  match r with
  | Fulfilled value => value
  | Rejected reason => offline_snapshot ip (JStr (message reason))
  end.

(** What ends up as the error of a terminal whose fetch failed with
    [e]: the message the fetch read in its [catch] block, or the
    message of the TypeError that read raised. *)
Definition recorded_error (e : js_error) : jsval :=
  match read_message e with
  | inr msg => msg
  | inl reason => JStr (message reason)
  end.

(** A user whose assignment takes the prototype of [userMap] away:
    its userId prints [__proto__] and its name is null. *)
Definition removes_prototype_user (u : user) : bool :=
  String.eqb (to_string (userId u)) "__proto__" && bool_decide (userName u = JNull).

Definition removes_prototype (users : list user) : bool :=
  existsb removes_prototype_user users.

(** The users that come after the first one that removes the
    prototype. *)
Fixpoint after_removal (users : list user) : list user :=
  match users with
  | [] => []
  | u :: rest => if removes_prototype_user u then rest else after_removal rest
  end.

(** The users whose assignment stores a property under [key]: those
    whose userId prints [key], and for [__proto__] only those that come
    once the prototype is gone. *)
Definition writers (key : string) (users : list user) : list user :=
  filter (fun u => to_string (userId u) = key)
         (if String.eqb key "__proto__" then after_removal users else users).

(** The assignments of a user table, from the object [m] on. *)
Definition fill (users : list user) (m : plain_object) : plain_object :=
  fold_left (fun m u => userMap_set m (userId u) (userName u)) users m.

(** [r] is the log that the fetch of the terminal [ip] built from the
    raw log [raw], both at the same place of their lists. *)
Definition fetched_from `{DateImpl} (env : cycle_env) (ip : string) (raw r : record) : Prop :=
  ip ∈ devices /\
  exists s ls i,
    (fetchDeviceData ip (terminal env ip)).2 = Fulfilled s /\
    getAttendances (terminal env ip) = Normal ls /\
    default [] ls !! i = Some raw /\
    attendanceLogs s !! i = Some r.

(** A string without the character [_]. *)
Definition no_underscore (s : string) : Prop :=
  forall a b, s <> a +:+ "_" +:+ b.

(** What every cycle leaves in [latestDeviceData]. *)
Definition published (m : gmap string snapshot) : Prop :=
  (exists s1, m !! "192.168.18.253" = Some s1 /\ (status s1 = online \/ status s1 = offline)) /\
  (exists s2, m !! "192.168.18.252" = Some s2 /\ (status s2 = online \/ status s2 = offline)) /\
  (exists c, m !! "combined" = Some c /\ length (adminUsers c) <= length (allUsers c)).

(** A string of decimal digits and minus signs. *)
Fixpoint numeral (s : string) : Prop :=
  match s with
  | "" => True
  | String c s' => (is_digit c || Ascii.eqb c (Ascii.ascii_of_nat 45)) = true /\ numeral s'
  end.

(** ** Further cases *)

Module Cases.

Import Scenario.

(** A record whose user id is 0, from the other terminal. *)
Definition record_of_user_0 : record :=
  {| deviceUserId := JNum 0;
     recordTime := JStr "2024-01-01T09:00:00.000Z";
     deviceIP := JStr "192.168.18.252";
     name := JStr "Unknown";
     type := JStr "OUT";
     userSn := JUndefined;
     passthrough := [] |}.

(** A day file with a record, some other value, the record again, and
    the record of user 0. *)
Definition day_items : list json_item :=
  [ItemObject enriched_record; ItemOther; ItemObject enriched_record;
   ItemObject record_of_user_0].

(** The module just loaded, over a data directory whose file of
    2024-01-01 reads as [c]. *)
Definition world_with (c : file_content) : world :=
  initial_world {[day_file "2024-01-01" := c]}.

(** Alice again, a minute later. *)
Definition raw_log_later : record :=
  {| deviceUserId := JNum 7;
     recordTime := JStr "2024-01-01T08:01:00Z";
     deviceIP := JUndefined;
     name := JUndefined;
     type := JUndefined;
     userSn := JUndefined;
     passthrough := [] |}.

Definition enriched_later : record :=
  {| deviceUserId := JNum 7;
     recordTime := JStr "2024-01-01T08:01:00.000Z";
     deviceIP := JStr "192.168.18.253";
     name := JStr "Alice";
     type := JStr "IN";
     userSn := JUndefined;
     passthrough := [] |}.

(** A terminal that holds both logs of Alice. *)
Definition two_events : device :=
  {| createSocket := Normal ();
     getInfo := Normal None;
     getUsers := Normal (Some [alice]);
     getAttendances := Normal (Some [raw_log; raw_log_later]);
     disconnect := Normal () |}.


(** A terminal whose connection is rejected without a reason, that is
    with undefined. *)
Definition rejecting_bare : device :=
  {| createSocket := Throw ThrownUndefined;
     getInfo := Throw ThrownUndefined;
     getUsers := Throw ThrownUndefined;
     getAttendances := Throw ThrownUndefined;
     disconnect := Throw ThrownUndefined |}.

(** The network in which 192.168.18.253 answers and the connection to
    every other address is rejected without a reason. *)
Definition one_rejecting : string -> device :=
  fun a => if String.eqb a "192.168.18.253" then answering else rejecting_bare.

(** The surroundings in which 192.168.18.253 answers, the disk refuses
    every write and the collector accepts. *)
Definition refusing_disk : cycle_env :=
  {| today := "2024-01-01"; terminal := only "192.168.18.253";
     disk_ok := false; http := HttpOk "ok" |}.

(** A log whose deviceUserId is the name of a method every plain
    object inherits. *)
Definition log_of_toString : record :=
  {| deviceUserId := JStr "toString";
     recordTime := JStr "2024-01-01T08:02:00Z";
     deviceIP := JUndefined;
     name := JUndefined;
     type := JUndefined;
     userSn := JUndefined;
     passthrough := [] |}.

(** A terminal that knows Alice and holds her log and that log. *)
Definition with_method_name : device :=
  {| createSocket := Normal ();
     getInfo := Normal None;
     getUsers := Normal (Some [alice]);
     getAttendances := Normal (Some [raw_log; log_of_toString]);
     disconnect := Normal () |}.

(** The surroundings in which both addresses answer with the two
    logs. *)
Definition two_events_env : cycle_env := env_of (fun _ => two_events).

(** A terminal whose table holds an administrator and a plain user. *)
Definition admin_bob : user := User (JNum 2) (JStr "Bob") (JNum 14).

Definition with_admin : device :=
  {| createSocket := Normal ();
     getInfo := Normal (Some "ZK-F18");
     getUsers := Normal (Some [alice; admin_bob]);
     getAttendances := Normal (Some [raw_log]);
     disconnect := Normal () |}.

End Cases.

(** * Properties *)

(** ** The per-device fetch *)

(** Closes a goal [c ∈ tr -> _] where the call [c] is not in the
    explicit trace [tr]. *)
Ltac absent_call :=
  let Hin := fresh "Hin" in
  intros Hin;
  repeat (apply elem_of_cons in Hin as [Hin|Hin]; [discriminate Hin|]);
  by apply elem_of_nil in Hin.

Section FetchFacts.
Context `{DateImpl}.

(** The [try] block throws exactly when some step fails first. *)
Lemma fetch_try_throws ip zk e :
  first_failure ip zk e <-> (fetch_try ip zk).2 = Throw e.
Proof.
  unfold fetch_try, call, lift, mbind, comp_bind, mret, comp_ret. split.
  - intros Hf. destruct Hf;
      repeat match goal with
             | Heq : _ = _ |- _ => rewrite Heq; clear Heq
             end; simpl; try reflexivity.
  - destruct (createSocket zk) as [[]|e0] eqn:Hc; simpl.
    2: { intros [= ->]. by apply fail_connect. }
    destruct (getInfo zk) as [i|e0] eqn:Hi; simpl.
    2: { intros [= ->]. by apply fail_info. }
    destruct (getUsers zk) as [us|e0] eqn:Hu; simpl.
    2: { intros [= ->]. by eapply fail_users. }
    destruct (getAttendances zk) as [ls|e0] eqn:Hl; simpl.
    2: { intros [= ->]. by eapply fail_logs. }
    destruct (map_throwing _ _) as [en|e0] eqn:Hm; simpl.
    2: { intros [= ->]. by eapply fail_enrich. }
    destruct (disconnect zk) as [[]|e0] eqn:Hd; simpl.
    + discriminate.
    + intros [= ->]. by eapply fail_disconnect.
Qed.

(** The SDK calls the [try] block makes end with [Disconnect] only
    when every earlier step went through. *)
Lemma disconnect_called_iff ip zk :
  Disconnect ∈ (fetchDeviceData ip zk).1 <->
  exists i us ls enhanced,
    createSocket zk = Normal () /\ getInfo zk = Normal i /\
    getUsers zk = Normal us /\ getAttendances zk = Normal ls /\
    map_throwing (enhance ip (build_userMap (default [] us))) (default [] ls) = Normal enhanced.
Proof.
  unfold fetchDeviceData, fetch_try, call, lift, mbind, comp_bind, mret, comp_ret.
  destruct (createSocket zk) as [[]|e0] eqn:Hc; simpl.
  2: { split; [absent_call | intros (?&?&?&?&?&?); congruence]. }
  destruct (getInfo zk) as [i|e0] eqn:Hi; simpl.
  2: { split; [absent_call | intros (?&?&?&?&?&?&?); congruence]. }
  destruct (getUsers zk) as [us|e0] eqn:Hu; simpl.
  2: { split; [absent_call | intros (?&?&?&?&?&?&?&?); congruence]. }
  destruct (getAttendances zk) as [ls|e0] eqn:Hl; simpl.
  2: { split; [absent_call | intros (?&?&?&?&?&?&?&?&?); congruence]. }
  destruct (map_throwing _ _) as [en|e0] eqn:Hm; simpl.
  2: { split; [absent_call | intros (?&?&?&?&?&?&?&?&Hm'); congruence]. }
  split.
  - intros _. by exists i, us, ls, en.
  - intros _. destruct (disconnect zk) as [[]|e0]; simpl;
      do 4 apply list_elem_of_further; apply list_elem_of_here.
Qed.


End FetchFacts.



(** C6: a terminal that accepts the connection and then fails to
    answer getUsers.  The fetch makes three SDK calls and returns the
    offline result; disconnect is not among the calls, so the session
    opened by createSocket is never torn down. *)
Theorem teardown_skipped_after_failure :
  fetchDeviceData (H := IsoDate.impl) "192.168.18.253" Scenario.failing_users =
    ([CreateSocket; GetInfo; GetUsers],
     Fulfilled (offline_snapshot "192.168.18.253"
                  (JStr "TIMEOUT_ON_RECEIVING_REQUEST_DATA"))) /\
  Disconnect ∉ (fetchDeviceData (H := IsoDate.impl) "192.168.18.253" Scenario.failing_users).1.
Proof.
  split; [reflexivity|].
  change (Disconnect ∉ [CreateSocket; GetInfo; GetUsers]).
  absent_call.
Qed.

(** ** The dedup index *)

Section IndexFacts.
Context `{DateImpl}.

Lemma accept_record_extends a r :
  exists new,
    acc_records (accept_record a r) = acc_records a ++ new /\
    acc_count (accept_record a r) = acc_count a + length new /\
    acc_signatures a ⊆ acc_signatures (accept_record a r).
Proof.
  unfold accept_record. case_bool_decide; simpl.
  - exists []. rewrite app_nil_r. simpl. split_and!; [done | lia | done].
  - exists [r]. simpl. split_and!; [done | lia |]. apply union_subseteq_r.
Qed.

Lemma accept_all_extends logs a :
  exists new,
    acc_records (accept_all logs a) = acc_records a ++ new /\
    acc_count (accept_all logs a) = acc_count a + length new /\
    acc_signatures a ⊆ acc_signatures (accept_all logs a).
Proof.
  unfold accept_all. revert a. induction logs as [|r logs IH]; intros a; simpl.
  - exists []. rewrite app_nil_r. simpl. split_and!; [done | lia | done].
  - destruct (accept_record_extends a r) as (n1 & Hr1 & Hc1 & Hs1).
    destruct (IH (accept_record a r)) as (n2 & Hr2 & Hc2 & Hs2).
    exists (n1 ++ n2). rewrite Hr2, Hr1, Hc2, Hc1, length_app, <- app_assoc.
    split_and!; [done | lia | by etrans].
Qed.

Lemma accept_record_known a r :
  createRecordSignature r ∈ acc_signatures (accept_record a r).
Proof.
  unfold accept_record. case_bool_decide; simpl; [done|].
  apply elem_of_union_l, elem_of_singleton. reflexivity.
Qed.

Lemma accept_all_known logs a r :
  r ∈ logs -> createRecordSignature r ∈ acc_signatures (accept_all logs a).
Proof.
  unfold accept_all. revert a. induction logs as [|x logs IH]; intros a Hin; simpl.
  - by apply elem_of_nil in Hin.
  - apply elem_of_cons in Hin as [->|Hin]; [|by apply IH].
    destruct (accept_all_extends logs (accept_record a x)) as (_ & _ & _ & Hsub).
    apply Hsub, accept_record_known.
Qed.

Lemma accept_all_noop logs a :
  (forall r, r ∈ logs -> createRecordSignature r ∈ acc_signatures a) ->
  accept_all logs a = a.
Proof.
  unfold accept_all. induction logs as [|x logs IH]; intros Hk; simpl; [done|].
  assert (Hx : accept_record a x = a).
  { unfold accept_record. rewrite bool_decide_eq_true_2; [done|].
    apply Hk, list_elem_of_here. }
  rewrite Hx. apply IH. intros r Hr. by apply Hk, list_elem_of_further.
Qed.

Lemma accept_record_consistent a r :
  consistent (acc_records a) (acc_signatures a) ->
  consistent (acc_records (accept_record a r)) (acc_signatures (accept_record a r)).
Proof.
  intros [Hnd Hin]. unfold accept_record. case_bool_decide as Hsig; simpl; [done|].
  split.
  - rewrite fmap_app. apply NoDup_app. split_and!; [done| |apply NoDup_singleton].
    intros sg Hsg Hsg'. apply list_elem_of_singleton in Hsg'. subst sg.
    apply list_elem_of_fmap in Hsg as (r' & Heq & Hr').
    apply Hsig. rewrite Heq. by apply Hin.
  - intros r' Hr'. apply elem_of_app in Hr' as [Hr'|Hr'].
    + by apply elem_of_union_r, Hin.
    + apply list_elem_of_singleton in Hr'. subst r'.
      apply elem_of_union_l, elem_of_singleton. reflexivity.
Qed.

Lemma accept_all_consistent logs a :
  consistent (acc_records a) (acc_signatures a) ->
  consistent (acc_records (accept_all logs a)) (acc_signatures (accept_all logs a)).
Proof.
  unfold accept_all. revert a. induction logs as [|r logs IH]; intros a Hc; simpl; [done|].
  by apply IH, accept_record_consistent.
Qed.

Lemma load_items_consistent items a a' :
  load_items items a = Normal a' ->
  consistent (acc_records a) (acc_signatures a) ->
  consistent (acc_records a') (acc_signatures a').
Proof.
  revert a. induction items as [|item items IH]; intros a Hl Hc; simpl in Hl.
  - by injection Hl as <-.
  - destruct item as [| |r]; [discriminate | by eapply IH |].
    destruct (truthy (deviceUserId r) && truthy (recordTime r)).
    + eapply IH; [exact Hl|]. by apply accept_record_consistent.
    + by eapply IH.
Qed.

Lemma consistent_empty : consistent [] ∅.
Proof. split; [constructor | intros r Hr; by apply elem_of_nil in Hr]. Qed.

(** *** results.forEach *)

Lemma collect_all_extends l b :
  exists new,
    acc_records (index (collect_all l b)) = acc_records (index b) ++ new /\
    acc_count (index (collect_all l b)) = acc_count (index b) + length new /\
    acc_signatures (index b) ⊆ acc_signatures (index (collect_all l b)).
Proof.
  unfold collect_all. revert b. induction l as [|[ip res] l IH]; intros b; simpl.
  - exists []. rewrite app_nil_r. simpl. split_and!; [done | lia | done].
  - destruct (IH (collect_result b ip res)) as (n2 & Hr2 & Hc2 & Hs2).
    destruct res as [v|e]; simpl in *.
    + destruct (accept_all_extends (attendanceLogs v) (index b)) as (n1 & Hr1 & Hc1 & Hs1).
      exists (n1 ++ n2). rewrite Hr2, Hr1, Hc2, Hc1, length_app, <- app_assoc.
      split_and!; [done | lia | by etrans].
    + by exists n2.
Qed.

Lemma collect_all_consistent l b :
  consistent (acc_records (index b)) (acc_signatures (index b)) ->
  consistent (acc_records (index (collect_all l b))) (acc_signatures (index (collect_all l b))).
Proof.
  unfold collect_all. revert b. induction l as [|[ip res] l IH]; intros b Hc; simpl; [done|].
  apply IH. destruct res as [v|e]; simpl; [|done]. by apply accept_all_consistent.
Qed.

Lemma collect_all_known l b ip v r :
  (ip, Fulfilled v) ∈ l -> r ∈ attendanceLogs v ->
  createRecordSignature r ∈ acc_signatures (index (collect_all l b)).
Proof.
  revert b. induction l as [|[ip' res] l IH]; intros b Hin Hr.
  - by apply elem_of_nil in Hin.
  - apply elem_of_cons in Hin as [Heq|Hin].
    + injection Heq as <- <-.
      destruct (collect_all_extends l (collect_result b ip (Fulfilled v))) as (_ & _ & _ & Hsub).
      apply Hsub. simpl. by apply accept_all_known.
    + by apply (IH (collect_result b ip' res)).
Qed.

Lemma collect_all_noop l b :
  (forall ip v r, (ip, Fulfilled v) ∈ l -> r ∈ attendanceLogs v ->
                  createRecordSignature r ∈ acc_signatures (index b)) ->
  index (collect_all l b) = index b.
Proof.
  unfold collect_all. revert b. induction l as [|[ip res] l IH]; intros b Hk; simpl; [done|].
  assert (Hb : index (collect_result b ip res) = index b).
  { destruct res as [v|e]; simpl; [|done].
    apply accept_all_noop. intros r Hr. eapply Hk; [apply list_elem_of_here | done]. }
  rewrite IH; [done|]. intros ip' v r Hin Hr. rewrite Hb.
  eapply Hk; [by apply list_elem_of_further | done].
Qed.

End IndexFacts.

(** ** The cycle and the store *)

Section CycleFacts.
Context `{DateImpl}.

Lemma poll_and_accept_extends env w :
  exists new,
    allAttendanceRecords (poll_and_accept env w).1 = allAttendanceRecords w ++ new /\
    acc_count (index (poll_and_accept env w).2) = length new /\
    uniqueSignatures w ⊆ uniqueSignatures (poll_and_accept env w).1 /\
    files (poll_and_accept env w).1 = files w.
Proof.
  unfold poll_and_accept. simpl.
  match goal with
  | |- context [collect_all ?l ?b] =>
      destruct (collect_all_extends l b) as (new & Hr & Hc & Hs)
  end.
  exists new. simpl in *. by rewrite Hr, Hc.
Qed.

Lemma poll_and_accept_consistent env w :
  consistent (allAttendanceRecords w) (uniqueSignatures w) ->
  consistent (allAttendanceRecords (poll_and_accept env w).1)
             (uniqueSignatures (poll_and_accept env w).1).
Proof.
  intros Hc. unfold poll_and_accept. simpl. by apply collect_all_consistent.
Qed.

Lemma saveRecords_keeps_index day ok w :
  allAttendanceRecords (saveRecords day ok w).1 = allAttendanceRecords w /\
  uniqueSignatures (saveRecords day ok w).1 = uniqueSignatures w.
Proof. unfold saveRecords. by destruct ok. Qed.

Lemma fetchAndSaveNewRecords_index env w :
  allAttendanceRecords (fetchAndSaveNewRecords env w).1.1 =
    allAttendanceRecords (poll_and_accept env w).1 /\
  uniqueSignatures (fetchAndSaveNewRecords env w).1.1 =
    uniqueSignatures (poll_and_accept env w).1 /\
  newRecordsCount (fetchAndSaveNewRecords env w).1.2 =
    acc_count (index (poll_and_accept env w).2).
Proof.
  unfold fetchAndSaveNewRecords.
  destruct (poll_and_accept env w) as [w1 b]. simpl.
  destruct (0 <? acc_count (index b))%nat; simpl; [|done].
  destruct (saveRecords_keeps_index (today env) (disk_ok env) w1) as [Hr Hs].
  destruct (saveRecords _ _ w1) as [w2 eff]. simpl in *. by rewrite Hr, Hs.
Qed.

Lemma fetchAndSendToAPI_index env w :
  allAttendanceRecords (fetchAndSendToAPI env w).1.1 =
    allAttendanceRecords (poll_and_accept env w).1 /\
  uniqueSignatures (fetchAndSendToAPI env w).1.1 =
    uniqueSignatures (poll_and_accept env w).1 /\
  newRecordsCount (fetchAndSendToAPI env w).1.2 =
    acc_count (index (poll_and_accept env w).2).
Proof.
  unfold fetchAndSendToAPI.
  destruct (poll_and_accept env w) as [w1 b]. simpl.
  destruct (0 <? acc_count (index b))%nat; simpl; [|done].
  destruct (saveRecords_keeps_index (today env) (disk_ok env) w1) as [Hr Hs].
  destruct (saveRecords _ _ w1) as [w2 eff]. simpl in *.
  destruct (sendToCSharpAPI _ _) as [res sent]. simpl. by rewrite Hr, Hs.
Qed.

Lemma loadExistingRecords_consistent day w :
  consistent (allAttendanceRecords (loadExistingRecords day w))
             (uniqueSignatures (loadExistingRecords day w)).
Proof.
  unfold loadExistingRecords.
  destruct (files w !! day_file day) as [[why| |items]|]; simpl;
    try apply consistent_empty.
  destruct (load_items items (Accepted [] ∅ 0)) as [a|e] eqn:Hl; simpl;
    [|apply consistent_empty].
  eapply load_items_consistent; [exact Hl|]. apply consistent_empty.
Qed.

Lemma step_consistent w w' :
  step w w' ->
  consistent (allAttendanceRecords w) (uniqueSignatures w) ->
  consistent (allAttendanceRecords w') (uniqueSignatures w').
Proof.
  intros Hstep Hc. destruct Hstep as [day w|env w|env w|fs w].
  - apply loadExistingRecords_consistent.
  - destruct (fetchAndSaveNewRecords_index env w) as (-> & -> & _).
    by apply poll_and_accept_consistent.
  - destruct (fetchAndSendToAPI_index env w) as (-> & -> & _).
    by apply poll_and_accept_consistent.
  - done.
Qed.

Lemma reachable_consistent w :
  reachable w -> consistent (allAttendanceRecords w) (uniqueSignatures w).
Proof.
  intros [fs Hrun].
  assert (Hinit : consistent (allAttendanceRecords (initial_world fs))
                             (uniqueSignatures (initial_world fs)))
    by apply consistent_empty.
  revert Hinit. induction Hrun as [w|w1 w2 w3 Hstep _ IH]; intros Hc; [done|].
  by apply IH, (step_consistent w1).
Qed.

(** C1: in every state the service reaches from its start by loads,
    cycles of either variant and changes of the data directory from
    outside, the signatures of the records of allAttendanceRecords are
    pairwise distinct, and each of them is in uniqueSignatures. *)
Theorem store_signatures_unique w :
  reachable w ->
  NoDup (createRecordSignature <$> allAttendanceRecords w) /\
  forall r, r ∈ allAttendanceRecords w -> createRecordSignature r ∈ uniqueSignatures w.
Proof. apply reachable_consistent. Qed.

(** C4: let a cycle run from any state, and a second cycle run right
    after it against terminals that answer as before (whatever the
    date, the disk and the collector do the second time): the second
    cycle reports newRecordsCount = 0. *)
Theorem second_cycle_finds_nothing env w day' disk' http' :
  let w1 := (fetchAndSaveNewRecords env w).1.1 in
  let env' := {| today := day'; terminal := terminal env;
                 disk_ok := disk'; http := http' |} in
  newRecordsCount (fetchAndSaveNewRecords env' w1).1.2 = 0.
Proof.
  intros w1 env'.
  destruct (fetchAndSaveNewRecords_index env' w1) as (_ & _ & ->).
  destruct (fetchAndSaveNewRecords_index env w) as (Hr & Hs & _).
  fold w1 in Hr, Hs. unfold poll_and_accept at 1. simpl.
  rewrite collect_all_noop; [done|].
  intros ip v r Hin Hlog. simpl. rewrite Hs. unfold poll_and_accept. simpl.
  by eapply collect_all_known.
Qed.

(** C7: a cycle whose new-record count is zero performs no effect on
    the outside, so no write of the day file; the files and the
    record list are the ones it started with. *)
Theorem no_new_records_no_write env w :
  newRecordsCount (fetchAndSaveNewRecords env w).1.2 = 0 ->
  (fetchAndSaveNewRecords env w).2 = [] /\
  files (fetchAndSaveNewRecords env w).1.1 = files w /\
  allAttendanceRecords (fetchAndSaveNewRecords env w).1.1 = allAttendanceRecords w.
Proof.
  intros Hzero.
  destruct (fetchAndSaveNewRecords_index env w) as (_ & _ & Hn).
  rewrite Hn in Hzero. clear Hn.
  destruct (poll_and_accept_extends env w) as (new & Hr & Hc & _ & Hf).
  unfold fetchAndSaveNewRecords.
  destruct (poll_and_accept env w) as [w1 b]. simpl in *.
  rewrite Hzero in *. simpl. split_and!; [done | done |].
  rewrite Hr. destruct new; [by rewrite app_nil_r | discriminate].
Qed.

Lemma slice_last_app {A} (xs new : list A) :
  slice_last (length new) (xs ++ new) = new.
Proof.
  unfold slice_last. rewrite length_app.
  replace (length xs + length new - length new) with (length xs) by lia.
  by rewrite drop_app_length.
Qed.

Lemma sendToCSharpAPI_posts answer records :
  records <> [] ->
  (sendToCSharpAPI answer records).2 = [HttpPost (convertToCSharpFormat records)].
Proof. intros Hne. destruct records; [done|]. by destruct answer. Qed.

(** C8: in a cycle of the remote-sync variant that accepts new records,
    the effects are, in this order, the write of the day file and the
    POST to the collector; the write carries the whole record list,
    new records included, and the POST carries the new records; when
    the disk takes the write, the day file holds that list.  The state
    and the result of the cycle (record list, totalRecords) are the
    same whatever the collector answers. *)
Theorem forward_after_commit env w :
  0 < newRecordsCount (fetchAndSendToAPI env w).1.2 ->
  exists new,
    let all := allAttendanceRecords w ++ new in
    let content := ArrayOf (map (fun r => ItemObject (json_record r)) all) in
    length new = newRecordsCount (fetchAndSendToAPI env w).1.2 /\
    allAttendanceRecords (fetchAndSendToAPI env w).1.1 = all /\
    totalRecords (fetchAndSendToAPI env w).1.2 = length all /\
    (fetchAndSendToAPI env w).2 =
      [FsWrite (day_file (today env)) content (disk_ok env);
       HttpPost (convertToCSharpFormat new)] /\
    (disk_ok env = true ->
     files (fetchAndSendToAPI env w).1.1 !! day_file (today env) = Some content) /\
    forall answer,
      (fetchAndSendToAPI (with_http env answer) w).1 = (fetchAndSendToAPI env w).1.
Proof.
  intros Hpos.
  destruct (fetchAndSendToAPI_index env w) as (_ & _ & Hn).
  rewrite Hn in Hpos |- *. clear Hn.
  destruct (poll_and_accept_extends env w) as (new & Hr & Hc & _ & Hf).
  exists new. cbv zeta.
  unfold fetchAndSendToAPI.
  change (poll_and_accept (with_http env _) w) with (poll_and_accept env w).
  destruct (poll_and_accept env w) as [w1 b]. simpl in *.
  apply Nat.ltb_lt in Hpos. rewrite Hpos.
  assert (Hnew : new <> []) by (intros ->; rewrite Hc in Hpos; discriminate).
  unfold saveRecords.
  destruct (disk_ok env); simpl; rewrite Hr, Hc, slice_last_app;
    pose proof (sendToCSharpAPI_posts (http env) new Hnew) as Hpost;
    destruct (sendToCSharpAPI (http env) new) as [res sent]; simpl in *; subst sent;
    split_and!; try done.
  - intros _. by rewrite lookup_insert_eq.
  - intros answer. by destruct (sendToCSharpAPI answer new).
  - by rewrite Hr.
  - intros answer. by destruct (sendToCSharpAPI answer new).
Qed.

End CycleFacts.

(** ** Deduplication of the user lists *)

Section MapFacts.
Context {V : Type}.
Implicit Types (m entries : list (jsval * V)) (k id : jsval) (v : V).

Lemma Map_set_under id k v m :
  length (under id m) <= 1 ->
  under id (Map_set k v m) = if decide (k = id) then [(k, v)] else under id m.
Proof.
  unfold under. induction m as [|[k' v'] m IH]; intros Hlen; simpl.
  - rewrite filter_cons, filter_nil. simpl. by destruct (decide (k = id)).
  - unfold same_value_zero. case_bool_decide as Hk; simpl.
    + subst k'. rewrite !filter_cons in *. simpl in *.
      destruct (decide (k = id)) as [->|Hne]; [|done].
      simpl in Hlen. destruct (filter _ m); [done | simpl in Hlen; lia].
    + rewrite !filter_cons in *. simpl in *.
      destruct (decide (k' = id)) as [->|Hne'].
      * simpl in Hlen. destruct (decide (k = id)) as [->|Hne2]; [done|].
        by rewrite IH; [|lia].
      * apply IH in Hlen. rewrite Hlen. done.
Qed.

Lemma under_cons id kv m :
  under id (kv :: m) = if decide (kv.1 = id) then kv :: under id m else under id m.
Proof. unfold under. by rewrite filter_cons. Qed.

Lemma fold_Map_set_under id entries m :
  length (under id m) <= 1 ->
  under id (fold_left (fun m kv => Map_set kv.1 kv.2 m) entries m) =
    match last (under id entries) with
    | Some kv => [kv]
    | None => under id m
    end.
Proof.
  revert m. induction entries as [|[k v] entries IH]; intros m Hlen; simpl; [done|].
  rewrite IH.
  2: { rewrite Map_set_under by done. destruct (decide (k = id)); simpl; [lia | done]. }
  rewrite Map_set_under by done. rewrite under_cons. simpl.
  destruct (decide (k = id)) as [->|Hne]; [|done].
  destruct (under id entries) as [|e l]; [done|].
  rewrite last_cons_cons. destruct (last (e :: l)) eqn:E; [done|].
  by apply last_None in E.
Qed.

Lemma new_Map_under id entries :
  under id (new_Map entries) = option_list (last (under id entries)).
Proof.
  unfold new_Map. rewrite fold_Map_set_under by (simpl; lia).
  by destruct (last _).
Qed.

Lemma Map_set_length_le k v m : length (Map_set k v m) <= S (length m).
Proof.
  induction m as [|[k' v'] m IH]; simpl; [done|].
  destruct (same_value_zero k' k); simpl; lia.
Qed.

Lemma Map_set_length_known k v m :
  k ∈ m.*1 -> length (Map_set k v m) = length m.
Proof.
  induction m as [|[k' v'] m IH]; simpl; intros Hin.
  - by apply elem_of_nil in Hin.
  - unfold same_value_zero. case_bool_decide as Hk; simpl; [done|].
    apply elem_of_cons in Hin as [->|Hin]; [done|]. by rewrite IH.
Qed.

Lemma Map_set_keys k v m : k ∈ (Map_set k v m).*1.
Proof.
  induction m as [|[k' v'] m IH]; simpl; [apply list_elem_of_here|].
  unfold same_value_zero. case_bool_decide as Hk; simpl.
  - subst. apply list_elem_of_here.
  - by apply list_elem_of_further.
Qed.

Lemma Map_set_keeps_keys k k' v m : k' ∈ m.*1 -> k' ∈ (Map_set k v m).*1.
Proof.
  induction m as [|[k0 v0] m IH]; simpl; [intros Hin; by apply elem_of_nil in Hin|].
  unfold same_value_zero. case_bool_decide as Hk; simpl; [done|].
  intros Hin. apply elem_of_cons in Hin as [->|Hin].
  - apply list_elem_of_here.
  - by apply list_elem_of_further, IH.
Qed.

End MapFacts.

Lemma last_map {A B} (f : A -> B) (l : list A) :
  last (map f l) = option_map f (last l).
Proof.
  induction l as [|x [|y l] IH]; [done | done |].
  change (last (map f (y :: l)) = option_map f (last (y :: l))). exact IH.
Qed.

Section UserFacts.

Lemma keyed_under id users :
  under id (keyed users) = keyed (entries_for id users).
Proof.
  unfold under, entries_for, keyed. induction users as [|u users IH]; simpl; [done|].
  rewrite !filter_cons. simpl. destruct (decide (userId u = id)); simpl; by rewrite IH.
Qed.

Lemma Map_set_self_keyed u m :
  self_keyed m -> self_keyed (Map_set (userId u) u m).
Proof.
  unfold self_keyed. induction m as [|[k' v'] m IH]; intros Hm k v Hin; simpl in Hin.
  - apply list_elem_of_singleton in Hin. by injection Hin as -> ->.
  - revert Hin. unfold same_value_zero. case_bool_decide as Hk; intros Hin.
    + apply elem_of_cons in Hin as [Heq|Hin].
      * by injection Heq as -> ->.
      * apply Hm. by apply list_elem_of_further.
    + apply elem_of_cons in Hin as [Heq|Hin].
      * injection Heq as -> ->. apply Hm, list_elem_of_here.
      * apply IH; [|done]. intros k0 u0 H0. by apply Hm, list_elem_of_further.
Qed.

Lemma new_Map_self_keyed users : self_keyed (new_Map (keyed users)).
Proof.
  unfold new_Map.
  assert (Hnil : self_keyed []) by (intros k u Hin; by apply elem_of_nil in Hin).
  revert Hnil. generalize (@nil (jsval * user)).
  induction users as [|u users IH]; intros m Hm; simpl; [done|].
  by apply IH, Map_set_self_keyed.
Qed.

Lemma self_keyed_values id m :
  self_keyed m -> entries_for id (map snd m) = map snd (under id m).
Proof.
  unfold entries_for, under. induction m as [|[k u] m IH]; intros Hm; simpl; [done|].
  rewrite !filter_cons. simpl.
  assert (Hk : k = userId u) by apply Hm, list_elem_of_here. subst k.
  rewrite IH; [|intros k0 u0 H0; by apply Hm, list_elem_of_further].
  by destruct (decide (userId u = id)).
Qed.

(** The Map-based list keeps, for each identifier, the last user that
    carries it. *)
Lemma unique_users_entries id users :
  entries_for id (unique_users users) = option_list (last (entries_for id users)).
Proof.
  unfold unique_users. fold (keyed users).
  rewrite self_keyed_values by apply new_Map_self_keyed.
  rewrite new_Map_under, keyed_under. unfold keyed.
  rewrite last_map. by destruct (last (entries_for id users)).
Qed.

End UserFacts.

(** *** The findIndex filter *)

Lemma strict_eq_true a b : strict_eq a b = true <-> a = b /\ a <> JNaN.
Proof.
  unfold strict_eq. split.
  - destruct a, b; try discriminate; intros Hd; apply bool_decide_eq_true in Hd;
      split; done.
  - intros [-> Hn]. destruct b; try done; by apply bool_decide_eq_true.
Qed.

Lemma findIndex_bounds {A} (p : A -> bool) (xs : list A) :
  (-1 <= findIndex p xs < Z.of_nat (length xs))%Z.
Proof.
  induction xs as [|x xs IH]; simpl; [lia|].
  destruct (p x); [lia|]. destruct (Z.eqb_spec (findIndex p xs) (-1)); lia.
Qed.

Lemma findIndex_first {A} (p : A -> bool) (pre : list A) (x : A) (suf : list A) :
  (forall y, y ∈ pre -> p y = false) -> p x = true ->
  findIndex p (pre ++ x :: suf) = Z.of_nat (length pre).
Proof.
  induction pre as [|y pre IH]; intros Hpre Hx; simpl.
  - by rewrite Hx.
  - rewrite (Hpre y) by apply list_elem_of_here.
    rewrite IH; [|intros z Hz; by apply Hpre, list_elem_of_further | done].
    destruct (Z.eqb_spec (Z.of_nat (length pre)) (-1)); lia.
Qed.

Lemma findIndex_earlier {A} (p : A -> bool) (pre suf : list A) (y : A) :
  y ∈ pre -> p y = true ->
  (findIndex p (pre ++ suf) < Z.of_nat (length pre))%Z.
Proof.
  induction pre as [|z pre IH]; intros Hin Hy; simpl.
  - by apply elem_of_nil in Hin.
  - destruct (p z) eqn:Hz; [lia|].
    apply elem_of_cons in Hin as [->|Hin]; [congruence|].
    specialize (IH Hin Hy).
    destruct (Z.eqb_spec (findIndex p (pre ++ suf)) (-1)); lia.
Qed.

(** The filter keeps, for each identifier other than NaN, the first
    user that carries it. *)
Lemma first_users_from id (pre suf : list user) :
  id <> JNaN ->
  entries_for id
    (filter_from
       (fun user index =>
          (index =? findIndex (fun u => strict_eq (userId u) (userId user)) (pre ++ suf))%Z)
       (Z.of_nat (length pre)) suf) =
  match entries_for id pre with
  | [] => option_list (head (entries_for id suf))
  | _ :: _ => []
  end.
Proof.
  intros Hnan. revert pre. induction suf as [|x suf IH]; intros pre; simpl.
  - by destruct (entries_for id pre).
  - specialize (IH (pre ++ [x])).
    rewrite <- app_assoc, length_app in IH. simpl in IH.
    replace (Z.of_nat (length pre + 1)) with (Z.of_nat (length pre) + 1)%Z in IH by lia.
    unfold entries_for in *. rewrite filter_app, filter_cons, filter_nil in IH.
    rewrite filter_cons.
    destruct (decide (userId x = id)) as [Hx|Hx].
    + destruct (filter (fun u => userId u = id) pre) as [|y ys] eqn:Hpre; simpl in *.
      * rewrite findIndex_first.
        -- rewrite Z.eqb_refl, filter_cons, decide_True by done. by rewrite IH.
        -- intros y Hy. destruct (strict_eq (userId y) (userId x)) eqn:Hs; [|done].
           apply strict_eq_true in Hs as [Hs _].
           assert (Hin : y ∈ filter (fun u => userId u = id) pre).
           { apply list_elem_of_filter. split; [congruence | done]. }
           rewrite Hpre in Hin. by apply elem_of_nil in Hin.
        -- apply strict_eq_true. split; [done | congruence].
      * assert (Hy : y ∈ filter (fun u => userId u = id) pre)
          by (rewrite Hpre; apply list_elem_of_here).
        apply list_elem_of_filter in Hy as [Hyid Hy].
        pose proof (findIndex_earlier
                      (fun u => strict_eq (userId u) (userId x)) pre (x :: suf) y Hy) as Hlt.
        destruct (Z.eqb_spec (Z.of_nat (length pre))
                    (findIndex (fun u => strict_eq (userId u) (userId x)) (pre ++ x :: suf)))
          as [Heq|_].
        -- exfalso. rewrite <- Heq in Hlt.
           assert (strict_eq (userId y) (userId x) = true)
             by (apply strict_eq_true; split; congruence).
           specialize (Hlt H). lia.
        -- exact IH.
    + rewrite app_nil_r in IH.
      destruct (_ =? _)%Z; [rewrite filter_cons, decide_False by done|]; exact IH.
Qed.

Lemma first_users_entries id users :
  id <> JNaN ->
  entries_for id (first_users users) = option_list (head (entries_for id users)).
Proof.
  intros Hnan. unfold first_users, filter_indexed.
  exact (first_users_from id [] users Hnan).
Qed.

(** *** The size of the Map-based list *)

Section MapSize.
Context {V : Type}.
Implicit Types (m entries : list (jsval * V)).

Lemma fold_Map_set_keeps_keys k entries m :
  k ∈ m.*1 -> k ∈ (fold_left (fun m kv => Map_set kv.1 kv.2 m) entries m).*1.
Proof.
  revert m. induction entries as [|[k0 v0] entries IH]; intros m Hin; simpl; [done|].
  by apply IH, Map_set_keeps_keys.
Qed.

Lemma fold_Map_set_length_le entries m :
  length (fold_left (fun m kv => Map_set kv.1 kv.2 m) entries m) <= length m + length entries.
Proof.
  revert m. induction entries as [|[k v] entries IH]; intros m; simpl; [lia|].
  specialize (IH (Map_set k v m)). pose proof (Map_set_length_le k v m). lia.
Qed.

Lemma fold_Map_set_length_lt k entries m :
  k ∈ m.*1 -> k ∈ entries.*1 ->
  length (fold_left (fun m kv => Map_set kv.1 kv.2 m) entries m) < length m + length entries.
Proof.
  revert m. induction entries as [|[k0 v0] entries IH]; intros m Hm He; simpl.
  - by apply elem_of_nil in He.
  - simpl in He. apply elem_of_cons in He as [->|He].
    + pose proof (fold_Map_set_length_le entries (Map_set k0 v0 m)).
      rewrite Map_set_length_known in H by done. lia.
    + specialize (IH (Map_set k0 v0 m) (Map_set_keeps_keys _ _ _ _ Hm) He).
      pose proof (Map_set_length_le k0 v0 m). lia.
Qed.

Lemma new_Map_length_lt k (v : V) (e1 e2 : list (jsval * V)) :
  k ∈ e2.*1 -> length (new_Map (e1 ++ (k, v) :: e2)) < length (e1 ++ (k, v) :: e2).
Proof.
  intros Hin. unfold new_Map. rewrite fold_left_app. simpl.
  set (m1 := fold_left _ e1 []).
  pose proof (fold_Map_set_length_le e1 []) as H1. fold m1 in H1. simpl in H1.
  pose proof (fold_Map_set_length_lt k e2 (Map_set k v m1) (Map_set_keys k v m1) Hin) as H2.
  pose proof (Map_set_length_le k v m1).
  rewrite length_app. simpl. lia.
Qed.

End MapSize.

Lemma unique_users_length_lt (l1 l2 : list user) u1 u2 :
  u1 ∈ l1 -> u2 ∈ l2 -> userId u1 = userId u2 ->
  length (unique_users (l1 ++ l2)) < length (l1 ++ l2).
Proof.
  intros H1 H2 Hid.
  apply list_elem_of_split in H1 as (a & b & ->).
  unfold unique_users. rewrite length_map.
  rewrite <- app_assoc. simpl. rewrite map_app. simpl.
  assert (Hin : userId u1 ∈ (map (fun u => (userId u, u)) (b ++ l2)).*1).
  { rewrite map_app, fmap_app. apply elem_of_app. right.
    rewrite Hid. apply list_elem_of_fmap. exists (userId u2, u2). split; [done|].
    apply list_elem_of_In, in_map_iff. exists u2. split; [done|].
    by apply list_elem_of_In. }
  pose proof (new_Map_length_lt (userId u1) u1 (map (fun u => (userId u, u)) a) _ Hin) as Hlt.
  rewrite length_app in Hlt. simpl in Hlt. rewrite !length_map in Hlt.
  rewrite length_app. simpl. exact Hlt.
Qed.

(** *** The combined view *)

Section CombinedFacts.
Context `{DateImpl}.

Lemma collect_all_merges l b :
  combinedAllUsers (collect_all l b) = combinedAllUsers b ++ merged_users (map snd l) /\
  combinedLogs (collect_all l b) = combinedLogs b ++ merged_logs (map snd l).
Proof.
  unfold collect_all, merged_users, merged_logs. revert b.
  induction l as [|[ip res] l IH]; intros b; simpl.
  - by rewrite !app_nil_r.
  - destruct (IH (collect_result b ip res)) as [-> ->].
    destruct res as [v|e]; simpl; by rewrite <- ?app_assoc.
Qed.

Lemma poll_and_accept_merges env w :
  combinedAllUsers (poll_and_accept env w).2 = merged_users (fetch_all (terminal env)) /\
  combinedLogs (poll_and_accept env w).2 = merged_logs (fetch_all (terminal env)).
Proof.
  unfold poll_and_accept.
  match goal with
  | |- context [collect_all ?l ?b] => destruct (collect_all_merges l b) as [Hu Hl]
  end.
  cbn [snd]. rewrite Hu, Hl. done.
Qed.

Lemma fetchAndSaveNewRecords_combined env w :
  combinedData (fetchAndSaveNewRecords env w).1.2 =
    combined_snapshot (poll_and_accept env w).2.
Proof.
  unfold fetchAndSaveNewRecords. destruct (poll_and_accept env w) as [w1 b].
  by destruct (0 <? _)%nat; [destruct (saveRecords _ _ _)|].
Qed.

Lemma fetchAllDeviceData_allUsers results :
  view_allUsers (fetchAllDeviceData results) = first_users (merged_users results).
Proof.
  unfold fetchAllDeviceData. simpl. f_equal.
  change (merged_users results)
    with (view_allUsers (CombinedView [] [] [] InfoEmpty) ++ merged_users results).
  generalize (CombinedView [] [] [] InfoEmpty).
  induction results as [|r results IH]; intros c; simpl.
  - by rewrite app_nil_r.
  - rewrite IH. destruct r as [v|e]; simpl; by rewrite <- ?app_assoc.
Qed.

(** C10: when both terminals answer and some identifier is carried by a
    user of each, userCounts is the length of the two user lists put
    together, and the deduplicated allUsers of the same snapshot is
    strictly shorter. *)
Theorem userCounts_exceeds_allUsers env w s1 s2 u1 u2 :
  (fetchDeviceData "192.168.18.253" (terminal env "192.168.18.253")).2 = Fulfilled s1 ->
  (fetchDeviceData "192.168.18.252" (terminal env "192.168.18.252")).2 = Fulfilled s2 ->
  u1 ∈ allUsers s1 -> u2 ∈ allUsers s2 -> userId u1 = userId u2 ->
  let combined := combinedData (fetchAndSaveNewRecords env w).1.2 in
  info combined =
    InfoCombined (length (allUsers s1 ++ allUsers s2))
                 (length (attendanceLogs s1 ++ attendanceLogs s2)) /\
  length (allUsers combined) < length (allUsers s1 ++ allUsers s2).
Proof.
  intros Hs1 Hs2 Hu1 Hu2 Hid combined. subst combined.
  rewrite fetchAndSaveNewRecords_combined. unfold combined_snapshot. cbn [info allUsers].
  destruct (poll_and_accept_merges env w) as [-> ->].
  unfold merged_users, merged_logs, fetch_all, devices. cbn [map flat_map].
  rewrite Hs1, Hs2, !app_nil_r.
  split; [done | by eapply unique_users_length_lt].
Qed.

End CombinedFacts.

Section DedupClaim.
Context `{DateImpl}.

(** C2: take an identifier that some user of the merged per-device
    lists carries.  The combined list of the cycle (the Map of
    fetchAndSaveNewRecords) holds exactly one user with it, the last
    that carries it in the merged list.  The combined list of
    fetchAllDeviceData (the findIndex filter) holds exactly one too
    when the identifier is not NaN, and it is the first that carries
    it. *)
Theorem duplicate_users_keep_one env w results id kept_by_cycle kept_by_filter :
  last (entries_for id (merged_users (fetch_all (terminal env)))) = Some kept_by_cycle ->
  head (entries_for id (merged_users results)) = Some kept_by_filter ->
  entries_for id (allUsers (combinedData (fetchAndSaveNewRecords env w).1.2))
    = [kept_by_cycle] /\
  (id <> JNaN ->
   entries_for id (view_allUsers (fetchAllDeviceData results)) = [kept_by_filter]).
Proof.
  intros Hlast Hfirst. split.
  - rewrite fetchAndSaveNewRecords_combined. unfold combined_snapshot. cbn [allUsers].
    destruct (poll_and_accept_merges env w) as [-> _].
    by rewrite unique_users_entries, Hlast.
  - intros Hnan. rewrite fetchAllDeviceData_allUsers, first_users_entries by done.
    by rewrite Hfirst.
Qed.

End DedupClaim.

(** ** The file endpoints *)

Section StringFacts.
Implicit Types (p s a b : string).

Lemma prefix_app p s : String.prefix p s = true <-> exists b, s = p +:+ b.
Proof.
  revert s. induction p as [|c p IH]; intros s.
  - destruct s; simpl; split; eauto.
  - destruct s as [|d s]; simpl.
    + split; [discriminate | intros [b Hb]; discriminate].
    + destruct (Ascii.ascii_dec c d) as [->|Hne].
      * rewrite IH. split; intros [b Hb]; exists b; [by rewrite Hb | by injection Hb].
      * split; [discriminate | intros [b Hb]; by injection Hb].
Qed.

Lemma includes_app p s : includes p s = true <-> exists a b, s = a +:+ p +:+ b.
Proof.
  split.
  - induction s as [|c s IH]; cbn [includes]; intros Hi;
      apply orb_true_iff in Hi as [Hp|Hr].
    + apply prefix_app in Hp as [b Hb]. by exists "", b.
    + discriminate.
    + apply prefix_app in Hp as [b Hb]. by exists "", b.
    + destruct (IH Hr) as (a & b & ->). by exists (String c a), b.
  - intros (a & b & ->). induction a as [|c a IH].
    + assert (Hp : String.prefix p ("" +:+ p +:+ b) = true)
        by (apply prefix_app; by exists b).
      destruct ("" +:+ p +:+ b); cbn [includes]; by rewrite Hp.
    + change (String c a +:+ p +:+ b) with (String c (a +:+ p +:+ b)).
      cbn [includes]. rewrite IH. apply orb_true_r.
Qed.

Lemma substring_whole s : String.substring 0 (String.length s) s = s.
Proof. induction s as [|c s IH]; simpl; [done | by rewrite IH]. Qed.

Lemma substring_skip a p n :
  String.substring (String.length a) n (a +:+ p) = String.substring 0 n p.
Proof. induction a as [|c a IH]; simpl; [done | exact IH]. Qed.

Lemma length_app_string a p :
  String.length (a +:+ p) = String.length a + String.length p.
Proof. induction a as [|c a IH]; simpl; [done | by rewrite IH]. Qed.

Lemma substring_split n s :
  n <= String.length s ->
  s = String.substring 0 n s +:+ String.substring n (String.length s - n) s.
Proof.
  revert s. induction n as [|n IH]; intros s Hn.
  - simpl. rewrite Nat.sub_0_r, substring_whole. by destruct s.
  - destruct s as [|c s]; simpl in *; [lia|].
    change (String c (String.substring 0 n s) +:+ ?t)
      with (String c (String.substring 0 n s +:+ t)).
    f_equal. apply IH. lia.
Qed.

Lemma endsWith_app p s : endsWith p s = true <-> exists a, s = a +:+ p.
Proof.
  unfold endsWith. rewrite andb_true_iff, Nat.leb_le, String.eqb_eq. split.
  - intros [Hle Heq]. exists (String.substring 0 (String.length s - String.length p) s).
    pose proof (substring_split (String.length s - String.length p) s) as Hs.
    replace (String.length s - (String.length s - String.length p))
      with (String.length p) in Hs by lia.
    rewrite Heq in Hs. apply Hs. lia.
  - intros [a ->]. rewrite length_app_string. split; [lia|].
    replace (String.length a + String.length p - String.length p) with (String.length a) by lia.
    by rewrite substring_skip, substring_whole.
Qed.

End StringFacts.

Lemma rejected_filename_spec filename :
  rejected_filename filename = true <->
  (exists a b, filename = a +:+ ".." +:+ b) \/ ~ (exists a, filename = a +:+ ".json").
Proof.
  unfold rejected_filename.
  rewrite orb_true_iff, negb_true_iff, includes_app, <- endsWith_app.
  by rewrite not_true_iff_false.
Qed.

(** C9: a filename that contains two consecutive dots, or that does not
    end in .json, is answered 400 by both endpoints, which then touch
    no file: no existence test, no read, no unlink, and the files are
    unchanged. *)
Theorem invalid_filename_rejected filename fs unlink_ok :
  (exists a b, filename = a +:+ ".." +:+ b) \/ ~ (exists a, filename = a +:+ ".json") ->
  get_file filename fs = (Response 400 (BodyError "Invalid filename"), []) /\
  delete_file unlink_ok filename fs = (Response 400 (BodyError "Invalid filename"), fs, []).
Proof.
  intros Hbad. apply rejected_filename_spec in Hbad.
  unfold get_file, delete_file. by rewrite Hbad.
Qed.

Lemma invalid_filename_rejected_witness :
  ((exists a b, "../index.json" = a +:+ ".." +:+ b) \/
   ~ (exists a, "../index.json" = a +:+ ".json")) /\
  get_file "../index.json" ∅ = (Response 400 (BodyError "Invalid filename"), []) /\
  delete_file true "../index.json" ∅ = (Response 400 (BodyError "Invalid filename"), ∅, []).
Proof.
  assert (Hbad : (exists a b, "../index.json" = a +:+ ".." +:+ b) \/
                 ~ (exists a, "../index.json" = a +:+ ".json")).
  { left. exists "", "/index.json". reflexivity. }
  split; [exact Hbad|].
  exact (invalid_filename_rejected "../index.json" ∅ true Hbad).
Defined.

(** A filename that passes the guard is looked up under the data
    directory, and nowhere else. *)
Lemma accepted_filename_access filename fs path :
  FsRead path ∈ (get_file filename fs).2 ->
  path = path_join dataDir filename /\
  (exists a, filename = a +:+ ".json") /\ ~ (exists a b, filename = a +:+ ".." +:+ b).
Proof.
  unfold get_file. destruct (rejected_filename filename) eqn:Hr.
  - intros Hin. by apply elem_of_nil in Hin.
  - assert (Hok : ~ rejected_filename filename = true) by (rewrite Hr; discriminate).
    rewrite rejected_filename_spec in Hok.
    intros Hin. split.
    + destruct (fs !! path_join dataDir filename) as [[]|]; simpl in Hin;
        repeat (apply elem_of_cons in Hin as [Hin|Hin]; [by simplify_eq|]);
        by apply elem_of_nil in Hin.
    + split.
      * destruct (endsWith ".json" filename) eqn:He.
        -- by apply endsWith_app.
        -- exfalso. apply Hok. right. rewrite <- endsWith_app, He. discriminate.
      * intros Hdots. apply Hok. by left.
Qed.

(** The claim as the specification words it fails: [notes.json] carries
    no day stamp, yet it is read by one endpoint and deleted by the
    other. *)
Lemma undated_filename_accepted :
  day_stamped_filename "notes.json" = false /\
  get_file "notes.json" {["data/notes.json" := NotArray]} =
    (Response 200 (BodyJson NotArray),
     [FsExists "data/notes.json"; FsRead "data/notes.json"]) /\
  delete_file true "notes.json" {["data/notes.json" := NotArray]} =
    (Response 200 (BodyMessage "File deleted successfully"), ∅,
     [FsExists "data/notes.json"; FsUnlink "data/notes.json"]).
Proof.
  split; [reflexivity|]. split.
  - unfold get_file. cbn [rejected_filename]. 
    replace (rejected_filename "notes.json") with false by reflexivity.
    change (path_join dataDir "notes.json") with "data/notes.json".
    by rewrite lookup_singleton_eq.
  - unfold delete_file.
    replace (rejected_filename "notes.json") with false by reflexivity.
    change (path_join dataDir "notes.json") with "data/notes.json".
    by rewrite lookup_singleton_eq, delete_singleton_eq.
Qed.

(** ** The end-to-end scenario *)

Section ScenarioFacts.
#[local] Existing Instance IsoDate.impl.
Import Scenario.

(** The type of an enriched record is IN for the terminal
    192.168.18.253 and OUT for every other address. *)
Lemma enhance_type `{DateImpl} ip userMap log r :
  enhance ip userMap log = Normal r ->
  type r = JStr (if String.eqb ip "192.168.18.253" then "IN" else "OUT") /\
  deviceIP r = JStr ip.
Proof.
  unfold enhance. destruct (Date_getTime (recordTime log)); [|discriminate].
  by intros [= <-].
Qed.

(** The scenario as the specification words it fails: with the log and
    the user table on terminal 10.0.0.1, the cycle, which polls
    192.168.18.253 and 192.168.18.252 only, reports no new record and
    no log; and the fetch of 10.0.0.1 itself builds a record of type
    OUT whose recordTime carries milliseconds. *)
Lemma scenario_as_specified_fails :
  newRecordsCount
    (fetchAndSaveNewRecords (env_of (only "10.0.0.1")) (initial_world ∅)).1.2 = 0 /\
  attendanceLogs
    (combinedData
       (fetchAndSaveNewRecords (env_of (only "10.0.0.1")) (initial_world ∅)).1.2) = [] /\
  attendanceLogs (value_of (fetchDeviceData "10.0.0.1" answering).2) = [record_of_10_0_0_1] /\
  record_of_10_0_0_1 <> expected_record.
Proof. split_and!; [by vm_compute | by vm_compute | by vm_compute | discriminate]. Qed.

(** C3: with the log and the user table on terminal 192.168.18.253,
    the other terminal out of reach and nothing known yet, the cycle
    produces the one enriched record
    {deviceUserId: 7, name: Alice, type: IN, deviceIP: 192.168.18.253,
     recordTime: 2024-01-01T08:00:00.000Z}
    and reports newRecordsCount = 1. *)
Theorem scenario_enriched_record :
  attendanceLogs
    (combinedData
       (fetchAndSaveNewRecords (env_of (only "192.168.18.253")) (initial_world ∅)).1.2)
    = [enriched_record] /\
  newRecordsCount
    (fetchAndSaveNewRecords (env_of (only "192.168.18.253")) (initial_world ∅)).1.2 = 1 /\
  allAttendanceRecords
    (fetchAndSaveNewRecords (env_of (only "192.168.18.253")) (initial_world ∅)).1.1
    = [enriched_record].
Proof. split_and!; by vm_compute. Qed.

(** The claim on the user lists fails on fetchAllDeviceData: of two
    users with identifier 1 on two terminals, the combined list keeps
    the earlier, X, and drops the later, Y. *)
Lemma fetchAllDeviceData_keeps_first :
  view_allUsers
    (fetchAllDeviceData [Fulfilled (online_with "192.168.18.253" user_x);
                         Fulfilled (online_with "192.168.18.252" user_y)]) = [user_x] /\
  user_x <> user_y.
Proof. split; [reflexivity | discriminate]. Qed.

(** ** Instances of the conditional properties *)

Lemma store_signatures_unique_witness :
  reachable after_first_cycle /\
  NoDup (createRecordSignature <$> allAttendanceRecords after_first_cycle) /\
  forall r, r ∈ allAttendanceRecords after_first_cycle ->
            createRecordSignature r ∈ uniqueSignatures after_first_cycle.
Proof.
  assert (Hreach : reachable after_first_cycle).
  { exists ∅. eapply rtc_l; [apply (step_load "2024-01-01")|].
    eapply rtc_l; [apply (step_cycle (env_of (only "192.168.18.253")))|].
    apply rtc_refl. }
  split; [exact Hreach|].
  exact (store_signatures_unique after_first_cycle Hreach).
Defined.

Lemma duplicate_users_keep_one_witness :
  last (entries_for (JNum 1) (merged_users (fetch_all (terminal (env_of two_names)))))
    = Some user_y /\
  head (entries_for (JNum 1)
          (merged_users [Fulfilled (online_with "192.168.18.253" user_x);
                         Fulfilled (online_with "192.168.18.252" user_y)]))
    = Some user_x /\
  entries_for (JNum 1)
    (allUsers (combinedData
                 (fetchAndSaveNewRecords (env_of two_names) (initial_world ∅)).1.2))
    = [user_y] /\
  entries_for (JNum 1)
    (view_allUsers
       (fetchAllDeviceData [Fulfilled (online_with "192.168.18.253" user_x);
                            Fulfilled (online_with "192.168.18.252" user_y)]))
    = [user_x].
Proof.
  assert (Hlast : last (entries_for (JNum 1)
                          (merged_users (fetch_all (terminal (env_of two_names)))))
                  = Some user_y) by reflexivity.
  assert (Hfirst : head (entries_for (JNum 1)
                           (merged_users [Fulfilled (online_with "192.168.18.253" user_x);
                                          Fulfilled (online_with "192.168.18.252" user_y)]))
                   = Some user_x) by reflexivity.
  destruct (duplicate_users_keep_one (env_of two_names) (initial_world ∅) _ _ _ _
              Hlast Hfirst) as [Hcycle Hfilter].
  split_and!; [exact Hlast | exact Hfirst | exact Hcycle |].
  apply Hfilter. discriminate.
Defined.

Lemma no_new_records_no_write_witness :
  newRecordsCount
    (fetchAndSaveNewRecords (env_of (only "192.168.18.253")) after_first_cycle).1.2 = 0 /\
  (fetchAndSaveNewRecords (env_of (only "192.168.18.253")) after_first_cycle).2 = [] /\
  files (fetchAndSaveNewRecords (env_of (only "192.168.18.253")) after_first_cycle).1.1 =
    files after_first_cycle /\
  allAttendanceRecords
    (fetchAndSaveNewRecords (env_of (only "192.168.18.253")) after_first_cycle).1.1 =
    allAttendanceRecords after_first_cycle.
Proof.
  assert (Hzero : newRecordsCount
            (fetchAndSaveNewRecords (env_of (only "192.168.18.253")) after_first_cycle).1.2 = 0)
    by (vm_compute; reflexivity).
  split; [exact Hzero|].
  exact (no_new_records_no_write _ _ Hzero).
Defined.

Lemma forward_after_commit_witness :
  0 < newRecordsCount
        (fetchAndSendToAPI (env_of (only "192.168.18.253")) (initial_world ∅)).1.2 /\
  exists new,
    length new = 1 /\
    allAttendanceRecords
      (fetchAndSendToAPI (env_of (only "192.168.18.253")) (initial_world ∅)).1.1 = new /\
    forall answer,
      (fetchAndSendToAPI (with_http (env_of (only "192.168.18.253")) answer)
         (initial_world ∅)).1 =
      (fetchAndSendToAPI (env_of (only "192.168.18.253")) (initial_world ∅)).1.
Proof.
  assert (Hpos : 0 < newRecordsCount
            (fetchAndSendToAPI (env_of (only "192.168.18.253")) (initial_world ∅)).1.2)
    by (vm_compute; lia).
  split; [exact Hpos|].
  destruct (forward_after_commit (env_of (only "192.168.18.253")) (initial_world ∅) Hpos)
    as (new & Hlen & Hall & _ & _ & _ & Hsame).
  exists new. split_and!; [exact Hlen | exact Hall | exact Hsame].
Defined.

(** The claim as the specification words it fails when the disk refuses
    the write: the cycle accepts Alice's record, the write of the day
    file fails, and the record is posted to the collector all the same,
    while no file of the data directory holds it. *)
Lemma forward_without_commit :
  newRecordsCount (fetchAndSendToAPI Cases.refusing_disk (initial_world ∅)).1.2 = 1 /\
  (fetchAndSendToAPI Cases.refusing_disk (initial_world ∅)).2 =
    [FsWrite (day_file "2024-01-01") (ArrayOf [ItemObject enriched_record]) false;
     HttpPost (convertToCSharpFormat [enriched_record])] /\
  files (fetchAndSendToAPI Cases.refusing_disk (initial_world ∅)).1.1 = ∅.
Proof. by vm_compute. Qed.

Lemma userCounts_exceeds_allUsers_witness :
  (fetchDeviceData "192.168.18.253" (two_names "192.168.18.253")).2 =
    Fulfilled (value_of (fetchDeviceData "192.168.18.253" (knowing user_x)).2) /\
  (fetchDeviceData "192.168.18.252" (two_names "192.168.18.252")).2 =
    Fulfilled (value_of (fetchDeviceData "192.168.18.252" (knowing user_y)).2) /\
  info (combinedData (fetchAndSaveNewRecords (env_of two_names) (initial_world ∅)).1.2) =
    InfoCombined 2 0 /\
  length (allUsers (combinedData
                      (fetchAndSaveNewRecords (env_of two_names) (initial_world ∅)).1.2)) < 2.
Proof.
  assert (H1 : (fetchDeviceData "192.168.18.253" (two_names "192.168.18.253")).2 =
               Fulfilled (value_of (fetchDeviceData "192.168.18.253" (knowing user_x)).2))
    by reflexivity.
  assert (H2 : (fetchDeviceData "192.168.18.252" (two_names "192.168.18.252")).2 =
               Fulfilled (value_of (fetchDeviceData "192.168.18.252" (knowing user_y)).2))
    by reflexivity.
  split; [exact H1|]. split; [exact H2|].
  apply (userCounts_exceeds_allUsers (env_of two_names) (initial_world ∅) _ _ user_x user_y H1 H2).
  - apply list_elem_of_here.
  - apply list_elem_of_here.
  - reflexivity.
Defined.

End ScenarioFacts.

(** * Further properties *)

#[local] Set Warnings "-clear-no-such-hyp".

(** ** The store *)

Section LoadFacts.
Context `{DateImpl}.

Lemma load_items_null items a :
  ItemNull ∈ items -> exists e, load_items items a = Throw e.
Proof.
  revert a. induction items as [|item items IH]; intros a Hin.
  - by apply elem_of_nil in Hin.
  - destruct item as [| |r]; simpl.
    + eauto.
    + apply elem_of_cons in Hin as [?|Hin]; [done|]. by apply IH.
    + apply elem_of_cons in Hin as [?|Hin]; [done|].
      destruct (truthy (deviceUserId r) && truthy (recordTime r)); by apply IH.
Qed.

Lemma load_items_loadable items a :
  ItemNull ∉ items -> load_items items a = Normal (accept_all (loadable items) a).
Proof.
  revert a. induction items as [|item items IH]; intros a Hnull; [done|].
  apply not_elem_of_cons in Hnull as [Hhead Hnull].
  destruct item as [| |r]; simpl.
  - done.
  - by apply IH.
  - unfold loadable. simpl.
    destruct (truthy (deviceUserId r) && truthy (recordTime r)); simpl; by rewrite IH.
Qed.

(** X1: when the day file is missing, cannot be read or parsed, is not an
    array, or is an array that holds a null item anywhere, the load
    leaves the record list and the signature set empty, whatever they
    held before and whatever valid items precede the null; the files
    and the latest snapshot are untouched. *)
Theorem load_failure_empties day w :
  match files w !! day_file day with
  | Some (ArrayOf items) => ItemNull ∈ items
  | _ => True
  end ->
  allAttendanceRecords (loadExistingRecords day w) = [] /\
  uniqueSignatures (loadExistingRecords day w) = ∅ /\
  files (loadExistingRecords day w) = files w /\
  latestDeviceData (loadExistingRecords day w) = latestDeviceData w.
Proof.
  unfold loadExistingRecords.
  destruct (files w !! day_file day) as [[why| |items]|]; try done.
  intros Hnull. destruct (load_items_null items (Accepted [] ∅ 0) Hnull) as [e ->]. done.
Qed.

Lemma accept_record_signatures a r :
  acc_signatures a = signatures_of (acc_records a) ->
  acc_signatures (accept_record a r) = signatures_of (acc_records (accept_record a r)).
Proof.
  intros Ha. unfold accept_record. case_bool_decide; simpl; [done|].
  unfold signatures_of in *. rewrite fmap_app, list_to_set_app_L, Ha. simpl.
  set_solver.
Qed.

Lemma accept_all_signatures logs a :
  acc_signatures a = signatures_of (acc_records a) ->
  acc_signatures (accept_all logs a) = signatures_of (acc_records (accept_all logs a)).
Proof.
  unfold accept_all. revert a. induction logs as [|r logs IH]; intros a Ha; simpl; [done|].
  by apply IH, accept_record_signatures.
Qed.

Lemma accept_record_sublist a r :
  exists new, acc_records (accept_record a r) = acc_records a ++ new /\
              new `sublist_of` [r] /\
              (forall x, x ∈ new -> createRecordSignature x ∉ acc_signatures a) /\
              acc_signatures (accept_record a r) =
                acc_signatures a ∪ {[createRecordSignature r]} /\
              acc_count (accept_record a r) = acc_count a + length new.
Proof.
  unfold accept_record. case_bool_decide as Hk; simpl.
  - exists []. rewrite app_nil_r. split_and!; [done | apply sublist_nil_l | | set_solver | simpl; lia].
    intros x Hx. by apply elem_of_nil in Hx.
  - exists [r]. split_and!; [done | done | | set_solver | simpl; lia].
    intros x Hx. apply list_elem_of_singleton in Hx. by subst.
Qed.

(** What a dedup loop accepts from [logs]: a sublist of [logs], in
    order, of records whose signatures were unknown and are pairwise
    distinct; afterwards the signatures of all of [logs] are known. *)
Lemma accept_all_sublist logs a :
  exists new, acc_records (accept_all logs a) = acc_records a ++ new /\
              new `sublist_of` logs /\
              (forall x, x ∈ new -> createRecordSignature x ∉ acc_signatures a) /\
              NoDup (createRecordSignature <$> new) /\
              acc_signatures (accept_all logs a) = acc_signatures a ∪ signatures_of logs /\
              acc_count (accept_all logs a) = acc_count a + length new.
Proof.
  unfold accept_all, signatures_of. revert a.
  induction logs as [|r logs IH]; intros a; simpl.
  - exists []. rewrite app_nil_r.
    split_and!; [done | done | | constructor | set_solver | simpl; lia].
    intros x Hx. by apply elem_of_nil in Hx.
  - destruct (accept_record_sublist a r) as (n1 & Hr1 & Hs1 & Hu1 & Hsig1 & Hc1).
    destruct (IH (accept_record a r)) as (n2 & Hr2 & Hs2 & Hu2 & Hnd2 & Hsig2 & Hc2).
    exists (n1 ++ n2). rewrite Hr2, Hr1, <- app_assoc, Hsig2, Hsig1, Hc2, Hc1, length_app.
    split_and!; [done | | | | set_solver | lia].
    + change (r :: logs) with ([r] ++ logs). by apply sublist_app.
    + intros x Hx. apply elem_of_app in Hx as [Hx|Hx]; [by apply Hu1|].
      specialize (Hu2 x Hx). rewrite Hsig1 in Hu2. set_solver.
    + rewrite fmap_app. apply NoDup_app. split_and!; [|  | done].
      * apply sublist_length in Hs1 as Hlen. simpl in Hlen.
        destruct n1 as [|x [|y n1]]; simpl in *; [constructor | apply NoDup_singleton | lia].
      * intros sg Hsg Hsg'.
        apply list_elem_of_fmap in Hsg' as (y & -> & Hy).
        specialize (Hu2 y Hy). rewrite Hsig1 in Hu2.
        apply list_elem_of_fmap in Hsg as (x & Hxy & Hx).
        assert (x = r); [|subst x; set_solver].
        pose proof (elem_of_sublist _ _ _ Hx Hs1) as Hxr.
        by apply list_elem_of_singleton in Hxr.
Qed.


(** X2: when the day file is an array without a null item, the loaded
    records are a sublist, in file order, of the objects with a truthy
    deviceUserId and recordTime; their signatures are pairwise distinct;
    the signature set is exactly the set of the signatures of those
    objects; so an object whose deviceUserId is 0 or empty is dropped. *)
Theorem load_takes_wellformed_items day w items :
  files w !! day_file day = Some (ArrayOf items) ->
  ItemNull ∉ items ->
  allAttendanceRecords (loadExistingRecords day w) `sublist_of` loadable items /\
  NoDup (createRecordSignature <$> allAttendanceRecords (loadExistingRecords day w)) /\
  uniqueSignatures (loadExistingRecords day w) = signatures_of (loadable items) /\
  (forall r, r ∈ allAttendanceRecords (loadExistingRecords day w) ->
             truthy (deviceUserId r) = true /\ truthy (recordTime r) = true).
Proof.
  intros Hfile Hnull. unfold loadExistingRecords. rewrite Hfile.
  rewrite load_items_loadable by done. simpl.
  destruct (accept_all_sublist (loadable items) (Accepted [] ∅ 0))
    as (new & Hr & Hsub & _ & Hnd & Hsig & _).
  simpl in Hr. rewrite Hr, Hsig. simpl.
  split_and!; [done | done | set_solver |].
  intros r Hr'. pose proof (elem_of_sublist _ _ _ Hr' Hsub) as Hin.
  unfold loadable in Hin. apply list_elem_of_In, in_flat_map in Hin as (item & _ & Hitem).
  destruct item as [| |r0]; simpl in Hitem; try done.
  destruct (truthy (deviceUserId r0) && truthy (recordTime r0)) eqn:Ht; simpl in Hitem;
    [|done].
  destruct Hitem as [<-|[]]. by apply andb_true_iff in Ht.
Qed.




Lemma load_items_signatures items a a' :
  load_items items a = Normal a' ->
  acc_signatures a = signatures_of (acc_records a) ->
  acc_signatures a' = signatures_of (acc_records a').
Proof.
  revert a. induction items as [|item items IH]; intros a Hl Ha; simpl in Hl.
  - by injection Hl as <-.
  - destruct item as [| |r]; [discriminate | by eapply IH |].
    destruct (truthy (deviceUserId r) && truthy (recordTime r)).
    + eapply IH; [exact Hl|]. by apply accept_record_signatures.
    + by eapply IH.
Qed.

Lemma collect_all_signatures l b :
  acc_signatures (index b) = signatures_of (acc_records (index b)) ->
  acc_signatures (index (collect_all l b)) =
    signatures_of (acc_records (index (collect_all l b))).
Proof.
  unfold collect_all. revert b. induction l as [|[ip res] l IH]; intros b Hb; simpl; [done|].
  apply IH. destruct res as [v|e]; simpl; [|done]. by apply accept_all_signatures.
Qed.

Lemma poll_and_accept_signatures env w :
  uniqueSignatures w = signatures_of (allAttendanceRecords w) ->
  uniqueSignatures (poll_and_accept env w).1 =
    signatures_of (allAttendanceRecords (poll_and_accept env w).1).
Proof.
  intros Hw. unfold poll_and_accept. cbn [fst allAttendanceRecords uniqueSignatures].
  by apply collect_all_signatures.
Qed.

Lemma step_signatures w w' :
  step w w' ->
  uniqueSignatures w = signatures_of (allAttendanceRecords w) ->
  uniqueSignatures w' = signatures_of (allAttendanceRecords w').
Proof.
  intros Hstep Hw. destruct Hstep as [day w|env w|env w|fs w].
  - unfold loadExistingRecords.
    destruct (files w !! day_file day) as [[why| |items]|]; try done.
    destruct (load_items items (Accepted [] ∅ 0)) as [a|e] eqn:Hl; [|done]. simpl.
    by eapply load_items_signatures.
  - destruct (fetchAndSaveNewRecords_index env w) as (-> & -> & _).
    by apply poll_and_accept_signatures.
  - destruct (fetchAndSendToAPI_index env w) as (-> & -> & _).
    by apply poll_and_accept_signatures.
  - done.
Qed.

Lemma reachable_signatures w :
  reachable w -> uniqueSignatures w = signatures_of (allAttendanceRecords w).
Proof.
  intros [fs Hrun].
  assert (Hinit : uniqueSignatures (initial_world fs) =
                  signatures_of (allAttendanceRecords (initial_world fs))) by done.
  revert Hinit. induction Hrun as [w|w1 w2 w3 Hstep _ IH]; intros Hc; [done|].
  by apply IH, (step_signatures w1).
Qed.

(** X4: in every reachable state the signature set is exactly the set
    of the signatures of the records, so the two numbers of dataStats
    in the health report of the remote-sync variant, uniqueSignatures
    and totalRecords, are equal. *)
Theorem health_counts_agree w :
  reachable w ->
  dataStats_uniqueSignatures (api_sync_health w) = dataStats_totalRecords (api_sync_health w) /\
  uniqueSignatures w = signatures_of (allAttendanceRecords w).
Proof.
  intros Hreach. pose proof (reachable_signatures w Hreach) as Hsig.
  split; [|done]. simpl. rewrite Hsig. unfold signatures_of.
  rewrite size_list_to_set; [by rewrite length_fmap|].
  by apply reachable_consistent.
Qed.

End LoadFacts.

(** ** The cycle *)

Section CycleExtras.
Context `{DateImpl}.

Lemma accept_all_app l1 l2 a :
  accept_all (l1 ++ l2) a = accept_all l2 (accept_all l1 a).
Proof. unfold accept_all. apply fold_left_app. Qed.

Lemma collect_all_index l b :
  index (collect_all l b) = accept_all (merged_logs (map snd l)) (index b).
Proof.
  unfold collect_all, merged_logs. revert b.
  induction l as [|[ip res] l IH]; intros b; simpl; [done|].
  rewrite IH. destruct res as [v|e]; simpl; [by rewrite accept_all_app | done].
Qed.

Lemma poll_and_accept_index env w :
  index (poll_and_accept env w).2 =
    accept_all (merged_logs (fetch_all (terminal env)))
               (Accepted (allAttendanceRecords w) (uniqueSignatures w) 0).
Proof. unfold poll_and_accept. cbn [snd]. by rewrite collect_all_index. Qed.

Lemma poll_and_accept_world env w :
  allAttendanceRecords (poll_and_accept env w).1 = acc_records (index (poll_and_accept env w).2) /\
  uniqueSignatures (poll_and_accept env w).1 = acc_signatures (index (poll_and_accept env w).2).
Proof. done. Qed.

(** What a cycle accepts, for both variants. *)
Lemma poll_and_accept_accepts env w :
  exists new,
    allAttendanceRecords (poll_and_accept env w).1 = allAttendanceRecords w ++ new /\
    new `sublist_of` merged_logs (fetch_all (terminal env)) /\
    (forall r, r ∈ new -> createRecordSignature r ∉ uniqueSignatures w) /\
    NoDup (createRecordSignature <$> new) /\
    uniqueSignatures (poll_and_accept env w).1 =
      uniqueSignatures w ∪ signatures_of (merged_logs (fetch_all (terminal env))) /\
    acc_count (index (poll_and_accept env w).2) = length new.
Proof.
  destruct (poll_and_accept_world env w) as [-> ->]. rewrite poll_and_accept_index.
  destruct (accept_all_sublist (merged_logs (fetch_all (terminal env)))
              (Accepted (allAttendanceRecords w) (uniqueSignatures w) 0))
    as (new & Hr & Hsub & Hu & Hnd & Hsig & Hc).
  exists new. by rewrite Hr, Hsig, Hc.
Qed.

(** X5: a cycle appends to the record list, it never removes or
    reorders: the new records are a sublist, in order, of the logs of
    the terminals that answered; their signatures were unknown and are
    pairwise distinct; afterwards the signature of every fetched log is
    known; newRecordsCount is their number and totalRecords is the old
    length plus newRecordsCount. *)
Theorem cycle_accepts_unknown_logs env w :
  exists new,
    allAttendanceRecords (fetchAndSaveNewRecords env w).1.1 = allAttendanceRecords w ++ new /\
    new `sublist_of` merged_logs (fetch_all (terminal env)) /\
    (forall r, r ∈ new -> createRecordSignature r ∉ uniqueSignatures w) /\
    NoDup (createRecordSignature <$> new) /\
    uniqueSignatures (fetchAndSaveNewRecords env w).1.1 =
      uniqueSignatures w ∪ signatures_of (merged_logs (fetch_all (terminal env))) /\
    newRecordsCount (fetchAndSaveNewRecords env w).1.2 = length new /\
    totalRecords (fetchAndSaveNewRecords env w).1.2 =
      length (allAttendanceRecords w) + newRecordsCount (fetchAndSaveNewRecords env w).1.2.
Proof.
  destruct (poll_and_accept_accepts env w) as (new & Hr & Hsub & Hu & Hnd & Hsig & Hc).
  destruct (fetchAndSaveNewRecords_index env w) as (Hr' & Hs' & Hn').
  exists new. rewrite Hr', Hs', Hn', Hr, Hsig, Hc.
  split_and!; try done.
  assert (Ht : totalRecords (fetchAndSaveNewRecords env w).1.2 =
               length (allAttendanceRecords (fetchAndSaveNewRecords env w).1.1)).
  { unfold fetchAndSaveNewRecords. destruct (poll_and_accept env w) as [w1 b].
    by destruct (0 <? _)%nat; [destruct (saveRecords _ _ _)|]. }
  by rewrite Ht, Hr', Hr, length_app.
Qed.

Lemma fetchAndSendToAPI_effects env w new :
  allAttendanceRecords (poll_and_accept env w).1 = allAttendanceRecords w ++ new ->
  acc_count (index (poll_and_accept env w).2) = length new ->
  (fetchAndSendToAPI env w).2 =
    match new with
    | [] => []
    | _ => [FsWrite (day_file (today env))
              (ArrayOf (map (fun r => ItemObject (json_record r))
                          (allAttendanceRecords w ++ new)))
              (disk_ok env);
            HttpPost (convertToCSharpFormat new)]
    end.
Proof.
  intros Hr Hc. unfold fetchAndSendToAPI.
  destruct (poll_and_accept env w) as [w1 b]. simpl in *. rewrite Hc.
  destruct new as [|x new]; [done|]. simpl.
  unfold saveRecords. 
  destruct (disk_ok env); simpl; rewrite Hr;
    replace (S (length new)) with (length (x :: new)) by done;
    rewrite slice_last_app;
    pose proof (sendToCSharpAPI_posts (http env) (x :: new)) as Hpost;
    destruct (sendToCSharpAPI (http env) (x :: new)) as [res sent]; simpl in *;
    by rewrite Hpost.
Qed.

(** X6: over two cycles of the remote-sync variant in a row, whatever
    the terminals, the disk and the collector do, each cycle either has
    no effect at all or writes the day file and posts its new records
    once; the records posted by the two cycles have pairwise distinct
    signatures, none of them known before the first cycle: no record is
    forwarded twice. *)
Theorem sync_forwards_each_record_once env1 env2 w :
  exists new1 new2,
    (fetchAndSendToAPI env1 w).2 =
      match new1 with
      | [] => []
      | _ => [FsWrite (day_file (today env1))
                (ArrayOf (map (fun r => ItemObject (json_record r))
                            (allAttendanceRecords w ++ new1)))
                (disk_ok env1);
              HttpPost (convertToCSharpFormat new1)]
      end /\
    (fetchAndSendToAPI env2 (fetchAndSendToAPI env1 w).1.1).2 =
      match new2 with
      | [] => []
      | _ => [FsWrite (day_file (today env2))
                (ArrayOf (map (fun r => ItemObject (json_record r))
                            (allAttendanceRecords w ++ new1 ++ new2)))
                (disk_ok env2);
              HttpPost (convertToCSharpFormat new2)]
      end /\
    NoDup (createRecordSignature <$> new1 ++ new2) /\
    (forall r, r ∈ new1 ++ new2 -> createRecordSignature r ∉ uniqueSignatures w).
Proof.
  destruct (poll_and_accept_accepts env1 w) as (new1 & Hr1 & Hsub1 & Hu1 & Hnd1 & Hsig1 & Hc1).
  destruct (fetchAndSendToAPI_index env1 w) as (Hr1' & Hs1' & _).
  set (w1 := (fetchAndSendToAPI env1 w).1.1) in *.
  destruct (poll_and_accept_accepts env2 w1) as (new2 & Hr2 & _ & Hu2 & Hnd2 & Hsig2 & Hc2).
  exists new1, new2. split_and!.
  - by apply fetchAndSendToAPI_effects.
  - rewrite (fetchAndSendToAPI_effects env2 w1 new2 Hr2 Hc2).
    by rewrite Hr1', Hr1, <- app_assoc.
  - rewrite fmap_app. apply NoDup_app. split_and!; [done | | done].
    intros sg Hsg1 Hsg2. apply list_elem_of_fmap in Hsg2 as (y & -> & Hy).
    apply (Hu2 y Hy). rewrite Hs1', Hsig1.
    apply elem_of_union. right.
    apply list_elem_of_fmap in Hsg1 as (x & Hxy & Hx). rewrite Hxy.
    apply elem_of_list_to_set, list_elem_of_fmap_2.
    by apply (elem_of_sublist _ _ _ Hx Hsub1).
  - intros r Hr. apply elem_of_app in Hr as [Hr|Hr]; [by apply Hu1|].
    specialize (Hu2 r Hr). rewrite Hs1', Hsig1 in Hu2. set_solver.
Qed.

End CycleExtras.

(** ** The per-device fetch, further *)

Section FetchExtras.
Context `{DateImpl}.

Lemma fetch_try_cases ip zk :
  (exists e, first_failure ip zk e /\ (fetch_try ip zk).2 = Throw e) \/
  (exists i us ls enhanced,
     createSocket zk = Normal () /\ getInfo zk = Normal i /\
     getUsers zk = Normal us /\ getAttendances zk = Normal ls /\
     map_throwing (enhance ip (build_userMap (default [] us))) (default [] ls)
       = Normal enhanced /\
     disconnect zk = Normal () /\
     fetch_try ip zk =
       ([CreateSocket; GetInfo; GetUsers; GetAttendances; Disconnect],
        Normal {| info := from_option InfoDevice InfoEmpty i;
                  allUsers := default [] us;
                  adminUsers := filter (fun u => strict_eq (role u) (JNum 14) = true)
                                       (default [] us);
                  attendanceLogs := enhanced;
                  snapshotIP := ip;
                  status := online;
                  error := JUndefined |})).
Proof.
  destruct (fetch_try ip zk) as [tr [v|e]] eqn:Htry.
  - right. revert Htry.
    unfold fetch_try, call, lift, mbind, comp_bind, mret, comp_ret.
    destruct (createSocket zk) as [[]|e0] eqn:Hc; simpl; [|discriminate].
    destruct (getInfo zk) as [i|e0] eqn:Hi; simpl; [|discriminate].
    destruct (getUsers zk) as [us|e0] eqn:Hu; simpl; [|discriminate].
    destruct (getAttendances zk) as [ls|e0] eqn:Hl; simpl; [|discriminate].
    destruct (map_throwing _ _) as [en|e0] eqn:Hm; simpl; [|discriminate].
    destruct (disconnect zk) as [[]|e0] eqn:Hd; simpl; [|discriminate].
    intros [= <- <-]. by exists i, us, ls, en.
  - left. exists e. split; [|done]. apply fetch_try_throws. by rewrite Htry.
Qed.

(** X7: the promise of fetchDeviceData settles in one of three ways.
    When no step fails it is fulfilled with an online result for the
    address it was given, without error, after exactly the five SDK
    calls in order.  When a step fails with a value other than null and
    undefined it is fulfilled with the offline result, whose error is
    what the message property of that value reads.  When a step fails
    with null or undefined, reading the message throws inside the catch
    block and the promise is rejected with that TypeError. *)
Theorem fetch_online_offline_or_rejected ip zk :
  (exists s,
     (fetchDeviceData ip zk).2 = Fulfilled s /\ snapshotIP s = ip /\
     status s = online /\ error s = JUndefined /\
     (fetchDeviceData ip zk).1 = [CreateSocket; GetInfo; GetUsers; GetAttendances; Disconnect] /\
     ~ (exists e, first_failure ip zk e)) \/
  (exists e,
     first_failure ip zk e /\
     match e with
     | Thrown msg => (fetchDeviceData ip zk).2 = Fulfilled (offline_snapshot ip msg)
     | ThrownNull =>
         (fetchDeviceData ip zk).2 =
           Rejected (TypeError "Cannot read properties of null (reading 'message')")
     | ThrownUndefined =>
         (fetchDeviceData ip zk).2 =
           Rejected (TypeError "Cannot read properties of undefined (reading 'message')")
     end).
Proof.
  unfold fetchDeviceData. destruct (fetch_try_cases ip zk) as [(e & Hf & Ht)|Hok].
  - right. exists e. split; [done|].
    destruct (fetch_try ip zk) as [tr r]. simpl in Ht. subst r. by destruct e.
  - destruct Hok as (i & us & ls & en & Hc & Hi & Hu & Hl & Hm & Hd & ->).
    left. eexists. split_and!; [done | done | done | done | done |].
    intros [e He]. apply fetch_try_throws in He. revert He.
    unfold fetch_try, call, lift, mbind, comp_bind, mret, comp_ret.
    rewrite Hc, Hi, Hu, Hl. simpl. rewrite Hm. simpl. rewrite Hd. simpl. discriminate.
Qed.

Lemma map_throwing_Forall2 {A B} (f : A -> completion B) (P : A -> B -> Prop) xs ys :
  (forall x y, f x = Normal y -> P x y) ->
  map_throwing f xs = Normal ys -> Forall2 P xs ys.
Proof.
  intros Hf. revert ys. induction xs as [|x xs IH]; intros ys Hm; simpl in Hm.
  - injection Hm as <-. constructor.
  - destruct (f x) as [y|e] eqn:Hx; [|discriminate].
    destruct (map_throwing f xs) as [ys'|e]; [|discriminate].
    injection Hm as <-. constructor; [by apply Hf | by apply IH].
Qed.

Lemma enhance_enriched ip users raw enriched :
  enhance ip (build_userMap users) raw = Normal enriched ->
  enriched_from ip users raw enriched.
Proof.
  unfold enhance, enriched_from.
  destruct (Date_getTime (recordTime raw)) as [t|]; [|discriminate].
  intros [= <-]. simpl. split_and!; try done. by exists t.
Qed.

(** X8: in an online result the user list is the terminal's table, and
    the enriched logs follow the raw logs one to one and in order: each
    keeps deviceUserId, userSn and the other raw properties, carries the
    terminal's address, the type of that address, the ISO form of its
    time, and as name what the lookup of its deviceUserId in userMap
    gives (a user's name, or a member of Object.prototype when the
    identifier names one and no user carries it), replaced by Unknown
    when that is falsy. *)
Theorem online_logs_follow_raw_logs ip zk s users logs :
  (fetchDeviceData ip zk).2 = Fulfilled s -> status s = online ->
  getUsers zk = Normal users -> getAttendances zk = Normal logs ->
  allUsers s = default [] users /\
  Forall2 (enriched_from ip (default [] users)) (default [] logs) (attendanceLogs s) /\
  length (attendanceLogs s) = length (default [] logs).
Proof.
  intros Hs Hon Hu Hl. revert Hs. unfold fetchDeviceData.
  destruct (fetch_try_cases ip zk) as [(e & Hf & Ht)|Hok].
  - destruct (fetch_try ip zk) as [tr r]. simpl in Ht. subst r.
    unfold fetch_catch. destruct (read_message e); [discriminate|].
    intros [= <-]. discriminate.
  - destruct Hok as (i & us & ls & en & Hc & Hi & Hu' & Hl' & Hm & Hd & ->).
    intros [= <-]. simpl. rewrite Hu in Hu'. rewrite Hl in Hl'.
    injection Hu' as <-. injection Hl' as <-.
    assert (HF : Forall2 (enriched_from ip (default [] users)) (default [] logs) en).
    { eapply map_throwing_Forall2; [|exact Hm]. intros x y. apply enhance_enriched. }
    split_and!; [done | done |]. symmetry. by eapply Forall2_length.
Qed.

(** X9: in any result of fetchDeviceData the administrators are exactly
    the users of allUsers whose role is the number 14. *)
Theorem admin_users_have_role_14 ip zk s u :
  (fetchDeviceData ip zk).2 = Fulfilled s ->
  u ∈ adminUsers s <-> u ∈ allUsers s /\ role u = JNum 14.
Proof.
  unfold fetchDeviceData.
  destruct (fetch_try_cases ip zk) as [(e & Hf & Ht)|Hok].
  - destruct (fetch_try ip zk) as [tr r]. simpl in Ht. subst r.
    unfold fetch_catch. destruct (read_message e); [discriminate|].
    intros [= <-]. simpl. split; [by intros ?%elem_of_nil | by intros [?%elem_of_nil _]].
  - destruct Hok as (i & us & ls & en & Hc & Hi & Hu' & Hl' & Hm & Hd & ->).
    intros [= <-]. simpl. rewrite list_elem_of_filter.
    split; intros [H1 H2]; split; try done.
    + apply strict_eq_true in H1 as [H1 _]. done.
    + apply strict_eq_true. by rewrite H2.
Qed.

(** Without a prototype the object is a plain map. *)
Lemma fill_bare users m key :
  has_prototype m = false ->
  has_prototype (fill users m) = false /\
  own (fill users m) !! key =
    match last (filter (fun u => to_string (userId u) = key) users) with
    | Some u => Some (userName u)
    | None => own m !! key
    end.
Proof.
  revert m. induction users as [|u users IH]; intros m Hm; [done|].
  unfold fill in *. cbn [fold_left].
  set (m' := userMap_set m (userId u) (userName u)).
  assert (Hm' : has_prototype m' = false /\
                own m' = <[to_string (userId u) := userName u]> (own m)).
  { subst m'. unfold userMap_set. by rewrite Hm. }
  destruct Hm' as [Hp Ho]. destruct (IH m' Hp) as [-> ->]. split; [done|].
  rewrite filter_cons.
  destruct (decide (to_string (userId u) = key)) as [<-|Hne].
  - destruct (filter _ users) as [|v vs] eqn:Hf.
    + simpl. by rewrite Ho, lookup_insert_eq.
    + rewrite last_cons_cons. by destruct (last (v :: vs)) eqn:E; [|apply last_None in E].
  - destruct (last (filter _ users)); [done|]. by rewrite Ho, lookup_insert_ne.
Qed.

Lemma fill_has_prototype users m :
  has_prototype (fill users m) = has_prototype m && negb (removes_prototype users).
Proof.
  revert m. induction users as [|u users IH]; intros m.
  - simpl. by rewrite andb_true_r.
  - unfold fill in *. cbn [fold_left]. rewrite IH.
    unfold removes_prototype. cbn [existsb]. unfold userMap_set, removes_prototype_user.
    destruct (has_prototype m) eqn:Hm; simpl; [|done].
    destruct (String.eqb _ "__proto__"); simpl; [|done].
    destruct (userName u); simpl; by rewrite ?Hm.
Qed.

Lemma fill_own users m key :
  has_prototype m = true ->
  own (fill users m) !! key =
    match last (writers key users) with
    | Some u => Some (userName u)
    | None => own m !! key
    end.
Proof.
  revert m. induction users as [|u users IH]; intros m Hm.
  { unfold writers. simpl. by destruct (String.eqb key "__proto__"). }
  unfold fill in *. cbn [fold_left].
  set (m' := userMap_set m (userId u) (userName u)).
  destruct (String.eqb_spec (to_string (userId u)) "__proto__") as [Hk|Hk].
  - destruct (decide (userName u = JNull)) as [Hn|Hn].
    + assert (Hm' : has_prototype m' = false /\ own m' = own m).
      { subst m'. unfold userMap_set. rewrite Hm, Hk, Hn. done. }
      destruct Hm' as [Hp Ho].
      destruct (fill_bare users m' key Hp) as [_ Hb]. unfold fill in Hb. rewrite Hb, Ho.
      unfold writers. destruct (String.eqb_spec key "__proto__") as [->|Hkey].
      * cbn [after_removal]. unfold removes_prototype_user.
        rewrite Hk, Hn. simpl. done.
      * rewrite filter_cons. rewrite decide_False by congruence. done.
    + assert (Hm' : m' = m).
      { subst m'. unfold userMap_set. rewrite Hm, Hk. simpl. by destruct (userName u). }
      rewrite Hm', IH by done.
      unfold writers. destruct (String.eqb_spec key "__proto__") as [->|Hkey].
      * cbn [after_removal]. unfold removes_prototype_user.
        rewrite Hk. simpl. by rewrite bool_decide_false.
      * rewrite filter_cons. rewrite decide_False by congruence. done.
  - assert (Hm' : has_prototype m' = true /\
                  own m' = <[to_string (userId u) := userName u]> (own m)).
    { subst m'. unfold userMap_set. rewrite Hm. simpl.
      by destruct (String.eqb_spec (to_string (userId u)) "__proto__"). }
    destruct Hm' as [Hp Ho]. rewrite IH by done. rewrite Ho.
    unfold writers. destruct (String.eqb_spec key "__proto__") as [->|Hkey].
    + cbn [after_removal]. unfold removes_prototype_user.
      destruct (String.eqb_spec (to_string (userId u)) "__proto__"); [done|]. simpl.
      destruct (last _); [done|]. by rewrite lookup_insert_ne.
    + rewrite filter_cons.
      destruct (decide (to_string (userId u) = key)) as [<-|Hne].
      * destruct (filter _ users) as [|v vs] eqn:Hf.
        -- simpl. by rewrite lookup_insert_eq.
        -- rewrite last_cons_cons. by destruct (last (v :: vs)) eqn:E; [|apply last_None in E].
      * destruct (last (filter _ users)); [done|]. by rewrite lookup_insert_ne.
Qed.

(** X10: the name looked up for a log is the name of the last user of
    the table whose userId prints like the log's deviceUserId, so the
    number 7 and the string 7 meet.  When no user does, the lookup
    follows the prototype chain: it gives the member of
    Object.prototype that the identifier names, if it names one, and
    undefined otherwise.  The key __proto__ stores nothing while the
    object has its prototype: a user under that key with the name null
    takes the prototype away, after which nothing is inherited and the
    key stores like any other. *)
Theorem userMap_last_name_wins users id :
  userMap_get (build_userMap users) id =
    match last (writers (to_string id) users) with
    | Some u => Prim (userName u)
    | None =>
        if negb (removes_prototype users) &&
           bool_decide (to_string id ∈ Object_prototype_keys)
        then Inherited (to_string id)
        else Prim JUndefined
    end.
Proof.
  unfold userMap_get, build_userMap.
  change (fold_left _ users ?m) with (fill users m).
  rewrite fill_own by done. rewrite fill_has_prototype. simpl.
  destruct (last _); [done|]. by rewrite lookup_empty.
Qed.

End FetchExtras.

(** ** The published snapshot *)

Section MapKeys.
Context {V : Type}.
Implicit Types (m : list (jsval * V)).

Lemma Map_set_keys_NoDup k (v : V) m : NoDup m.*1 -> NoDup (Map_set k v m).*1.
Proof.
  induction m as [|[k' v'] m IH]; simpl; intros Hnd.
  - apply NoDup_singleton.
  - unfold same_value_zero. case_bool_decide as Hk; simpl; [done|].
    apply NoDup_cons in Hnd as [Hk' Hnd]. apply NoDup_cons. split; [|by apply IH].
    intros Hin. apply Hk'. clear IH Hnd Hk'.
    induction m as [|[k0 v0] m IH]; simpl in *.
    + apply list_elem_of_singleton in Hin. congruence.
    + revert Hin. unfold same_value_zero. case_bool_decide as Hk0; simpl; [done|].
      intros Hin. apply elem_of_cons in Hin as [->|Hin];
        [apply list_elem_of_here | by apply list_elem_of_further, IH].
Qed.

Lemma Map_set_keys_iff k (v : V) m k0 :
  k0 ∈ (Map_set k v m).*1 <-> k0 = k \/ k0 ∈ m.*1.
Proof.
  induction m as [|[k' v'] m IH]; simpl.
  - rewrite list_elem_of_singleton, elem_of_nil. tauto.
  - unfold same_value_zero. case_bool_decide as Hk; simpl.
    + subst. rewrite elem_of_cons. tauto.
    + rewrite !elem_of_cons, IH. tauto.
Qed.

Lemma new_Map_keys (entries : list (jsval * V)) :
  NoDup (new_Map entries).*1 /\
  forall k0, k0 ∈ (new_Map entries).*1 <-> k0 ∈ entries.*1.
Proof.
  unfold new_Map.
  assert (Hgen : forall m, NoDup m.*1 ->
            NoDup (fold_left (fun m kv => Map_set kv.1 kv.2 m) entries m).*1 /\
            forall k0, k0 ∈ (fold_left (fun m kv => Map_set kv.1 kv.2 m) entries m).*1 <->
                       k0 ∈ m.*1 \/ k0 ∈ entries.*1).
  { induction entries as [|[k v] entries IH]; intros m Hm; simpl.
    - split; [done|]. intros k0. rewrite elem_of_nil. tauto.
    - destruct (IH (Map_set k v m) (Map_set_keys_NoDup k v m Hm)) as [Hnd Hiff].
      split; [done|]. intros k0. rewrite Hiff, Map_set_keys_iff, elem_of_cons. tauto. }
  destruct (Hgen [] (NoDup_nil_2 : NoDup ([] : list (jsval * V)).*1)) as [Hnd Hiff].
  split; [done|]. intros k0. rewrite Hiff. simpl. rewrite elem_of_nil. tauto.
Qed.

End MapKeys.

Lemma self_keyed_ids m : self_keyed m -> userId <$> map snd m = m.*1.
Proof.
  induction m as [|[k u] m IH]; intros Hm; [done|].
  change (userId u :: (userId <$> map snd m) = k :: m.*1).
  rewrite IH; [|intros k0 u0 H0; by apply Hm, list_elem_of_further].
  f_equal. symmetry. apply Hm, list_elem_of_here.
Qed.

Lemma keyed_ids users : (keyed users).*1 = userId <$> users.
Proof.
  unfold keyed. induction users as [|u users IH]; [done|].
  change (userId u :: (map (fun u => (userId u, u)) users).*1 = userId u :: (userId <$> users)).
  by rewrite IH.
Qed.

(** X11: the user list of the combined view holds no two users with the
    same userId, and holds a userId exactly when some merged user has
    it: no identifier is lost and none is invented. *)
Theorem unique_users_distinct_ids users :
  NoDup (userId <$> unique_users users) /\
  forall id, id ∈ (userId <$> unique_users users) <-> id ∈ (userId <$> users).
Proof.
  unfold unique_users. fold (keyed users).
  rewrite self_keyed_ids by apply new_Map_self_keyed.
  destruct (new_Map_keys (keyed users)) as [Hnd Hiff].
  split; [done|]. intros id. by rewrite Hiff, keyed_ids.
Qed.

Lemma unique_users_keys users :
  userId <$> unique_users users = (new_Map (keyed users)).*1.
Proof.
  unfold unique_users. fold (keyed users).
  by rewrite self_keyed_ids by apply new_Map_self_keyed.
Qed.

Lemma unique_users_length_le admins users :
  (forall id, id ∈ (userId <$> admins) -> id ∈ (userId <$> users)) ->
  length (unique_users admins) <= length (unique_users users).
Proof.
  intros Hsub.
  destruct (new_Map_keys (keyed admins)) as [Hnd1 Hiff1].
  destruct (new_Map_keys (keyed users)) as [Hnd2 Hiff2].
  rewrite <- (length_fmap userId (unique_users admins)),
          <- (length_fmap userId (unique_users users)), !unique_users_keys.
  apply submseteq_length, NoDup_submseteq; [done|].
  intros id Hid. apply Hiff2. rewrite keyed_ids. apply Hsub.
  rewrite <- keyed_ids. by apply Hiff1.
Qed.

Section PublishedFacts.
Context `{DateImpl}.

Lemma cycle_latestDeviceData env w :
  latestDeviceData (fetchAndSaveNewRecords env w).1.1 = latestDeviceData (poll_and_accept env w).1 /\
  deviceData (fetchAndSaveNewRecords env w).1.2 = latestDeviceData (poll_and_accept env w).1 /\
  latestDeviceData (fetchAndSendToAPI env w).1.1 = latestDeviceData (poll_and_accept env w).1 /\
  deviceData (fetchAndSendToAPI env w).1.2 = latestDeviceData (poll_and_accept env w).1.
Proof.
  unfold fetchAndSaveNewRecords, fetchAndSendToAPI, saveRecords.
  destruct (poll_and_accept env w) as [w1 b]. simpl.
  destruct (0 <? _)%nat; [|done].
  destruct (disk_ok env); simpl; by destruct (sendToCSharpAPI _ _).
Qed.

(** A rejected fetch counts like the offline result built from it. *)
Lemma collect_result_rejected b ip r :
  collect_result b ip r = collect_result b ip (Fulfilled (settled_entry ip r)).
Proof.
  destruct r as [v|reason]; [done|].
  unfold collect_result, settled_entry, offline_snapshot, accept_all. simpl.
  by rewrite !app_nil_r.
Qed.

Lemma poll_and_accept_settled env w :
  let s1 := settled_entry "192.168.18.253"
              (fetchDeviceData "192.168.18.253" (terminal env "192.168.18.253")).2 in
  let s2 := settled_entry "192.168.18.252"
              (fetchDeviceData "192.168.18.252" (terminal env "192.168.18.252")).2 in
  latestDeviceData (poll_and_accept env w).1 =
    <["combined" := combined_snapshot (poll_and_accept env w).2]>
      (<["192.168.18.252" := s2]> (<["192.168.18.253" := s1]> ∅)) /\
  combinedLogs (poll_and_accept env w).2 = attendanceLogs s1 ++ attendanceLogs s2 /\
  combinedAllUsers (poll_and_accept env w).2 = allUsers s1 ++ allUsers s2 /\
  combinedAdminUsers (poll_and_accept env w).2 = adminUsers s1 ++ adminUsers s2.
Proof.
  intros s1 s2. unfold poll_and_accept, fetch_all, devices, collect_all.
  cbn [map zip zip_with fold_left fst snd latestDeviceData].
  rewrite (collect_result_rejected _ "192.168.18.253"), (collect_result_rejected _ "192.168.18.252").
  done.
Qed.

Lemma poll_and_accept_entries env w s1 s2 :
  (fetchDeviceData "192.168.18.253" (terminal env "192.168.18.253")).2 = Fulfilled s1 ->
  (fetchDeviceData "192.168.18.252" (terminal env "192.168.18.252")).2 = Fulfilled s2 ->
  latestDeviceData (poll_and_accept env w).1 =
    <["combined" := combined_snapshot (poll_and_accept env w).2]>
      (<["192.168.18.252" := s2]> (<["192.168.18.253" := s1]> ∅)) /\
  combinedLogs (poll_and_accept env w).2 = attendanceLogs s1 ++ attendanceLogs s2 /\
  combinedAllUsers (poll_and_accept env w).2 = allUsers s1 ++ allUsers s2 /\
  combinedAdminUsers (poll_and_accept env w).2 = adminUsers s1 ++ adminUsers s2.
Proof.
  intros Hs1 Hs2. pose proof (poll_and_accept_settled env w) as Hp.
  by rewrite Hs1, Hs2 in Hp.
Qed.

Lemma cycle_entries env w s1 s2 :
  settled_entry "192.168.18.253"
    (fetchDeviceData "192.168.18.253" (terminal env "192.168.18.253")).2 = s1 ->
  settled_entry "192.168.18.252"
    (fetchDeviceData "192.168.18.252" (terminal env "192.168.18.252")).2 = s2 ->
  deviceData (fetchAndSaveNewRecords env w).1.2 !! "192.168.18.253" = Some s1 /\
  deviceData (fetchAndSaveNewRecords env w).1.2 !! "192.168.18.252" = Some s2 /\
  deviceData (fetchAndSaveNewRecords env w).1.2 !! "combined" =
    Some (combinedData (fetchAndSaveNewRecords env w).1.2) /\
  latestDeviceData (fetchAndSaveNewRecords env w).1.1 =
    deviceData (fetchAndSaveNewRecords env w).1.2 /\
  attendanceLogs (combinedData (fetchAndSaveNewRecords env w).1.2) =
    attendanceLogs s1 ++ attendanceLogs s2 /\
  allUsers (combinedData (fetchAndSaveNewRecords env w).1.2) =
    unique_users (allUsers s1 ++ allUsers s2) /\
  adminUsers (combinedData (fetchAndSaveNewRecords env w).1.2) =
    unique_users (adminUsers s1 ++ adminUsers s2).
Proof.
  intros Hs1 Hs2.
  destruct (cycle_latestDeviceData env w) as (-> & -> & _ & _).
  rewrite fetchAndSaveNewRecords_combined.
  destruct (poll_and_accept_settled env w) as (-> & Hl & Hu & Ha).
  rewrite Hs1, Hs2 in *.
  unfold combined_snapshot. cbn [attendanceLogs allUsers adminUsers]. rewrite Hl, Hu, Ha.
  by split_and!.
Qed.

(** X12: a cycle publishes, under each terminal's address, that
    terminal's own result, and under combined the combined view it
    returns; the published map replaces latestDeviceData; the combined
    logs are the two terminals' logs one after the other, and the
    combined user lists are the deduplicated concatenations. *)
Theorem cycle_publishes_each_terminal env w s1 s2 :
  (fetchDeviceData "192.168.18.253" (terminal env "192.168.18.253")).2 = Fulfilled s1 ->
  (fetchDeviceData "192.168.18.252" (terminal env "192.168.18.252")).2 = Fulfilled s2 ->
  deviceData (fetchAndSaveNewRecords env w).1.2 !! "192.168.18.253" = Some s1 /\
  deviceData (fetchAndSaveNewRecords env w).1.2 !! "192.168.18.252" = Some s2 /\
  deviceData (fetchAndSaveNewRecords env w).1.2 !! "combined" =
    Some (combinedData (fetchAndSaveNewRecords env w).1.2) /\
  latestDeviceData (fetchAndSaveNewRecords env w).1.1 =
    deviceData (fetchAndSaveNewRecords env w).1.2 /\
  attendanceLogs (combinedData (fetchAndSaveNewRecords env w).1.2) =
    attendanceLogs s1 ++ attendanceLogs s2 /\
  allUsers (combinedData (fetchAndSaveNewRecords env w).1.2) =
    unique_users (allUsers s1 ++ allUsers s2) /\
  adminUsers (combinedData (fetchAndSaveNewRecords env w).1.2) =
    unique_users (adminUsers s1 ++ adminUsers s2).
Proof.
  intros Hs1 Hs2.
  destruct (cycle_latestDeviceData env w) as (-> & -> & _ & _).
  rewrite fetchAndSaveNewRecords_combined.
  destruct (poll_and_accept_entries env w s1 s2 Hs1 Hs2) as (-> & Hl & Hu & Ha).
  unfold combined_snapshot. cbn [attendanceLogs allUsers adminUsers]. rewrite Hl, Hu, Ha.
  by split_and!.
Qed.

Lemma failed_fetch_entry ip zk e :
  first_failure ip zk e ->
  settled_entry ip (fetchDeviceData ip zk).2 = offline_snapshot ip (recorded_error e).
Proof.
  intros Hfail. apply fetch_try_throws in Hfail.
  unfold fetchDeviceData, fetch_catch, recorded_error.
  destruct (fetch_try ip zk) as [tr r]. simpl in Hfail. subst r. simpl.
  by destruct (read_message e).
Qed.

(** X13: when the fetch of one of the two terminals fails, the cycle
    still completes: that terminal's entry is the offline result, whose
    error is the message read from the thrown value, or the message of
    the TypeError when the thrown value is null or undefined and the
    fetch rejects; the other terminal's entry is its own result, and the
    combined view holds the other terminal's logs and users alone;
    newRecordsCount is at most the number of its logs. *)
Theorem failed_terminal_leaves_the_other bad good env w e s :
  (bad = "192.168.18.253" /\ good = "192.168.18.252") \/
  (bad = "192.168.18.252" /\ good = "192.168.18.253") ->
  first_failure bad (terminal env bad) e ->
  (fetchDeviceData good (terminal env good)).2 = Fulfilled s ->
  deviceData (fetchAndSaveNewRecords env w).1.2 !! bad =
    Some (offline_snapshot bad (recorded_error e)) /\
  deviceData (fetchAndSaveNewRecords env w).1.2 !! good = Some s /\
  attendanceLogs (combinedData (fetchAndSaveNewRecords env w).1.2) = attendanceLogs s /\
  allUsers (combinedData (fetchAndSaveNewRecords env w).1.2) = unique_users (allUsers s) /\
  adminUsers (combinedData (fetchAndSaveNewRecords env w).1.2) =
    unique_users (adminUsers s) /\
  newRecordsCount (fetchAndSaveNewRecords env w).1.2 <= length (attendanceLogs s).
Proof.
  intros Hwhich Hfail Hgood.
  pose proof (failed_fetch_entry _ _ _ Hfail) as Hbad.
  assert (Hgood' : settled_entry good (fetchDeviceData good (terminal env good)).2 = s)
    by by rewrite Hgood.
  assert (Hcount : newRecordsCount (fetchAndSaveNewRecords env w).1.2 <=
                   length (attendanceLogs (combinedData (fetchAndSaveNewRecords env w).1.2))).
  { destruct (fetchAndSaveNewRecords_index env w) as (_ & _ & ->).
    destruct (poll_and_accept_accepts env w) as (new & _ & Hsub & _ & _ & _ & ->).
    rewrite fetchAndSaveNewRecords_combined. unfold combined_snapshot. cbn [attendanceLogs].
    destruct (poll_and_accept_merges env w) as [_ ->]. by apply sublist_length. }
  destruct Hwhich as [[-> ->]|[-> ->]].
  - destruct (cycle_entries env w _ _ Hbad Hgood') as (H1 & H2 & _ & _ & Hl & Hu & Ha).
    simpl in Hl, Hu, Ha. rewrite Hl in Hcount. by rewrite Hl, Hu, Ha.
  - destruct (cycle_entries env w _ _ Hgood' Hbad) as (H1 & H2 & _ & _ & Hl & Hu & Ha).
    simpl in Hl, Hu, Ha. rewrite app_nil_r in Hl, Hu, Ha.
    rewrite Hl in Hcount. by rewrite Hl, Hu, Ha.
Qed.

End PublishedFacts.

(** ** The health endpoints *)

Section HealthFacts.
Context `{DateImpl}.

Lemma fetch_result_admins ip zk s :
  settled_entry ip (fetchDeviceData ip zk).2 = s ->
  adminUsers s = filter (fun u => strict_eq (role u) (JNum 14) = true) (allUsers s) /\
  (status s = online \/ status s = offline).
Proof.
  unfold fetchDeviceData.
  destruct (fetch_try_cases ip zk) as [(e & Hf & Ht)|Hok].
  - destruct (fetch_try ip zk) as [tr r]. simpl in Ht. subst r.
    unfold fetch_catch. destruct (read_message e); intros <-; split; [done | by right | done | by right].
  - destruct Hok as (i & us & ls & en & Hc & Hi & Hu' & Hl' & Hm & Hd & ->).
    intros <-. split; [done | by left].
Qed.

Lemma poll_and_accept_published env w :
  published (latestDeviceData (poll_and_accept env w).1).
Proof.
  destruct (poll_and_accept_settled env w) as (-> & _ & Hu & Ha).
  destruct (fetch_result_admins "192.168.18.253" (terminal env "192.168.18.253") _ eq_refl)
    as [Ha1 Hst1].
  destruct (fetch_result_admins "192.168.18.252" (terminal env "192.168.18.252") _ eq_refl)
    as [Ha2 Hst2].
  split_and!.
  - eexists. by split.
  - eexists. by split.
  - eexists. split; [by rewrite lookup_insert_eq|].
    unfold combined_snapshot. cbn [adminUsers allUsers]. rewrite Hu, Ha.
    apply unique_users_length_le. intros id Hid.
    apply list_elem_of_fmap in Hid as (u & -> & Hu'). apply list_elem_of_fmap_2.
    rewrite Ha1, Ha2 in Hu'. rewrite elem_of_app in *.
    destruct Hu' as [Hu'|Hu']; apply list_elem_of_filter in Hu' as [_ Hu']; tauto.
Qed.

Lemma step_admins w w' :
  step w w' ->
  health_adminUsers (api_health w) <= health_totalUsers (api_health w) ->
  health_adminUsers (api_health w') <= health_totalUsers (api_health w').
Proof.
  intros Hstep Hw. destruct Hstep as [day w|env w|env w|fs w].
  - unfold loadExistingRecords.
    by destruct (files w !! day_file day) as [[why| |items]|];
      try destruct (load_items items _).
  - unfold api_health. cbn [health_adminUsers health_totalUsers].
    destruct (cycle_latestDeviceData env w) as (-> & _ & _ & _).
    destruct (poll_and_accept_published env w) as (_ & _ & c & -> & Hc). done.
  - unfold api_health. cbn [health_adminUsers health_totalUsers].
    destruct (cycle_latestDeviceData env w) as (_ & _ & -> & _).
    destruct (poll_and_accept_published env w) as (_ & _ & c & -> & Hc). done.
  - done.
Qed.

(** X14: in every reachable state the health report of index.js never
    counts more administrators than users. *)
Theorem health_admins_within_users w :
  reachable w ->
  health_adminUsers (api_health w) <= health_totalUsers (api_health w).
Proof.
  intros [fs Hrun].
  assert (Hinit : health_adminUsers (api_health (initial_world fs)) <=
                  health_totalUsers (api_health (initial_world fs))) by done.
  revert Hinit. induction Hrun as [w|w1 w2 w3 Hstep _ IH]; intros Hc; [done|].
  by apply IH, (step_admins w1).
Qed.

Lemma step_polled w w' :
  step w w' ->
  (exists s1, latestDeviceData w !! "192.168.18.253" = Some s1 /\
              (status s1 = online \/ status s1 = offline)) /\
  (exists s2, latestDeviceData w !! "192.168.18.252" = Some s2 /\
              (status s2 = online \/ status s2 = offline)) ->
  (exists s1, latestDeviceData w' !! "192.168.18.253" = Some s1 /\
              (status s1 = online \/ status s1 = offline)) /\
  (exists s2, latestDeviceData w' !! "192.168.18.252" = Some s2 /\
              (status s2 = online \/ status s2 = offline)).
Proof.
  intros Hstep Hw. destruct Hstep as [day w|env w|env w|fs w].
  - unfold loadExistingRecords.
    by destruct (files w !! day_file day) as [[why| |items]|];
      try destruct (load_items items _).
  - destruct (cycle_latestDeviceData env w) as (-> & _ & _ & _).
    destruct (poll_and_accept_published env w) as (H1 & H2 & _). done.
  - destruct (cycle_latestDeviceData env w) as (_ & _ & -> & _).
    destruct (poll_and_accept_published env w) as (H1 & H2 & _). done.
  - done.
Qed.

(** X15: once a cycle of the remote-sync variant has run, and whatever
    loads, cycles and outside changes follow, the health report says
    lastRun Recently and gives each device the status online or
    offline, never initializing nor unknown. *)
Theorem last_run_after_a_sync env w w' :
  rtc step (fetchAndSendToAPI env w).1.1 w' ->
  lastRun (api_sync_health w') = "Recently" /\
  (device1 (api_sync_health w') = "online" \/ device1 (api_sync_health w') = "offline") /\
  (device2 (api_sync_health w') = "online" \/ device2 (api_sync_health w') = "offline").
Proof.
  intros Hrun.
  assert (Hpolled :
    (exists s1, latestDeviceData w' !! "192.168.18.253" = Some s1 /\
                (status s1 = online \/ status s1 = offline)) /\
    (exists s2, latestDeviceData w' !! "192.168.18.252" = Some s2 /\
                (status s2 = online \/ status s2 = offline))).
  { assert (Hstart :
      (exists s1, latestDeviceData (fetchAndSendToAPI env w).1.1 !! "192.168.18.253" = Some s1 /\
                  (status s1 = online \/ status s1 = offline)) /\
      (exists s2, latestDeviceData (fetchAndSendToAPI env w).1.1 !! "192.168.18.252" = Some s2 /\
                  (status s2 = online \/ status s2 = offline))).
    { destruct (cycle_latestDeviceData env w) as (_ & _ & -> & _).
      destruct (poll_and_accept_published env w) as (H1 & H2 & _). done. }
    revert Hstart. induction Hrun as [x|x y z Hstep _ IH]; intros Hx; [done|].
    by apply IH, (step_polled x). }
  destruct Hpolled as [(s1 & Hs1 & Hst1) (s2 & Hs2 & Hst2)].
  unfold api_sync_health. cbn [lastRun device1 device2]. rewrite Hs1, Hs2. simpl.
  destruct Hst1 as [->| ->], Hst2 as [->| ->]; simpl; tauto.
Qed.

End HealthFacts.

(** ** The dashboard variant *)

Lemma filter_from_elem {A} (f : A -> Z -> bool) i (xs : list A) x :
  x ∈ filter_from f i xs ->
  exists j, xs !! j = Some x /\ f x (i + Z.of_nat j)%Z = true.
Proof.
  revert i. induction xs as [|y xs IH]; intros i Hin; simpl in Hin.
  - by apply elem_of_nil in Hin.
  - destruct (f y i) eqn:Hf.
    + apply elem_of_cons in Hin as [->|Hin].
      * exists 0. split; [done|]. by rewrite Z.add_0_r.
      * destruct (IH _ Hin) as (j & Hj & Hfj). exists (S j). split; [done|].
        by replace (i + Z.of_nat (S j))%Z with (i + 1 + Z.of_nat j)%Z by lia.
    + destruct (IH _ Hin) as (j & Hj & Hfj). exists (S j). split; [done|].
      by replace (i + Z.of_nat (S j))%Z with (i + 1 + Z.of_nat j)%Z by lia.
Qed.

Lemma findIndex_none {A} (p : A -> bool) (xs : list A) :
  (forall x, x ∈ xs -> p x = false) -> findIndex p xs = (-1)%Z.
Proof.
  induction xs as [|x xs IH]; intros Hp; simpl; [done|].
  rewrite (Hp x) by apply list_elem_of_here.
  rewrite IH; [done|]. intros y Hy. by apply Hp, list_elem_of_further.
Qed.

Lemma first_users_no_NaN users u :
  u ∈ first_users users -> userId u <> JNaN.
Proof.
  unfold first_users, filter_indexed. intros Hin Hnan.
  apply filter_from_elem in Hin as (j & _ & Hf).
  rewrite Hnan in Hf. rewrite findIndex_none in Hf.
  - apply Z.eqb_eq in Hf. lia.
  - intros x _. unfold strict_eq. by destruct (userId x).
Qed.

Lemma filter_from_sublist {A} (f : A -> Z -> bool) i (xs : list A) :
  filter_from f i xs `sublist_of` xs.
Proof.
  revert i. induction xs as [|y xs IH]; intros i; simpl; [done|].
  destruct (f y i); [by apply sublist_skip | by apply sublist_cons].
Qed.

Lemma single_entries_NoDup users :
  (forall id, length (entries_for id users) <= 1) -> NoDup (userId <$> users).
Proof.
  unfold entries_for. induction users as [|u users IH]; intros Hone; [constructor|].
  rewrite fmap_cons. apply NoDup_cons. split.
  - intros Hin. apply list_elem_of_fmap in Hin as (v & Hv & Hin).
    specialize (Hone (userId u)). rewrite filter_cons, decide_True in Hone by done.
    assert (Hv' : v ∈ filter (fun x => userId x = userId u) users)
      by (apply list_elem_of_filter; split; [congruence | done]).
    destruct (filter _ users); [by apply elem_of_nil in Hv' | simpl in Hone; lia].
  - apply IH. intros id. specialize (Hone id). rewrite filter_cons in Hone.
    destruct (decide (userId u = id)); simpl in Hone; lia.
Qed.

(** X16: the findIndex filter of fetchAllDeviceData gives a sublist of
    the merged users with pairwise distinct userIds; it holds a userId
    exactly when some merged user has it and it is not NaN: every user
    whose userId is NaN is dropped. *)
Theorem first_users_distinct_ids users :
  NoDup (userId <$> first_users users) /\
  (forall id, id ∈ (userId <$> first_users users) <->
              id ∈ (userId <$> users) /\ id <> JNaN) /\
  first_users users `sublist_of` users.
Proof.
  assert (Hent : forall id, id <> JNaN ->
            entries_for id (first_users users) = option_list (head (entries_for id users)))
    by (intros; by apply first_users_entries).
  assert (Hnan : entries_for JNaN (first_users users) = []).
  { unfold entries_for. destruct (filter _ (first_users users)) as [|u us] eqn:Hf; [done|].
    assert (Hu : u ∈ filter (fun u => userId u = JNaN) (first_users users))
      by (rewrite Hf; apply list_elem_of_here).
    apply list_elem_of_filter in Hu as [Hid Hu]. by apply first_users_no_NaN in Hu. }
  split_and!.
  - apply single_entries_NoDup. intros id. destruct (decide (id = JNaN)) as [->|Hne].
    + rewrite Hnan. simpl. lia.
    + rewrite Hent by done. destruct (head _); simpl; lia.
  - intros id. split.
    + intros Hin. apply list_elem_of_fmap in Hin as (u & -> & Hu).
      split; [|by eapply first_users_no_NaN].
      apply list_elem_of_fmap_2.
      eapply elem_of_sublist; [exact Hu|]. apply filter_from_sublist.
    + intros [Hin Hne]. apply list_elem_of_fmap in Hin as (u & -> & Hu).
      assert (Hu' : u ∈ entries_for (userId u) users)
        by (apply list_elem_of_filter; done).
      destruct (entries_for (userId u) users) as [|v vs] eqn:He;
        [by apply elem_of_nil in Hu'|].
      assert (Hv : v ∈ entries_for (userId u) (first_users users)).
      { rewrite Hent by done. rewrite He. simpl. apply list_elem_of_here. }
      apply list_elem_of_filter in Hv as [Hid Hv]. rewrite <- Hid.
      by apply list_elem_of_fmap_2.
  - apply filter_from_sublist.
Qed.

Section DashboardFacts.
Context `{DateImpl}.

Lemma fetchAllDeviceData_logs results :
  view_attendanceLogs (fetchAllDeviceData results) = merged_logs results.
Proof.
  unfold fetchAllDeviceData. cbn [view_attendanceLogs].
  change (merged_logs results)
    with (view_attendanceLogs (CombinedView [] [] [] InfoEmpty) ++ merged_logs results).
  generalize (CombinedView [] [] [] InfoEmpty).
  induction results as [|r results IH]; intros c; simpl.
  - by rewrite app_nil_r.
  - rewrite IH. destruct r as [v|e]; simpl; by rewrite <- ?app_assoc.
Qed.

Lemma dashboard_fetch_cases ip zk :
  (exists e, (Dashboard.fetchDeviceData ip zk).2 = fetch_catch ip e /\
             (createSocket zk = Throw e \/ getInfo zk = Throw e \/ getUsers zk = Throw e \/
              getAttendances zk = Throw e \/ disconnect zk = Throw e)) \/
  (exists i us ls,
     createSocket zk = Normal () /\ getInfo zk = Normal i /\
     getUsers zk = Normal us /\ getAttendances zk = Normal ls /\
     disconnect zk = Normal () /\
     Dashboard.fetchDeviceData ip zk =
       ([CreateSocket; GetInfo; GetUsers; GetAttendances; Disconnect],
        Fulfilled {| info := from_option InfoDevice InfoEmpty i;
                     allUsers := default [] us;
                     adminUsers := filter (fun u => strict_eq (role u) (JNum 14) = true)
                                          (default [] us);
                     attendanceLogs :=
                       map (Dashboard.enhance ip (build_userMap (default [] us)))
                           (default [] ls);
                     snapshotIP := ip;
                     status := online;
                     error := JUndefined |})).
Proof.
  unfold Dashboard.fetchDeviceData, Dashboard.fetch_try, call, mbind, comp_bind, mret, comp_ret.
  destruct (createSocket zk) as [[]|e0] eqn:Hc; simpl; [|left; exists e0; tauto].
  destruct (getInfo zk) as [i|e0] eqn:Hi; simpl; [|left; exists e0; tauto].
  destruct (getUsers zk) as [us|e0] eqn:Hu; simpl; [|left; exists e0; tauto].
  destruct (getAttendances zk) as [ls|e0] eqn:Hl; simpl; [|left; exists e0; tauto].
  destruct (disconnect zk) as [[]|e0] eqn:Hd; simpl; [|left; exists e0; tauto].
  right. by exists i, us, ls.
Qed.

(** X17: in the dashboard variant, when the five SDK calls succeed the
    result is online and holds one enriched log per raw log, in order,
    with the recordTime of the raw log unchanged (no date is parsed, so
    no date can fail the fetch), the same deviceUserId, the terminal's
    address and the type of that address. *)
Theorem dashboard_fetch_keeps_record_time ip zk i us ls :
  createSocket zk = Normal () -> getInfo zk = Normal i ->
  getUsers zk = Normal us -> getAttendances zk = Normal ls ->
  disconnect zk = Normal () ->
  exists s,
    (Dashboard.fetchDeviceData ip zk).2 = Fulfilled s /\ status s = online /\
    length (attendanceLogs s) = length (default [] ls) /\
    Forall2 (fun raw enriched =>
               recordTime enriched = recordTime raw /\
               deviceUserId enriched = deviceUserId raw /\
               deviceIP enriched = JStr ip /\
               type enriched = JStr (if String.eqb ip "192.168.18.253" then "IN" else "OUT"))
            (default [] ls) (attendanceLogs s).
Proof.
  intros Hc Hi Hu Hl Hd.
  destruct (dashboard_fetch_cases ip zk) as [(e & _ & Hbad)|Hok].
  - destruct Hbad as [?|[?|[?|[?|?]]]]; congruence.
  - destruct Hok as (i' & us' & ls' & _ & _ & Hu' & Hl' & _ & ->).
    rewrite Hu in Hu'. rewrite Hl in Hl'. injection Hu' as <-. injection Hl' as <-.
    eexists. split_and!; [done | done | apply length_map |]. simpl.
    induction (default [] ls) as [|x xs IH]; simpl; constructor; done.
Qed.

(** X18: fetchAllDeviceData of the dashboard variant gives each
    terminal's result under its address; the combined logs are the two
    terminals' logs one after the other, without deduplication; the
    combined user lists are the findIndex filter of the concatenations;
    the combined info is that of the first terminal unless it is
    empty, and then that of the second. *)
Theorem dashboard_poll_merges terminal s1 s2 :
  (Dashboard.fetchDeviceData "192.168.18.253" (terminal "192.168.18.253")).2 = Fulfilled s1 ->
  (Dashboard.fetchDeviceData "192.168.18.252" (terminal "192.168.18.252")).2 = Fulfilled s2 ->
  (Dashboard.poll terminal).1 !! "192.168.18.253" = Some s1 /\
  (Dashboard.poll terminal).1 !! "192.168.18.252" = Some s2 /\
  view_attendanceLogs (Dashboard.poll terminal).2 = attendanceLogs s1 ++ attendanceLogs s2 /\
  view_allUsers (Dashboard.poll terminal).2 = first_users (allUsers s1 ++ allUsers s2) /\
  view_adminUsers (Dashboard.poll terminal).2 = first_users (adminUsers s1 ++ adminUsers s2) /\
  view_info (Dashboard.poll terminal).2 =
    match info s1 with InfoEmpty => info s2 | i => i end.
Proof.
  intros Hs1 Hs2. unfold Dashboard.poll, devices.
  cbn [map zip zip_with fold_left fst snd]. rewrite Hs1, Hs2.
  unfold fetchAllDeviceData. simpl. rewrite ?app_nil_r.
  by split_and!.
Qed.

End DashboardFacts.

(** ** The file endpoints, further *)

(** X19: deleting an existing file whose name passes the guard answers
    200 and removes that file alone.  Afterwards every name that passes
    the guard and that path.join resolves to the same file, the deleted
    name among them, answers 404 to a read and to a second delete; the
    files under every other path are as before. *)
Theorem delete_then_get_not_found filename fs c :
  rejected_filename filename = false ->
  fs !! path_join dataDir filename = Some c ->
  exists fs',
    delete_file true filename fs =
      (Response 200 (BodyMessage "File deleted successfully"), fs',
       [FsExists (path_join dataDir filename); FsUnlink (path_join dataDir filename)]) /\
    (forall other,
       rejected_filename other = false ->
       path_join dataDir other = path_join dataDir filename ->
       get_file other fs' =
         (Response 404 (BodyError "File not found"), [FsExists (path_join dataDir filename)]) /\
       (delete_file true other fs').1.1 = Response 404 (BodyError "File not found")) /\
    forall path, path <> path_join dataDir filename -> fs' !! path = fs !! path.
Proof.
  intros Hok Hfile. exists (delete (path_join dataDir filename) fs).
  unfold delete_file, get_file. rewrite Hok, Hfile.
  split_and!; [done | | by intros path Hne; rewrite lookup_delete_ne].
  intros other Hother ->. by rewrite Hother, lookup_delete_eq.
Qed.

Lemma includes_step c s :
  includes ".." (String c s) = String.prefix ".." (String c s) || includes ".." s.
Proof. done. Qed.

Lemma digit_not_dot c s :
  is_digit c = true -> includes ".." (String c s) = includes ".." s.
Proof.
  intros Hd. rewrite includes_step.
  destruct (String.prefix ".." (String c s)) eqn:E; [|done].
  apply prefix_app in E as [b Hb]. injection Hb as -> _. by vm_compute in Hd.
Qed.

Lemma string_app_assoc (a b c : string) : a +:+ b +:+ c = (a +:+ b) +:+ c.
Proof.
  induction a as [|x a IH]; [done|].
  change (String x (a +:+ b +:+ c) = String x ((a +:+ b) +:+ c)). by rewrite IH.
Qed.

Lemma string_app_cons x (a b : string) : String x a +:+ b = String x (a +:+ b).
Proof. done. Qed.

Lemma string_app_nil (b : string) : "" +:+ b = b.
Proof. done. Qed.

Lemma single_char_eqb c d : String.eqb (String c "") (String d "") = true -> c = d.
Proof. intros Heq%String.eqb_eq. by injection Heq. Qed.

(** A day-stamped name passes the guard of the endpoints. *)
Lemma day_file_accepted day :
  is_day_stamp day = true ->
  rejected_filename ("attendance_" +:+ day +:+ ".json") = false.
Proof.
  intros Hday. unfold rejected_filename.
  assert (Hends : endsWith ".json" ("attendance_" +:+ day +:+ ".json") = true).
  { apply endsWith_app. exists ("attendance_" +:+ day). apply string_app_assoc. }
  rewrite Hends. simpl negb. rewrite orb_false_r.
  unfold is_day_stamp in Hday.
  apply andb_true_iff in Hday as [Hday Hh2]. apply andb_true_iff in Hday as [Hday Hh1].
  apply andb_true_iff in Hday as [Hlen Hdig]. apply Nat.eqb_eq in Hlen.
  destruct day as [|c0 [|c1 [|c2 [|c3 [|c4 [|c5 [|c6 [|c7 [|c8 [|c9 [|c10 day]]]]]]]]]]];
    try discriminate Hlen.
  simpl in Hdig, Hh1, Hh2.
  apply single_char_eqb in Hh1 as ->. apply single_char_eqb in Hh2 as ->.
  repeat (apply andb_true_iff in Hdig as [?Hd Hdig]).
  rewrite !string_app_cons, !string_app_nil.
  repeat first
    [ rewrite digit_not_dot by done
    | rewrite includes_step;
      match goal with
      | |- context [String.prefix ".." ?t] =>
          let b := eval vm_compute in (String.prefix ".." t) in
          change (String.prefix ".." t) with b
      end;
      rewrite orb_false_l ].
  reflexivity.
Qed.

Section StoreEndpoints.
Context `{DateImpl}.

(** X20: for a day stamp YYYY-MM-DD the name attendance_YYYY-MM-DD.json
    passes the guard of the endpoints; after a successful save of that
    day the read endpoint serves the saved list under that name, the
    delete endpoint removes it, and a load of that day then finds
    nothing. *)
Theorem saved_day_is_served day w :
  is_day_stamp day = true ->
  let name := "attendance_" +:+ day +:+ ".json" in
  let content := ArrayOf (map (fun r => ItemObject (json_record r)) (allAttendanceRecords w)) in
  get_file name (files (saveRecords day true w).1) =
    (Response 200 (BodyJson content),
     [FsExists (day_file day); FsRead (day_file day)]) /\
  (delete_file true name (files (saveRecords day true w).1)).1.1 =
    Response 200 (BodyMessage "File deleted successfully") /\
  allAttendanceRecords
    (loadExistingRecords day
       {| allAttendanceRecords := allAttendanceRecords w;
          uniqueSignatures := uniqueSignatures w;
          latestDeviceData := latestDeviceData w;
          files := (delete_file true name (files (saveRecords day true w).1)).1.2 |}) = [].
Proof.
  intros Hday name content. subst name content.
  pose proof (day_file_accepted day Hday) as Hok.
  unfold get_file, delete_file, saveRecords, loadExistingRecords. cbn [fst snd files].
  rewrite Hok. fold (day_file day). rewrite lookup_insert_eq. cbn [fst snd].
  by rewrite lookup_delete_eq.
Qed.

(** ** The forwarder, further *)

(** X21: the conversion to the collector's schema keeps the number of
    records; in every converted record DeviceUserID is a string,
    UserName and Type are truthy, UserSN is truthy or the number 0 and
    DeviceIP is truthy or the empty string. *)
Theorem converted_records_are_well_shaped logs :
  length (convertToCSharpFormat logs) = length logs /\
  forall c, c ∈ convertToCSharpFormat logs ->
    (exists s, DeviceUserID c = JStr s) /\
    value_truthy (UserName c) = true /\ truthy (Type_ c) = true /\
    (truthy (UserSN c) = true \/ UserSN c = JNum 0) /\
    (truthy (DeviceIP c) = true \/ DeviceIP c = JStr "").
Proof.
  unfold convertToCSharpFormat. split; [apply length_map|].
  intros c Hc. apply list_elem_of_In, in_map_iff in Hc as (log & <- & _). simpl.
  unfold js_or, value_or. split_and!.
  - destruct (deviceUserId log) as [| |b|n| |s]; simpl; eauto.
    + destruct (String.eqb _ ""); simpl; eauto.
    + destruct (String.eqb _ ""); simpl; eauto.
    + destruct (String.eqb s ""); simpl; eauto.
  - by destruct (value_truthy (name log)) eqn:E.
  - by destruct (truthy (type log)) eqn:E.
  - destruct (truthy (userSn log)) eqn:E; auto.
  - destruct (truthy (deviceIP log)) eqn:E; auto.
Qed.

End StoreEndpoints.

(** ** Signatures *)

Lemma no_underscore_includes s : no_underscore s <-> includes "_" s = false.
Proof.
  unfold no_underscore. rewrite <- not_true_iff_false, includes_app. split.
  - intros Hs (a & b & ->). by eapply Hs.
  - intros Hs a b ->. apply Hs. by exists a, b.
Qed.

Lemma no_underscore_tail c s : no_underscore (String c s) -> no_underscore s.
Proof. intros Hs a b ->. by apply (Hs (String c a) b). Qed.

Lemma no_underscore_head s r : ~ no_underscore ("_" +:+ r +:+ s) .
Proof. intros Hs. apply (Hs "" (r +:+ s)). done. Qed.

Lemma split_at_first_underscore a1 a2 r1 r2 :
  no_underscore a1 -> no_underscore a2 ->
  a1 +:+ "_" +:+ r1 = a2 +:+ "_" +:+ r2 -> a1 = a2 /\ r1 = r2.
Proof.
  revert a2. induction a1 as [|c a1 IH]; intros [|d a2] H1 H2 Heq.
  - by injection Heq.
  - exfalso. rewrite string_app_nil, string_app_cons in Heq. injection Heq as <- _.
    apply (H2 "" a2). done.
  - exfalso. rewrite string_app_nil, string_app_cons in Heq. injection Heq as -> _.
    apply (H1 "" a1). done.
  - rewrite !string_app_cons in Heq. injection Heq as -> Heq.
    destruct (IH a2 (no_underscore_tail _ _ H1) (no_underscore_tail _ _ H2) Heq) as [-> ->].
    done.
Qed.

Lemma split_at_last_underscore a1 a2 m1 m2 :
  no_underscore m1 -> no_underscore m2 ->
  a1 +:+ "_" +:+ m1 = a2 +:+ "_" +:+ m2 -> a1 = a2 /\ m1 = m2.
Proof.
  revert a2. induction a1 as [|c a1 IH]; intros [|d a2] H1 H2 Heq.
  - by injection Heq.
  - exfalso. rewrite string_app_nil, string_app_cons in Heq. injection Heq as _ Heq.
    by apply (H1 a2 m2).
  - exfalso. rewrite string_app_nil, string_app_cons in Heq. injection Heq as _ Heq.
    by apply (H2 a1 m1).
  - rewrite !string_app_cons in Heq. injection Heq as -> Heq.
    destruct (IH a2 H1 H2 Heq) as [-> ->]. done.
Qed.

Lemma numeral_no_underscore s : numeral s -> no_underscore s.
Proof.
  intros Hs. apply no_underscore_includes.
  induction s as [|c s IH]; [done|]. destruct Hs as [Hc Hs].
  cbn [includes]. rewrite IH by done. rewrite orb_false_r.
  destruct (String.prefix "_" (String c s)) eqn:E; [|done].
  apply prefix_app in E as [b Hb]. injection Hb as -> _. by vm_compute in Hc.
Qed.

Lemma numeral_not_NaN s : numeral s -> s <> "NaN".
Proof. intros Hs ->. destruct Hs as [Hc _]. by vm_compute in Hc. Qed.

Lemma pretty_N_go_numeral x s : numeral s -> numeral (pretty_N_go x s).
Proof.
  revert s. induction (N.lt_wf_0 x) as [x _ IH]; intros s Hs.
  destruct (decide (x = 0)%N) as [->|Hx]; [by rewrite pretty_N_go_0|].
  rewrite pretty_N_go_step by lia. apply IH; [apply N.div_lt; lia|].
  split; [|done]. unfold pretty_N_char. by repeat case_match.
Qed.

Lemma pretty_Z_numeral (t : Z) : numeral (pretty t).
Proof.
  assert (HN : forall x : N, numeral (pretty x)).
  { intros x. unfold pretty, pretty_N. case_decide; [done|]. by apply pretty_N_go_numeral. }
  destruct t as [|p|p]; [done | apply HN |]. split; [done | apply HN].
Qed.

Section SignatureFacts.
Context `{DateImpl}.

Lemma time_part_inj (t1 t2 : option Z) :
  match t1 with Some t => pretty t | None => "NaN" end =
  match t2 with Some t => pretty t | None => "NaN" end -> t1 = t2.
Proof.
  destruct t1 as [t1|], t2 as [t2|]; intros Heq; [| | |done].
  - by apply (inj pretty) in Heq as ->.
  - by apply numeral_not_NaN in Heq; [|apply pretty_Z_numeral].
  - symmetry in Heq. by apply numeral_not_NaN in Heq; [|apply pretty_Z_numeral].
Qed.

Lemma time_part_no_underscore (t : option Z) :
  no_underscore (match t with Some t => pretty t | None => "NaN" end).
Proof.
  destruct t as [t|]; [apply numeral_no_underscore, pretty_Z_numeral|].
  by apply no_underscore_includes.
Qed.

(** X22: for two records whose deviceIP prints without an underscore,
    the signatures are equal exactly when the deviceIPs print alike,
    the deviceUserIds print alike and the record times have the same
    epoch milliseconds (or are both invalid). *)
Theorem signature_identifies_event r1 r2 :
  no_underscore (to_string (deviceIP r1)) ->
  no_underscore (to_string (deviceIP r2)) ->
  createRecordSignature r1 = createRecordSignature r2 <->
  to_string (deviceIP r1) = to_string (deviceIP r2) /\
  to_string (deviceUserId r1) = to_string (deviceUserId r2) /\
  Date_getTime (recordTime r1) = Date_getTime (recordTime r2).
Proof.
  intros H1 H2. unfold createRecordSignature. split.
  - intros Heq.
    apply split_at_first_underscore in Heq as [Hip Heq]; [|done..].
    apply split_at_last_underscore in Heq as [Hid Heq];
      [|apply time_part_no_underscore..].
    by apply time_part_inj in Heq.
  - by intros (-> & -> & ->).
Qed.

End SignatureFacts.

(** ** Cycles in a row *)

Section RepeatedCycles.
Context `{DateImpl}.

Lemma fetched_from_enriched env ip raw r :
  fetched_from env ip raw r ->
  exists users, enriched_from ip users raw r.
Proof.
  intros (_ & s & ls & i & Hs & Hl & Hraw & Hr). revert Hs. unfold fetchDeviceData.
  destruct (fetch_try_cases ip (terminal env ip)) as [(e & Hf & Ht)|Hok].
  - destruct (fetch_try ip (terminal env ip)) as [tr x]. simpl in Ht. subst x.
    unfold fetch_catch. destruct (read_message e); [discriminate|].
    intros [= <-]. simpl in Hr. by rewrite lookup_nil in Hr.
  - destruct Hok as (inf & us & ls' & en & Hc & Hi & Hu' & Hl' & Hm & Hd & ->).
    intros [= <-]. simpl in Hr. rewrite Hl in Hl'. injection Hl' as <-.
    assert (HF : Forall2 (enriched_from ip (default [] us)) (default [] ls) en).
    { eapply map_throwing_Forall2; [|exact Hm]. intros x y. apply enhance_enriched. }
    exists (default [] us). by eapply Forall2_lookup_lr.
Qed.

(** The logs the cycle merges are those built from raw logs. *)
Lemma fetched_from_merged env ip raw r :
  fetched_from env ip raw r -> r ∈ merged_logs (fetch_all (terminal env)).
Proof.
  intros (Hip & s & ls & i & Hs & _ & _ & Hr).
  apply list_elem_of_lookup_2 in Hr.
  unfold merged_logs, fetch_all, devices in *. cbn [map flat_map]. rewrite app_nil_r.
  apply elem_of_app.
  apply elem_of_cons in Hip as [->|Hip]; [left; by rewrite Hs|].
  apply list_elem_of_singleton in Hip as ->. right. by rewrite Hs.
Qed.

Lemma device_no_underscore ip : ip ∈ devices -> no_underscore ip.
Proof.
  intros Hip. apply elem_of_cons in Hip as [->|Hip]; [by apply no_underscore_includes|].
  apply list_elem_of_singleton in Hip as ->. by apply no_underscore_includes.
Qed.

(** X23: take two logs of a cycle, built from the raw logs of their
    terminals, whose times survive the ISO form the fetch gives them
    (reading the ISO form of the time gives the time again, as it does
    for every valid date of JavaScript).  Both are among the logs the
    cycle merges, and they have the same signature exactly when they
    come from the same terminal, their raw deviceUserIds print alike
    and their raw times have the same epoch milliseconds: the dedup
    never takes two distinct events of the terminals for one. *)
Theorem fetched_logs_share_signature_iff env ip1 ip2 raw1 raw2 r1 r2 t1 t2 :
  fetched_from env ip1 raw1 r1 ->
  fetched_from env ip2 raw2 r2 ->
  Date_getTime (recordTime raw1) = Some t1 ->
  Date_getTime (recordTime raw2) = Some t2 ->
  Date_getTime (JStr (Date_toISOString t1)) = Some t1 ->
  Date_getTime (JStr (Date_toISOString t2)) = Some t2 ->
  r1 ∈ merged_logs (fetch_all (terminal env)) /\
  r2 ∈ merged_logs (fetch_all (terminal env)) /\
  (createRecordSignature r1 = createRecordSignature r2 <->
   ip1 = ip2 /\
   to_string (deviceUserId raw1) = to_string (deviceUserId raw2) /\
   t1 = t2).
Proof.
  intros H1 H2 Ht1 Ht2 Hrt1 Hrt2.
  split; [by eapply fetched_from_merged|]. split; [by eapply fetched_from_merged|].
  pose proof (device_no_underscore ip1 (proj1 H1)) as Hn1.
  pose proof (device_no_underscore ip2 (proj1 H2)) as Hn2.
  apply fetched_from_enriched in H1 as (us1 & Hid1 & Hip1 & _ & _ & _ & _ & t1' & Ht1' & Hr1).
  apply fetched_from_enriched in H2 as (us2 & Hid2 & Hip2 & _ & _ & _ & _ & t2' & Ht2' & Hr2).
  rewrite Ht1 in Ht1'. injection Ht1' as <-. rewrite Ht2 in Ht2'. injection Ht2' as <-.
  unfold createRecordSignature.
  rewrite Hid1, Hid2, Hip1, Hip2, Hr1, Hr2, Hrt1, Hrt2. cbn [to_string]. split.
  - intros Heq.
    apply split_at_first_underscore in Heq as [Hip Heq]; [|done..].
    apply split_at_last_underscore in Heq as [Hid Heq];
      [|apply numeral_no_underscore, pretty_Z_numeral..].
    by apply (inj pretty) in Heq.
  - by intros (-> & -> & ->).
Qed.

(** X24: a second cycle of the remote-sync variant, right after a first
    one and against terminals that answer as before, has no effect: no
    write, no POST, newRecordsCount 0, apiSent false, and the record
    list and the files are unchanged. *)
Theorem second_sync_does_nothing env w day' disk' http' :
  let w1 := (fetchAndSendToAPI env w).1.1 in
  let env' := {| today := day'; terminal := terminal env;
                 disk_ok := disk'; http := http' |} in
  (fetchAndSendToAPI env' w1).2 = [] /\
  newRecordsCount (fetchAndSendToAPI env' w1).1.2 = 0 /\
  apiSent (fetchAndSendToAPI env' w1).1.2 = Some false /\
  allAttendanceRecords (fetchAndSendToAPI env' w1).1.1 = allAttendanceRecords w1 /\
  files (fetchAndSendToAPI env' w1).1.1 = files w1.
Proof.
  intros w1 env'.
  assert (Hzero : acc_count (index (poll_and_accept env' w1).2) = 0 /\
                  allAttendanceRecords (poll_and_accept env' w1).1 = allAttendanceRecords w1).
  { destruct (poll_and_accept_accepts env' w1) as (new & Hr & Hsub & Hu & _ & _ & Hc).
    assert (Hnew : new = []).
    { destruct new as [|r new]; [done|]. exfalso.
      apply (Hu r (list_elem_of_here _ _)).
      subst w1. destruct (fetchAndSendToAPI_index env w) as (_ & -> & _).
      destruct (poll_and_accept_accepts env w) as (_ & _ & _ & _ & _ & -> & _).
      apply elem_of_union. right. apply elem_of_list_to_set, list_elem_of_fmap_2.
      eapply elem_of_sublist; [apply list_elem_of_here | exact Hsub]. }
    subst new. rewrite app_nil_r in Hr. by rewrite Hc, Hr. }
  destruct Hzero as [Hc Hr].
  unfold fetchAndSendToAPI at 1 2 3 4 5.
  destruct (poll_and_accept env' w1) as [w2 b] eqn:Hp. simpl in *.
  rewrite Hc. simpl. split_and!; try done.
  change w2 with (w2, b).1. rewrite <- Hp. done.
Qed.

(** X25: when the disk refuses the write of a cycle, the files stay as
    they were while the records stay accepted in memory; a next cycle
    against the same answers, with the disk working again, writes
    nothing, so the day file still lacks those records. *)
Theorem failed_save_is_not_retried env w day' http' :
  disk_ok env = false ->
  let w1 := (fetchAndSaveNewRecords env w).1.1 in
  let env' := {| today := day'; terminal := terminal env;
                 disk_ok := true; http := http' |} in
  files w1 = files w /\
  (fetchAndSaveNewRecords env' w1).2 = [] /\
  files (fetchAndSaveNewRecords env' w1).1.1 = files w /\
  allAttendanceRecords (fetchAndSaveNewRecords env' w1).1.1 = allAttendanceRecords w1.
Proof.
  intros Hdisk w1 env'.
  assert (Hfiles : files w1 = files w).
  { subst w1. unfold fetchAndSaveNewRecords, saveRecords. rewrite Hdisk.
    destruct (poll_and_accept_extends env w) as (_ & _ & _ & _ & Hf).
    destruct (poll_and_accept env w) as [w0 b]. simpl in *.
    by destruct (0 <? _)%nat. }
  assert (Hzero : acc_count (index (poll_and_accept env' w1).2) = 0 /\
                  allAttendanceRecords (poll_and_accept env' w1).1 = allAttendanceRecords w1 /\
                  files (poll_and_accept env' w1).1 = files w1).
  { destruct (poll_and_accept_accepts env' w1) as (new & Hr & Hsub & Hu & _ & _ & Hc).
    assert (Hnew : new = []).
    { destruct new as [|r new]; [done|]. exfalso.
      apply (Hu r (list_elem_of_here _ _)).
      subst w1. destruct (fetchAndSaveNewRecords_index env w) as (_ & -> & _).
      destruct (poll_and_accept_accepts env w) as (_ & _ & _ & _ & _ & -> & _).
      apply elem_of_union. right. apply elem_of_list_to_set, list_elem_of_fmap_2.
      eapply elem_of_sublist; [apply list_elem_of_here | exact Hsub]. }
    subst new. rewrite app_nil_r in Hr. by rewrite Hc, Hr. }
  destruct Hzero as (Hc & Hr & Hf).
  split; [done|]. rewrite <- Hfiles.
  unfold fetchAndSaveNewRecords at 1 2 3.
  destruct (poll_and_accept env' w1) as [w2 b] eqn:Hp. simpl in *. rewrite Hc. simpl.
  done.
Qed.

End RepeatedCycles.

(** ** Instances of the further conditional properties *)

Section FurtherInstances.
#[local] Existing Instance IsoDate.impl.
Import Scenario Cases.

Lemma load_failure_empties_witness :
  match files (world_with (ArrayOf [ItemObject enriched_record; ItemNull]))
          !! day_file "2024-01-01" with
  | Some (ArrayOf items) => ItemNull ∈ items
  | _ => True
  end /\
  allAttendanceRecords
    (loadExistingRecords "2024-01-01"
       (world_with (ArrayOf [ItemObject enriched_record; ItemNull]))) = [].
Proof.
  assert (Hbad : match files (world_with (ArrayOf [ItemObject enriched_record; ItemNull]))
                         !! day_file "2024-01-01" with
                 | Some (ArrayOf items) => ItemNull ∈ items
                 | _ => True
                 end).
  { unfold world_with, initial_world. cbn [files]. rewrite lookup_singleton_eq.
    apply list_elem_of_further, list_elem_of_here. }
  split; [exact Hbad|].
  exact (proj1 (load_failure_empties "2024-01-01"
                  (world_with (ArrayOf [ItemObject enriched_record; ItemNull])) Hbad)).
Defined.

Lemma load_takes_wellformed_items_witness :
  files (world_with (ArrayOf day_items)) !! day_file "2024-01-01" = Some (ArrayOf day_items) /\
  (ItemNull ∉ day_items) /\
  (allAttendanceRecords (loadExistingRecords "2024-01-01" (world_with (ArrayOf day_items)))
     `sublist_of` loadable day_items) /\
  allAttendanceRecords (loadExistingRecords "2024-01-01" (world_with (ArrayOf day_items)))
    = [enriched_record].
Proof.
  assert (Hfile : files (world_with (ArrayOf day_items)) !! day_file "2024-01-01"
                  = Some (ArrayOf day_items))
    by (unfold world_with, initial_world; cbn [files]; apply lookup_singleton_eq).
  assert (Hnull : ItemNull ∉ day_items).
  { intros Hin. unfold day_items in Hin.
    repeat (apply elem_of_cons in Hin as [Hin|Hin]; [discriminate Hin|]).
    by apply elem_of_nil in Hin. }
  destruct (load_takes_wellformed_items "2024-01-01" _ _ Hfile Hnull) as (Hsub & _).
  split_and!; [exact Hfile | exact Hnull | exact Hsub |].
  unfold loadExistingRecords. rewrite Hfile. reflexivity.
Defined.


Lemma after_first_cycle_reachable : reachable after_first_cycle.
Proof.
  exists ∅. eapply rtc_l; [apply (step_load "2024-01-01")|].
  eapply rtc_l; [apply (step_cycle (env_of (only "192.168.18.253")))|].
  apply rtc_refl.
Defined.

Lemma health_counts_agree_witness :
  reachable after_first_cycle /\
  dataStats_uniqueSignatures (api_sync_health after_first_cycle) =
    dataStats_totalRecords (api_sync_health after_first_cycle).
Proof.
  split; [exact after_first_cycle_reachable|].
  exact (proj1 (health_counts_agree after_first_cycle after_first_cycle_reachable)).
Defined.

Lemma health_admins_within_users_witness :
  reachable after_first_cycle /\
  health_adminUsers (api_health after_first_cycle) <=
    health_totalUsers (api_health after_first_cycle).
Proof.
  split; [exact after_first_cycle_reachable|].
  exact (health_admins_within_users after_first_cycle after_first_cycle_reachable).
Defined.

Lemma online_logs_follow_raw_logs_witness :
  (fetchDeviceData "192.168.18.253" with_method_name).2 =
    Fulfilled (value_of (fetchDeviceData "192.168.18.253" with_method_name).2) /\
  status (value_of (fetchDeviceData "192.168.18.253" with_method_name).2) = online /\
  getUsers with_method_name = Normal (Some [alice]) /\
  getAttendances with_method_name = Normal (Some [raw_log; log_of_toString]) /\
  Forall2 (enriched_from "192.168.18.253" [alice]) [raw_log; log_of_toString]
    (attendanceLogs (value_of (fetchDeviceData "192.168.18.253" with_method_name).2)) /\
  name <$> attendanceLogs (value_of (fetchDeviceData "192.168.18.253" with_method_name).2) =
    [Prim (JStr "Alice"); Inherited "toString"].
Proof.
  assert (H1 : (fetchDeviceData "192.168.18.253" with_method_name).2 =
               Fulfilled (value_of (fetchDeviceData "192.168.18.253" with_method_name).2))
    by reflexivity.
  assert (H2 : status (value_of (fetchDeviceData "192.168.18.253" with_method_name).2) = online)
    by reflexivity.
  assert (H3 : getUsers with_method_name = Normal (Some [alice])) by reflexivity.
  assert (H4 : getAttendances with_method_name = Normal (Some [raw_log; log_of_toString]))
    by reflexivity.
  split_and!; [exact H1 | exact H2 | exact H3 | exact H4 | | reflexivity].
  exact (proj1 (proj2 (online_logs_follow_raw_logs _ _ _ _ _ H1 H2 H3 H4))).
Defined.

Lemma admin_users_have_role_14_witness :
  (fetchDeviceData "192.168.18.253" with_admin).2 =
    Fulfilled (value_of (fetchDeviceData "192.168.18.253" with_admin).2) /\
  (admin_bob ∈ adminUsers (value_of (fetchDeviceData "192.168.18.253" with_admin).2) <->
   admin_bob ∈ allUsers (value_of (fetchDeviceData "192.168.18.253" with_admin).2) /\
   role admin_bob = JNum 14).
Proof.
  assert (H1 : (fetchDeviceData "192.168.18.253" with_admin).2 =
               Fulfilled (value_of (fetchDeviceData "192.168.18.253" with_admin).2))
    by reflexivity.
  split; [exact H1|].
  exact (admin_users_have_role_14 _ _ _ admin_bob H1).
Defined.

Lemma cycle_publishes_each_terminal_witness :
  (fetchDeviceData "192.168.18.253" (two_names "192.168.18.253")).2 =
    Fulfilled (value_of (fetchDeviceData "192.168.18.253" (knowing user_x)).2) /\
  (fetchDeviceData "192.168.18.252" (two_names "192.168.18.252")).2 =
    Fulfilled (value_of (fetchDeviceData "192.168.18.252" (knowing user_y)).2) /\
  allUsers (combinedData (fetchAndSaveNewRecords (env_of two_names) (initial_world ∅)).1.2)
    = unique_users ([user_x] ++ [user_y]).
Proof.
  assert (H1 : (fetchDeviceData "192.168.18.253" (two_names "192.168.18.253")).2 =
               Fulfilled (value_of (fetchDeviceData "192.168.18.253" (knowing user_x)).2))
    by reflexivity.
  assert (H2 : (fetchDeviceData "192.168.18.252" (two_names "192.168.18.252")).2 =
               Fulfilled (value_of (fetchDeviceData "192.168.18.252" (knowing user_y)).2))
    by reflexivity.
  destruct (cycle_publishes_each_terminal (env_of two_names) (initial_world ∅) _ _ H1 H2)
    as (_ & _ & _ & _ & _ & Hu & _).
  split_and!; [exact H1 | exact H2 | exact Hu].
Defined.

Lemma failed_terminal_leaves_the_other_witness :
  (("192.168.18.252" = "192.168.18.253" /\ "192.168.18.253" = "192.168.18.252") \/
   ("192.168.18.252" = "192.168.18.252" /\ "192.168.18.253" = "192.168.18.253")) /\
  first_failure "192.168.18.252" (one_rejecting "192.168.18.252") ThrownUndefined /\
  (fetchDeviceData "192.168.18.252" (one_rejecting "192.168.18.252")).2 =
    Rejected (TypeError "Cannot read properties of undefined (reading 'message')") /\
  deviceData
    (fetchAndSaveNewRecords (env_of one_rejecting) (initial_world ∅)).1.2 !! "192.168.18.252" =
    Some (offline_snapshot "192.168.18.252"
            (JStr "Cannot read properties of undefined (reading 'message')")) /\
  attendanceLogs
    (combinedData
       (fetchAndSaveNewRecords (env_of one_rejecting) (initial_world ∅)).1.2) =
    [enriched_record].
Proof.
  assert (Hwhich : ("192.168.18.252" = "192.168.18.253" /\ "192.168.18.253" = "192.168.18.252") \/
                   ("192.168.18.252" = "192.168.18.252" /\ "192.168.18.253" = "192.168.18.253"))
    by (right; split; reflexivity).
  assert (Hfail : first_failure "192.168.18.252" (one_rejecting "192.168.18.252")
                    ThrownUndefined)
    by (apply fail_connect; reflexivity).
  assert (Hgood : (fetchDeviceData "192.168.18.253" (one_rejecting "192.168.18.253")).2 =
                  Fulfilled (value_of (fetchDeviceData "192.168.18.253" answering).2))
    by reflexivity.
  destruct (failed_terminal_leaves_the_other "192.168.18.252" "192.168.18.253"
              (env_of one_rejecting) (initial_world ∅) _ _ Hwhich Hfail Hgood)
    as (Hbad & _ & Hl & _).
  split_and!; [exact Hwhich | exact Hfail | reflexivity | exact Hbad | exact Hl].
Defined.

Lemma last_run_after_a_sync_witness :
  rtc step (fetchAndSendToAPI (env_of (only "192.168.18.253")) (initial_world ∅)).1.1
           (fetchAndSendToAPI (env_of (only "192.168.18.253")) (initial_world ∅)).1.1 /\
  lastRun (api_sync_health
             (fetchAndSendToAPI (env_of (only "192.168.18.253")) (initial_world ∅)).1.1)
    = "Recently".
Proof.
  assert (Hrun : rtc step
            (fetchAndSendToAPI (env_of (only "192.168.18.253")) (initial_world ∅)).1.1
            (fetchAndSendToAPI (env_of (only "192.168.18.253")) (initial_world ∅)).1.1)
    by apply rtc_refl.
  split; [exact Hrun|].
  exact (proj1 (last_run_after_a_sync _ _ _ Hrun)).
Defined.

Lemma dashboard_fetch_keeps_record_time_witness :
  createSocket answering = Normal () /\ getInfo answering = Normal None /\
  getUsers answering = Normal (Some [alice]) /\
  getAttendances answering = Normal (Some [raw_log]) /\
  disconnect answering = Normal () /\
  exists s,
    (Dashboard.fetchDeviceData "192.168.18.252" answering).2 = Fulfilled s /\
    status s = online /\ length (attendanceLogs s) = 1.
Proof.
  destruct (dashboard_fetch_keeps_record_time "192.168.18.252" answering None
              (Some [alice]) (Some [raw_log]) eq_refl eq_refl eq_refl eq_refl eq_refl)
    as (s & Hs & Hon & Hlen & _).
  split_and!; try reflexivity. by exists s.
Defined.

Lemma dashboard_poll_merges_witness :
  (Dashboard.fetchDeviceData "192.168.18.253" (two_names "192.168.18.253")).2 =
    Fulfilled (value_of (Dashboard.fetchDeviceData "192.168.18.253" (knowing user_x)).2) /\
  (Dashboard.fetchDeviceData "192.168.18.252" (two_names "192.168.18.252")).2 =
    Fulfilled (value_of (Dashboard.fetchDeviceData "192.168.18.252" (knowing user_y)).2) /\
  view_allUsers (Dashboard.poll two_names).2 = first_users ([user_x] ++ [user_y]).
Proof.
  assert (H1 : (Dashboard.fetchDeviceData "192.168.18.253" (two_names "192.168.18.253")).2 =
      Fulfilled (value_of (Dashboard.fetchDeviceData "192.168.18.253" (knowing user_x)).2))
    by reflexivity.
  assert (H2 : (Dashboard.fetchDeviceData "192.168.18.252" (two_names "192.168.18.252")).2 =
      Fulfilled (value_of (Dashboard.fetchDeviceData "192.168.18.252" (knowing user_y)).2))
    by reflexivity.
  destruct (dashboard_poll_merges two_names _ _ H1 H2) as (_ & _ & _ & Hu & _).
  split_and!; [exact H1 | exact H2 | exact Hu].
Defined.

Lemma delete_then_get_not_found_witness :
  rejected_filename "./notes.json" = false /\
  ({["data/notes.json" := NotArray]} : gmap string file_content)
    !! path_join dataDir "./notes.json" = Some NotArray /\
  exists fs',
    (delete_file true "./notes.json" {["data/notes.json" := NotArray]}).1.2 = fs' /\
    get_file "notes.json" fs' =
      (Response 404 (BodyError "File not found"), [FsExists "data/notes.json"]) /\
    fs' !! "data/notes.json" = None.
Proof.
  assert (Hok : rejected_filename "./notes.json" = false) by reflexivity.
  assert (Hfile : ({["data/notes.json" := NotArray]} : gmap string file_content)
                    !! path_join dataDir "./notes.json" = Some NotArray)
    by apply lookup_singleton_eq.
  destruct (delete_then_get_not_found "./notes.json" _ _ Hok Hfile)
    as (fs' & Hdel & Hget & _).
  split_and!; [exact Hok | exact Hfile |].
  exists fs'. split; [by rewrite Hdel|].
  destruct (Hget "notes.json" eq_refl eq_refl) as [Hg _]. split; [exact Hg|].
  unfold get_file in Hg. change (rejected_filename "notes.json") with false in Hg.
  change (path_join dataDir "notes.json") with "data/notes.json" in Hg.
  cbv iota in Hg. by destruct (fs' !! "data/notes.json") as [[]|].
Defined.

Lemma saved_day_is_served_witness :
  is_day_stamp "2024-01-01" = true /\
  (get_file "attendance_2024-01-01.json"
     (files (saveRecords "2024-01-01" true after_first_cycle).1)).1 =
    Response 200
      (BodyJson (ArrayOf (map (fun r => ItemObject (json_record r))
                            (allAttendanceRecords after_first_cycle)))).
Proof.
  assert (Hday : is_day_stamp "2024-01-01" = true) by reflexivity.
  split; [exact Hday|].
  pose proof (proj1 (saved_day_is_served "2024-01-01" after_first_cycle Hday)) as Hget.
  exact (f_equal fst Hget).
Defined.

Lemma signature_identifies_event_witness :
  no_underscore (to_string (deviceIP enriched_record)) /\
  no_underscore (to_string (deviceIP record_of_user_0)) /\
  createRecordSignature enriched_record <> createRecordSignature record_of_user_0.
Proof.
  assert (H1 : no_underscore (to_string (deviceIP enriched_record)))
    by (apply no_underscore_includes; reflexivity).
  assert (H2 : no_underscore (to_string (deviceIP record_of_user_0)))
    by (apply no_underscore_includes; reflexivity).
  split_and!; [exact H1 | exact H2 |].
  intros Heq.
  apply (signature_identifies_event enriched_record record_of_user_0 H1 H2) in Heq
    as (Hip & _).
  discriminate Hip.
Defined.

Lemma fetched_logs_share_signature_iff_witness :
  fetched_from two_events_env "192.168.18.253" raw_log enriched_record /\
  fetched_from two_events_env "192.168.18.253" raw_log_later enriched_later /\
  Date_getTime (recordTime raw_log) = Some 1704096000000%Z /\
  Date_getTime (recordTime raw_log_later) = Some 1704096060000%Z /\
  Date_getTime (JStr (Date_toISOString 1704096000000)) = Some 1704096000000%Z /\
  Date_getTime (JStr (Date_toISOString 1704096060000)) = Some 1704096060000%Z /\
  enriched_record ∈ merged_logs (fetch_all (terminal two_events_env)) /\
  enriched_later ∈ merged_logs (fetch_all (terminal two_events_env)) /\
  createRecordSignature enriched_record <> createRecordSignature enriched_later.
Proof.
  assert (H1 : fetched_from two_events_env "192.168.18.253" raw_log enriched_record).
  { split; [apply list_elem_of_here|].
    eexists _, _, 0. split_and!; [vm_compute; reflexivity | reflexivity..]. }
  assert (H2 : fetched_from two_events_env "192.168.18.253" raw_log_later enriched_later).
  { split; [apply list_elem_of_here|].
    eexists _, _, 1. split_and!; [vm_compute; reflexivity | reflexivity..]. }
  assert (Ht1 : Date_getTime (recordTime raw_log) = Some 1704096000000%Z)
    by (vm_compute; reflexivity).
  assert (Ht2 : Date_getTime (recordTime raw_log_later) = Some 1704096060000%Z)
    by (vm_compute; reflexivity).
  assert (Hr1 : Date_getTime (JStr (Date_toISOString 1704096000000)) = Some 1704096000000%Z)
    by (vm_compute; reflexivity).
  assert (Hr2 : Date_getTime (JStr (Date_toISOString 1704096060000)) = Some 1704096060000%Z)
    by (vm_compute; reflexivity).
  destruct (fetched_logs_share_signature_iff two_events_env _ _ _ _ _ _ _ _ H1 H2 Ht1 Ht2 Hr1 Hr2)
    as (Hin1 & Hin2 & Hiff).
  split_and!; [exact H1 | exact H2 | exact Ht1 | exact Ht2 | exact Hr1 | exact Hr2
              | exact Hin1 | exact Hin2 |].
  intros Heq. apply Hiff in Heq as (_ & _ & Heq). discriminate Heq.
Defined.

Lemma failed_save_is_not_retried_witness :
  disk_ok {| today := "2024-01-01"; terminal := only "192.168.18.253";
             disk_ok := false; http := HttpOk "ok" |} = false /\
  files (fetchAndSaveNewRecords
           {| today := "2024-01-01"; terminal := only "192.168.18.253";
              disk_ok := true; http := HttpOk "ok" |}
           (fetchAndSaveNewRecords
              {| today := "2024-01-01"; terminal := only "192.168.18.253";
                 disk_ok := false; http := HttpOk "ok" |}
              (initial_world ∅)).1.1).1.1 = ∅.
Proof.
  assert (Hdisk : disk_ok {| today := "2024-01-01"; terminal := only "192.168.18.253";
                             disk_ok := false; http := HttpOk "ok" |} = false)
    by reflexivity.
  split; [exact Hdisk|].
  destruct (failed_save_is_not_retried _ (initial_world ∅) "2024-01-01" (HttpOk "ok") Hdisk)
    as (_ & _ & Hf & _).
  exact Hf.
Defined.

End FurtherInstances.
